(** * Exam seating arrangement: a shallow embedding of the model layer

    The development follows the Python sources
    - [utils/constants.py]        (the branch code table),
    - [models/student.py]         (students and branch derivation),
    - [models/room.py]            (rooms and their seating grid),
    - [models/exam_session.py]    (the session aggregate),
    - [models/seating_allocator.py] (allocation and statistics),
    - [models/data_manager.py]    (the room summary),
    - [controllers/room_controller.py], [controllers/student_controller.py]
      and [controllers/arrangement_controller.py] (the list of rooms, the
      list of students and the capacity check).

    Python integers are [Z]; Python lists are [list]; strings are [string],
    sequences of 8-bit characters; [None] in a seat or in a queue is
    [None : option Student]; a raised exception is the [Raise] branch of the
    [result] monad; an insertion-ordered [dict] is an association list that
    is updated in place.  Methods that mutate their object return the new
    object.  Students and rooms are values: the rooms of a session are taken
    to be distinct objects, and a student listed twice in a roster is two
    equal entries. *)

From stdpp Require Import base numbers list strings sorting gmap.
From Stdlib Require Import ZArith Lia.

Local Open Scope Z_scope.

(** ** Python preliminaries *)

Inductive exn := IndexError.

Inductive result (A : Type) :=
  | Ok (a : A)
  | Raise (e : exn).
Arguments Ok {A} a.
Arguments Raise {A} e.

Instance result_ret : MRet result := λ A a, Ok a.
Instance result_bind : MBind result := λ A B f m,
  match m with Ok a => f a | Raise e => Raise e end.

(** [range(lo, hi)] *)
Definition range (lo hi : Z) : list Z := seqZ lo (hi - lo).

(** [len(l)] *)
Definition len {A} (l : list A) : Z := Z.of_nat (length l).

(** [enumerate(l)] *)
Definition enumerate {A} (l : list A) : list (Z * A) :=
  zip (seqZ 0 (len l)) l.

(** Position denoted by a Python index, negative indices counting from the
    end; [None] when the index is out of range. *)
Definition norm_index {A} (l : list A) (i : Z) : option nat :=
  if bool_decide (i < 0) then
    if bool_decide (0 ≤ len l + i) then Some (Z.to_nat (len l + i)) else None
  else
    if bool_decide (i < len l) then Some (Z.to_nat i) else None.

(** [l[i]] *)
Definition getitem {A} (l : list A) (i : Z) : result A :=
  match norm_index l i ≫= (λ n, l !! n) with
  | Some x => Ok x
  | None => Raise IndexError
  end.

(** [l[i] = x] *)
Definition setitem {A} (l : list A) (i : Z) (x : A) : result (list A) :=
  match norm_index l i with
  | Some n => Ok (<[n:=x]> l)
  | None => Raise IndexError
  end.

(** [del l[i]] *)
Definition delitem {A} (l : list A) (i : Z) : result (list A) :=
  match norm_index l i with
  | Some n => Ok (delete n l)
  | None => Raise IndexError
  end.

(** [any(p(x) for x in l)] *)
Definition any {A} (p : A → bool) (l : list A) : bool := existsb p l.

(** The index at which a loop [for i, x in enumerate(l): if p(x): ...; break]
    (or [return]) stops, if it does. *)
Fixpoint first_index {A} (p : A → bool) (ixs : list (Z * A)) : option Z :=
  match ixs with
  | [] => None
  | (i, x) :: rest => if p x then Some i else first_index p rest
  end.

(** [for x in xs: body], the loop state threaded through the body. *)
Fixpoint for_each {A S} (xs : list A) (body : A → S → result S) (s : S)
  : result S :=
  match xs with
  | [] => Ok s
  | x :: xs' => s' ← body x s; for_each xs' body s'
  end.

(** [s[a:b]] on a string, for [0 <= a <= b]. *)
Definition str_slice (a b : nat) (s : string) : string :=
  String.substring a (b - a) s.

(** Insertion-ordered dictionaries. *)
Section dict.
Context {K V : Type} `{EqDecision K}.

Fixpoint dict_get (k : K) (d : list (K * V)) : option V :=
  match d with
  | [] => None
  | (k', v') :: d' => if decide (k' = k) then Some v' else dict_get k d'
  end.

(** [k in d] *)
Definition dict_contains (k : K) (d : list (K * V)) : bool :=
  bool_decide (is_Some (dict_get k d)).

(** [d[k] = v]: an existing key keeps its place, a new key goes last. *)
Fixpoint dict_set (k : K) (v : V) (d : list (K * V)) : list (K * V) :=
  match d with
  | [] => [(k, v)]
  | (k', v') :: d' =>
      if decide (k' = k) then (k', v) :: d' else (k', v') :: dict_set k v d'
  end.

(** In-place update of the value stored under a present key, as in
    [d[k].append(x)] or [d[k] += 1]. *)
Fixpoint dict_alter (f : V → V) (k : K) (d : list (K * V)) : list (K * V) :=
  match d with
  | [] => []
  | (k', v') :: d' =>
      if decide (k' = k) then (k', f v') :: d'
      else (k', v') :: dict_alter f k d'
  end.

(** [d.values()] *)
Definition dict_values (d : list (K * V)) : list V := snd <$> d.

(** [del d[k]] for a key [k] of [d]. *)
Fixpoint dict_delete (k : K) (d : list (K * V)) : list (K * V) :=
  match d with
  | [] => []
  | (k', v') :: d' => if decide (k' = k) then d' else (k', v') :: dict_delete k d'
  end.
End dict.

(** ** utils/constants.py *)

Definition BRANCH_CODES : list (string * string) :=
  [ ("01", "CIV"); ("02", "EEE"); ("03", "MECH"); ("04", "ECE"); ("05", "CSE");
    ("12", "IT"); ("21", "AERO"); ("66", "CSM"); ("27", "XYZ") ]%string.

(** ** models/student.py *)

Record Student := mkStudent {
  hallticket_no : string;
  year : option Z;
  semester : option Z;
  regulation : option string;
  branch_name : option string
}.

Instance Student_eq_dec : EqDecision Student.
Proof. solve_decision. Defined.

Definition _get_branch_from_hallticket (self : Student) : string :=
  if bool_decide (String.length (hallticket_no self) = 10%nat) then
    let branch_code := str_slice 6 8 (hallticket_no self) in
    if dict_contains branch_code BRANCH_CODES then
      default ""%string (dict_get branch_code BRANCH_CODES)
    else ""%string
  else ""%string.

Definition get_branch_code (self : Student) : string :=
  if bool_decide (String.length (hallticket_no self) = 10%nat)
  then str_slice 6 8 (hallticket_no self) else ""%string.

Definition get_college_code (self : Student) : string :=
  if bool_decide (String.length (hallticket_no self) = 10%nat)
  then str_slice 2 4 (hallticket_no self) else ""%string.

(** [Student.__init__] *)
Definition new_Student (hallticket_no : string) (year semester : option Z)
    (regulation branch_name : option string) : Student :=
  let self := mkStudent hallticket_no year semester regulation branch_name in
  match branch_name with
  | None =>
      if bool_decide (String.length hallticket_no = 10%nat)
      then mkStudent hallticket_no year semester regulation
             (Some (_get_branch_from_hallticket self))
      else self
  | Some _ => self
  end.

(** Truth value of [student.branch_name]: [None] and the empty string are
    false. *)
Definition truthy_str (s : option string) : bool :=
  match s with
  | None => false
  | Some s => negb (bool_decide (s = ""%string))
  end.

(** Truth value of [student.year]: [None] and [0] are false. *)
Definition truthy_int (n : option Z) : bool :=
  match n with
  | None => false
  | Some n => negb (bool_decide (n = 0))
  end.

(** [sorted(list(set(l)))] *)
Definition sorted_set (l : list Z) : list Z :=
  merge_sort Z.le (elements (list_to_set (C:=gset Z) l)).

(** ** models/room.py *)

(** A room number is an opaque label, a string or a number. *)
Inductive RoomNo :=
  | RoomStr (s : string)
  | RoomInt (n : Z).

Instance RoomNo_eq_dec : EqDecision RoomNo.
Proof. solve_decision. Defined.

Abbreviation Grid := (list (list (option Student))).

Record Room := mkRoom {
  room_no : RoomNo;
  rows : Z;
  columns : Z;
  seating_grid : Grid
}.

(** [[[None for _ in range(columns)] for _ in range(rows)]] *)
Definition empty_grid (rows columns : Z) : Grid :=
  (λ _, (λ _, None) <$> range 0 columns) <$> range 0 rows.

(** [Room.__init__] *)
Definition new_Room (room_no : RoomNo) (rows columns : Z) : Room :=
  mkRoom room_no rows columns (empty_grid rows columns).

Definition capacity (self : Room) : Z := rows self * columns self.

Definition out_of_bounds (self : Room) (row column : Z) : bool :=
  bool_decide (row < 0) || bool_decide (row >= rows self)
  || bool_decide (column < 0) || bool_decide (column >= columns self).

Definition set_seat (self : Room) (row column : Z) (student : option Student)
  : result Room :=
  if out_of_bounds self row column then Raise IndexError
  else
    the_row ← getitem (seating_grid self) row;
    the_row' ← setitem the_row column student;
    grid' ← setitem (seating_grid self) row the_row';
    Ok (mkRoom (room_no self) (rows self) (columns self) grid').

Definition get_seat (self : Room) (row column : Z) : result (option Student) :=
  if out_of_bounds self row column then Raise IndexError
  else
    the_row ← getitem (seating_grid self) row;
    getitem the_row column.

Definition is_seat_empty (self : Room) (row column : Z) : result bool :=
  student ← get_seat self row column;
  Ok (bool_decide (student = None)).

Definition get_empty_seats_count (self : Room) : result Z :=
  for_each (range 0 (rows self)) (λ row,
    for_each (range 0 (columns self)) (λ col count,
      empty ← is_seat_empty self row col;
      Ok (if empty : bool then count + 1 else count))) 0.

Definition clear_all_seats (self : Room) : Room :=
  mkRoom (room_no self) (rows self) (columns self)
         (empty_grid (rows self) (columns self)).

(** ** models/exam_session.py

    The examination date is presentation data and is left out. *)

Record ExamSession := mkExamSession {
  exam_name : option string;
  session_year : option Z;
  session_semester : option Z;
  students : list Student;
  rooms : list Room
}.

Definition set_rooms (self : ExamSession) (rooms' : list Room) : ExamSession :=
  mkExamSession (exam_name self) (session_year self) (session_semester self)
                (students self) rooms'.

Definition set_students (self : ExamSession) (students' : list Student)
  : ExamSession :=
  mkExamSession (exam_name self) (session_year self) (session_semester self)
                students' (rooms self).

(** [ExamSession.__init__] *)
Definition new_ExamSession (exam_name : option string)
    (year semester : option Z) : ExamSession :=
  mkExamSession exam_name year semester [] [].

Definition add_student (self : ExamSession) (student : Student) : ExamSession :=
  set_students self (students self ++ [student]).

Definition add_students (self : ExamSession) (students' : list Student)
  : ExamSession :=
  set_students self (students self ++ students').

Definition add_room (self : ExamSession) (room : Room) : ExamSession :=
  set_rooms self (rooms self ++ [room]).

Definition add_rooms (self : ExamSession) (rooms' : list Room) : ExamSession :=
  set_rooms self (rooms self ++ rooms').

(** The room numbers compared by [==]. *)
Definition room_no_eqb (a b : RoomNo) : bool := bool_decide (a = b).

Definition remove_student (self : ExamSession) (hallticket : string)
  : result (bool * ExamSession) :=
  match first_index (λ student, bool_decide (hallticket_no student = hallticket))
                    (enumerate (students self)) with
  | Some i =>
      students' ← delitem (students self) i;
      Ok (true, set_students self students')
  | None => Ok (false, self)
  end.

Definition remove_room (self : ExamSession) (no : RoomNo)
  : result (bool * ExamSession) :=
  match first_index (λ room, room_no_eqb (room_no room) no)
                    (enumerate (rooms self)) with
  | Some i =>
      rooms' ← delitem (rooms self) i;
      Ok (true, set_rooms self rooms')
  | None => Ok (false, self)
  end.

(** [sum(room.capacity for room in self.rooms)] *)
Definition get_total_capacity (self : ExamSession) : Z :=
  foldl Z.add 0 (capacity <$> rooms self).

Definition has_sufficient_capacity (self : ExamSession) : bool :=
  bool_decide (get_total_capacity self >= len (students self)).

Definition get_additional_capacity_needed (self : ExamSession) : Z :=
  if has_sufficient_capacity self then 0
  else len (students self) - get_total_capacity self.

Abbreviation BranchGroups := (list (option string * list Student)).

Definition get_students_by_branch (self : ExamSession) : BranchGroups :=
  foldl (λ branch_dict student,
           let branch_dict :=
             if negb (dict_contains (branch_name student) branch_dict)
             then dict_set (branch_name student) [] branch_dict
             else branch_dict in
           dict_alter (λ l, l ++ [student]) (branch_name student) branch_dict)
        [] (students self).

(** ** models/seating_allocator.py *)

Record SeatingAllocator := mkSeatingAllocator {
  exam_session : ExamSession;
  odd_index : Z;
  even_index : Z
}.

(** [SeatingAllocator.__init__] *)
Definition new_SeatingAllocator (exam_session : ExamSession) : SeatingAllocator :=
  mkSeatingAllocator exam_session 0 0.

Definition set_odd_index (self : SeatingAllocator) (i : Z) : SeatingAllocator :=
  mkSeatingAllocator (exam_session self) i (even_index self).

Definition set_even_index (self : SeatingAllocator) (i : Z) : SeatingAllocator :=
  mkSeatingAllocator (exam_session self) (odd_index self) i.

Abbreviation Queue := (list (option Student)).

Definition _create_even_odd_lists (branch_groups : BranchGroups)
  : Queue * Queue :=
  let branch_wise_list := dict_values branch_groups in
  let '(even_list, odd_list) :=
    foldl (λ '(even_list, odd_list) '(i, students),
             if bool_decide (i = 0) then (Some <$> students, odd_list)
             else if bool_decide (i = 1) then (even_list, Some <$> students)
             else if bool_decide (len even_list > len odd_list)
                  then (even_list, odd_list ++ (Some <$> students))
                  else (even_list ++ (Some <$> students), odd_list))
          (([], []) : Queue * Queue) (enumerate branch_wise_list) in
  let max_length := len even_list `max` len odd_list in
  (even_list ++ replicate (Z.to_nat (max_length - len even_list)) None,
   odd_list ++ replicate (Z.to_nat (max_length - len odd_list)) None).

(** The two band loops of a room.  The state of each loop is the allocator
    (for its cursor) and the room being filled. *)
Definition _allocate_alternating_seats (self : SeatingAllocator) (room : Room)
    (even_list odd_list : Queue) : result (SeatingAllocator * Room) :=
  let columns := columns room in
  let rows := rows room in
  let odd_cols := (columns + 1) `div` 2 in
  let even_cols := columns - odd_cols in
  st ← for_each (range 1 (odd_cols + 1)) (λ odd_col,
         for_each (range 1 (rows + 1)) (λ odd_row '(self, room),
           room ← (if bool_decide (odd_index self < len odd_list) then
                     student ← getitem odd_list (odd_index self);
                     if bool_decide (student ≠ None)
                     then set_seat room (odd_row - 1) ((odd_col * 2 - 1) - 1) student
                     else Ok room
                   else Ok room);
           Ok (set_odd_index self (odd_index self + 1), room)))
       (self, room);
  for_each (range 1 (even_cols + 1)) (λ even_col,
    for_each (range 1 (rows + 1)) (λ even_row '(self, room),
      room ← (if bool_decide (even_index self < len even_list) then
                student ← getitem even_list (even_index self);
                if bool_decide (student ≠ None)
                then set_seat room (even_row - 1) ((even_col * 2) - 1) student
                else Ok room
              else Ok room);
      Ok (set_even_index self (even_index self + 1), room)))
    st.

(** The single-branch fill.  The cursor [k] is a local of the method. *)
Definition _allocate_sequential_seats (room : Room) (students : Queue)
  : result Room :=
  st ← for_each (range 0 (columns room)) (λ col,
         for_each (range 0 (rows room)) (λ row '(k, room),
           room ← (if bool_decide (k < len students) then
                     student ← getitem students k;
                     if bool_decide (student ≠ None)
                     then student' ← getitem students k;
                          set_seat room row col student'
                     else Ok room
                   else Ok room);
           Ok (k + 1, room)))
       (0, room);
  Ok st.2.

(** The loop over [self.exam_session.rooms]: every room object is updated in
    place, the allocator is threaded from one room to the next. *)
Fixpoint for_rooms (body : SeatingAllocator → Room → result (SeatingAllocator * Room))
    (self : SeatingAllocator) (rooms : list Room)
  : result (SeatingAllocator * list Room) :=
  match rooms with
  | [] => Ok (self, [])
  | room :: rest =>
      '(self, room') ← body self room;
      '(self, rest') ← for_rooms body self rest;
      Ok (self, room' :: rest')
  end.

(** The body of the loop over the rooms in [allocate_seats]. *)
Definition allocate_room (branch_groups : BranchGroups)
    (even_list odd_list : Queue) (self : SeatingAllocator) (room : Room)
  : result (SeatingAllocator * Room) :=
  let room := clear_all_seats room in
  if bool_decide (even_list = []) && bool_decide (odd_list = [])
  then Ok (self, room)
  else if bool_decide (len branch_groups > 1)
  then _allocate_alternating_seats self room even_list odd_list
  else room ← _allocate_sequential_seats room (even_list ++ odd_list);
       Ok (self, room).

Definition allocate_seats (self : SeatingAllocator)
  : result (bool * SeatingAllocator) :=
  if negb (has_sufficient_capacity (exam_session self)) then Ok (false, self)
  else
    let branch_groups := get_students_by_branch (exam_session self) in
    let '(even_list, odd_list) := _create_even_odd_lists branch_groups in
    let self := set_odd_index self 0 in
    let self := set_even_index self 0 in
    '(self, rooms') ← for_rooms (allocate_room branch_groups even_list odd_list)
                        self (rooms (exam_session self));
    Ok (true, mkSeatingAllocator (set_rooms (exam_session self) rooms')
                (odd_index self) (even_index self)).

(** Statistics: the [dict]s built by [generate_statistics]. *)
Record RoomStats := mkRoomStats {
  stat_capacity : Z;
  assigned_seats : Z;
  branch_distribution : list (option string * Z)
}.

Record Statistics := mkStatistics {
  total_students : Z;
  total_rooms : Z;
  total_capacity : Z;
  rooms_stats : list (RoomNo * RoomStats);
  branch_stats : list (option string * Z)
}.

(** The branch count of one room, by a scan of its grid. *)
Definition count_branches (room : Room) : result (list (option string * Z)) :=
  for_each (range 0 (rows room)) (λ row,
    for_each (range 0 (columns room)) (λ col dist,
      student ← get_seat room row col;
      match student with
      | Some student =>
          if truthy_str (branch_name student) then
            let dist :=
              if negb (dict_contains (branch_name student) dist)
              then dict_set (branch_name student) 0 dist else dist in
            Ok (dict_alter (λ n, n + 1) (branch_name student) dist)
          else Ok dist
      | None => Ok dist
      end)) [].

Definition generate_statistics (self : SeatingAllocator) : result Statistics :=
  let session := exam_session self in
  let branch_stats :=
    foldl (λ d '(branch, studs), dict_set branch (len studs) d) []
          (get_students_by_branch session) in
  rooms_stats ← for_each (rooms session) (λ room rooms_stats,
    empty ← get_empty_seats_count room;
    dist ← count_branches room;
    let room_stats := mkRoomStats (capacity room) (capacity room - empty) dist in
    Ok (dict_set (room_no room) room_stats rooms_stats)) [];
  Ok (mkStatistics (len (students session)) (len (rooms session))
        (get_total_capacity session) rooms_stats branch_stats).

(** ** controllers/room_controller.py

    The controller keeps the list of rooms and writes it to a spreadsheet
    after every change.  The write is outside the model: each changing
    method takes the outcome of its write, [saved], as an argument.  A method
    that raises still leaves a controller behind, so every outcome carries
    one.  [update_room] changes the room object it found in place: the room
    at that index is replaced. *)

Module RoomController.

Record controller := mkController { rooms : list Room }.

Inductive outcome :=
  | Returned (self : controller)
  | ValueError (self : controller)
  | Raised (e : exn) (self : controller).

Definition state (o : outcome) : controller :=
  match o with Returned self | ValueError self | Raised _ self => self end.

Definition _save_rooms (saved : bool) (self : controller) : outcome :=
  if saved then Returned self else ValueError self.

Definition get_rooms (self : controller) : list Room := rooms self.

Definition add_room (self : controller) (no : RoomNo) (rows columns : Z)
    (saved : bool) : outcome :=
  if any (λ room, room_no_eqb (room_no room) no) (rooms self)
  then ValueError self
  else
    let room := new_Room no rows columns in
    let self := mkController (rooms self ++ [room]) in
    _save_rooms saved self.

Definition update_room (self : controller) (original_room_no no : RoomNo)
    (rows columns : Z) (saved : bool) : outcome :=
  match first_index (λ room, room_no_eqb (room_no room) original_room_no)
                    (enumerate (rooms self)) with
  | None => ValueError self
  | Some i =>
      if negb (room_no_eqb no original_room_no)
         && any (λ room, room_no_eqb (room_no room) no) (rooms self)
      then ValueError self
      else
        let room_to_update := mkRoom no rows columns (empty_grid rows columns) in
        let self := mkController (<[Z.to_nat i:=room_to_update]> (rooms self)) in
        _save_rooms saved self
  end.

Definition delete_room (self : controller) (no : RoomNo) (saved : bool)
  : outcome :=
  match first_index (λ room, room_no_eqb (room_no room) no)
                    (enumerate (rooms self)) with
  | None => ValueError self
  | Some room_to_delete =>
      match delitem (rooms self) room_to_delete with
      | Ok rooms' => _save_rooms saved (mkController rooms')
      | Raise e => Raised e self
      end
  end.

Definition get_total_capacity (self : controller) : Z :=
  foldl Z.add 0 (capacity <$> rooms self).

End RoomController.

(** ** controllers/arrangement_controller.py

    [check_capacity] after its two reads: the students loaded from the file
    and the rooms of the room controller. *)

Module ArrangementController.

Record capacity_check := mkCapacityCheck {
  sufficient : bool;
  total_students : Z;
  total_capacity : Z;
  extra_capacity : Z;
  additional_needed : Z
}.

Definition check_capacity (students : list Student) (rooms : list Room)
  : capacity_check :=
  let total_students := len students in
  let total_capacity := foldl Z.add 0 (capacity <$> rooms) in
  let sufficient := bool_decide (total_capacity >= total_students) in
  if sufficient
  then mkCapacityCheck sufficient total_students total_capacity
                       (total_capacity - total_students) 0
  else mkCapacityCheck sufficient total_students total_capacity
                       0 (total_students - total_capacity).

End ArrangementController.

(** ** controllers/student_controller.py

    The controller keeps the list of students it imported.  Years and
    semesters are integers or [None], as in [Student]. *)

Module StudentController.

Record controller := mkController { students : list Student }.

Definition get_students (self : controller) : list Student := students self.

Definition get_student_count (self : controller) : Z := len (students self).

Definition group_students_by_branch (self : controller) : BranchGroups :=
  foldl (λ branch_dict student,
           let branch_dict :=
             if negb (dict_contains (branch_name student) branch_dict)
             then dict_set (branch_name student) [] branch_dict
             else branch_dict in
           dict_alter (λ l, l ++ [student]) (branch_name student) branch_dict)
        [] (students self).

Definition group_students_by_regulation (self : controller)
  : list (option string * list Student) :=
  foldl (λ regulation_dict student,
           let regulation_dict :=
             if negb (dict_contains (regulation student) regulation_dict)
             then dict_set (regulation student) [] regulation_dict
             else regulation_dict in
           dict_alter (λ l, l ++ [student]) (regulation student) regulation_dict)
        [] (students self).

Definition get_unique_years (self : controller) : list Z :=
  sorted_set (omap (λ student, if truthy_int (year student)
                               then year student else None)
                   (students self)).

Definition get_unique_semesters (self : controller) : list Z :=
  sorted_set (omap (λ student, if truthy_int (semester student)
                               then semester student else None)
                   (students self)).

Definition set_students (self : controller) (students : list Student)
  : controller :=
  mkController students.

End StudentController.

(** ** models/data_manager.py

    [_get_room_summary_data], the only method of the data manager that
    does not read or write a file: for every room, the hall ticket numbers
    and the college codes of the seated students, by branch. *)

Module DataManager.

Record room_summary := mkRoomSummary {
  branches : list (option string * list string);
  college_codes : list (option string * list string)
}.

Definition _get_room_summary_data (exam_session : ExamSession)
  : result (list (RoomNo * room_summary)) :=
  for_each (rooms exam_session) (λ room room_data,
    '(branch_data, college_code_data) ←
      for_each (range 0 (rows room)) (λ r,
        for_each (range 0 (columns room)) (λ c '(branch_data, college_code_data),
          student ← get_seat room r c;
          match student with
          | Some student =>
              if truthy_str (Some (hallticket_no student)) then
                let branch_data :=
                  if negb (dict_contains (branch_name student) branch_data)
                  then dict_set (branch_name student) [] branch_data
                  else branch_data in
                let branch_data :=
                  dict_alter (λ l, l ++ [hallticket_no student])
                             (branch_name student) branch_data in
                let college_code := get_college_code student in
                let college_code_data :=
                  if negb (dict_contains (branch_name student) college_code_data)
                  then dict_set (branch_name student) [] college_code_data
                  else college_code_data in
                let college_code_data :=
                  if truthy_str (Some college_code)
                     && negb (bool_decide
                                (college_code ∈
                                 default [] (dict_get (branch_name student)
                                                      college_code_data)))
                  then dict_alter (λ l, l ++ [college_code])
                                  (branch_name student) college_code_data
                  else college_code_data in
                Ok (branch_data, college_code_data)
              else Ok (branch_data, college_code_data)
          | None => Ok (branch_data, college_code_data)
          end))
        (([], []) : list (option string * list string)
                    * list (option string * list string));
    let empty_branches :=
      (filter (λ kv, len kv.2 = 0) branch_data).*1 in
    let '(branch_data, college_code_data) :=
      foldl (λ '(branch_data, college_code_data) branch,
               (dict_delete branch branch_data,
                if dict_contains branch college_code_data
                then dict_delete branch college_code_data
                else college_code_data))
            (branch_data, college_code_data) empty_branches in
    Ok (dict_set (room_no room) (mkRoomSummary branch_data college_code_data)
                 room_data)) [].

End DataManager.

(** * Vocabulary of the statements and proofs *)

(** ** Rooms and grids *)

(** The grid is a [rows] by [columns] matrix. *)
Definition grid_shape (room : Room) : Prop :=
  length (seating_grid room) = Z.to_nat (rows room) ∧
  Forall (λ r, length r = Z.to_nat (columns room)) (seating_grid room).

(** A 0-based (row, column) position lies inside the room. *)
Definition in_bounds (room : Room) (p : Z * Z) : Prop :=
  (0 ≤ p.1 < rows room) ∧ (0 ≤ p.2 < columns room).

(** Rooms that the statistics can scan. *)
Definition scannable (room : Room) : Prop :=
  grid_shape room ∧ 0 ≤ rows room ∧ 0 ≤ columns room.

(** The cell at a position of the raw grid. *)
Definition cell (g : Grid) (i j : nat) : option (option Student) :=
  g !! i ≫= (λ r, r !! j).

Definition cell_at (room : Room) (p : Z * Z) : option (option Student) :=
  cell (seating_grid room) (Z.to_nat p.1) (Z.to_nat p.2).

(** The grid with the cell at row [i], column [j] replaced. *)
Definition grid_set (g : Grid) (i j : nat) (x : option Student) : Grid :=
  alter (λ r, <[j:=x]> r) i g.

Definition with_grid (room : Room) (g : Grid) : Room :=
  mkRoom (room_no room) (rows room) (columns room) g.

(** [room'] has the number and the dimensions of [room]. *)
Definition same_frame (room room' : Room) : Prop :=
  room_no room' = room_no room ∧ rows room' = rows room ∧
  columns room' = columns room.

(** The roster holds students of two different branches. *)
Definition several_branches (session : ExamSession) : Prop :=
  ∃ s1 s2, s1 ∈ students session ∧ s2 ∈ students session ∧
           branch_name s1 ≠ branch_name s2.

(** The students seated in a room, and in a list of rooms. *)
Definition seated (room : Room) : list Student :=
  omap id (concat (seating_grid room)).

Definition seated_all (rooms : list Room) : list Student :=
  rooms ≫= seated.

(** The sum of [rows * columns] over a list of rooms. *)
Definition sum_rows_columns (rooms : list Room) : Z :=
  foldr (λ room acc, rows room * columns room + acc) 0 rooms.

(** Two seats share an edge. *)
Definition adjacent (p q : Z * Z) : Prop :=
  (p.2 = q.2 ∧ Z.abs (p.1 - q.1) = 1) ∨ (p.1 = q.1 ∧ Z.abs (p.2 - q.2) = 1).

(** ** The bands of a room

    Columns are counted from 1, as in the allocator: the odd band is made of
    the columns at the positions 1, 3, 5, ..., the even band of those at the
    positions 2, 4, 6, ....  A band is walked column by column, each column
    from the top row down; seats are 0-based (row, column) pairs. *)

Definition odd_columns (room : Room) : list Z :=
  filter (λ j, Z.odd j = true) (range 1 (columns room + 1)).

Definition even_columns (room : Room) : list Z :=
  filter (λ j, Z.even j = true) (range 1 (columns room + 1)).

Definition column_major (room : Room) (cols : list Z) : list (Z * Z) :=
  cols ≫= λ j, (λ i, (i, j - 1)) <$> range 0 (rows room).

Definition odd_walk (room : Room) : list (Z * Z) :=
  column_major room (odd_columns room).

Definition even_walk (room : Room) : list (Z * Z) :=
  column_major room (even_columns room).

(** All columns in natural order, for the single-branch fill. *)
Definition full_walk (room : Room) : list (Z * Z) :=
  column_major room (range 1 (columns room + 1)).

(** The seats of a room in the order of the statistics scans: row by row,
    each row from the first column on. *)
Definition row_major (room : Room) : list (Z * Z) :=
  range 0 (rows room) ≫= λ r, pair r <$> range 0 (columns room).

(** The number of seats of the odd bands, and of the even bands, of a list
    of rooms. *)
Definition odd_cells (rooms : list Room) : Z :=
  foldr (λ room acc, len (odd_walk room) + acc) 0 rooms.

Definition even_cells (rooms : list Room) : Z :=
  foldr (λ room acc, len (even_walk room) + acc) 0 rooms.

(** ** Walking seats with a queue cursor

    The three seat loops of the allocator have the same body: look at the
    queue entry under the cursor, seat it when there is one, and advance
    the cursor.  [place] is that body, [fill_walk] its effect along a list of
    positions. *)

(** The queue entry under a cursor; past the end there is none. *)
Definition q_at (q : Queue) (idx : Z) : option Student :=
  default None (q !! Z.to_nat idx).

Definition place (q : Queue) (idx : Z) (room : Room) (p : Z * Z) : result Room :=
  if bool_decide (idx < len q) then
    student ← getitem q idx;
    if bool_decide (student ≠ None)
    then set_seat room p.1 p.2 student else Ok room
  else Ok room.

Definition fill_seat (room : Room) (p : Z * Z) (e : option Student) : Room :=
  match e with
  | Some s => with_grid room (grid_set (seating_grid room)
                                (Z.to_nat p.1) (Z.to_nat p.2) (Some s))
  | None => room
  end.

Fixpoint fill_walk (q : Queue) (idx : Z) (room : Room) (ps : list (Z * Z)) : Room :=
  match ps with
  | [] => room
  | p :: ps => fill_walk q (idx + 1) (fill_seat room p (q_at q idx)) ps
  end.

(** The room after its two band loops: the odd band filled from [odd_list],
    then the even band from [even_list]. *)
Definition fill_bands (even_list odd_list : Queue) (o e : Z) (room : Room) : Room :=
  fill_walk even_list e (fill_walk odd_list o room (odd_walk room))
            (even_walk room).

(** The rooms after a multi-branch allocation: the cursors [o] and [e] run
    on from one room to the next. *)
Fixpoint alloc_alternating (even_list odd_list : Queue) (o e : Z)
    (rooms : list Room) : list Room :=
  match rooms with
  | [] => []
  | room :: rest =>
      fill_bands even_list odd_list o e (clear_all_seats room)
      :: alloc_alternating even_list odd_list
           (o + len (odd_walk room)) (e + len (even_walk room)) rest
  end.

(** The rooms after a single-branch allocation: every room is filled from
    the start of the queue. *)
Definition alloc_sequential (students : Queue) (rooms : list Room) : list Room :=
  (λ room, fill_walk students 0 (clear_all_seats room) (full_walk room))
  <$> rooms.

(** The rooms of a session after a successful call of [allocate_seats]. *)
Definition allocated_rooms (session : ExamSession) : list Room :=
  let branch_groups := get_students_by_branch session in
  let '(even_list, odd_list) := _create_even_odd_lists branch_groups in
  if bool_decide (len branch_groups > 1)
  then alloc_alternating even_list odd_list 0 0 (rooms session)
  else alloc_sequential (even_list ++ odd_list) (rooms session).

(** The seats read along a walk, with the room's own accessor. *)
Definition read_walk (room : Room) (ps : list (Z * Z))
  : list (result (option Student)) :=
  (λ p, get_seat room p.1 p.2) <$> ps.

(** [n] successive queue entries from position [start]; past the end of the
    queue the cursor finds nothing. *)
Definition queue_slice (q : Queue) (start : Z) (n : nat)
  : list (result (option Student)) :=
  (λ t, Ok (q_at q (start + t))) <$> seqZ 0 (Z.of_nat n).

(** Each band has room for the students of its queue; with at most one
    branch, the roster is empty or there is one room, of non-negative
    dimensions. *)
Definition bands_suffice (session : ExamSession) : Prop :=
  let groups := get_students_by_branch session in
  let even_list := (_create_even_odd_lists groups).1 in
  let odd_list := (_create_even_odd_lists groups).2 in
  if bool_decide (len groups > 1) then
    len (omap id odd_list) ≤ odd_cells (rooms session) ∧
    len (omap id even_list) ≤ even_cells (rooms session)
  else
    students session = [] ∨
    ∃ room, rooms session = [room] ∧ 0 ≤ rows room ∧ 0 ≤ columns room.

(** ** Branch groups and queues *)

(** The distinct elements of a list in the order of their first
    occurrence. *)
Definition first_seen {K} `{EqDecision K} (l : list K) : list K :=
  foldl (λ acc k, if decide (k ∈ acc) then acc else acc ++ [k]) [] l.

(** The students of one branch, in roster order. *)
Definition branch_group (l : list Student) (b : option string) : list Student :=
  filter (λ s, branch_name s = b) l.

(** Queue construction in the words of the specification: the first group is
    queue A, the second is queue B, each later group goes as a whole to B
    when A is longer than B at that moment and to A otherwise; at the end the
    shorter queue is padded with empty places up to the length of the
    longer one. *)
Fixpoint place_groups (A B : list Student) (groups : list (list Student))
  : list Student * list Student :=
  match groups with
  | [] => (A, B)
  | g :: rest =>
      if bool_decide (len A > len B)
      then place_groups A (B ++ g) rest
      else place_groups (A ++ g) B rest
  end.

Definition queue_students (groups : list (list Student))
  : list Student * list Student :=
  match groups with
  | [] => ([], [])
  | [g1] => (g1, [])
  | g1 :: g2 :: rest => place_groups g1 g2 rest
  end.

Definition pad_queues (AB : list Student * list Student) : Queue * Queue :=
  let n := (length AB.1 `max` length AB.2)%nat in
  ((Some <$> AB.1) ++ replicate (n - length AB.1) None,
   (Some <$> AB.2) ++ replicate (n - length AB.2) None).

Definition queues_spec (groups : list (list Student)) : Queue * Queue :=
  pad_queues (queue_students groups).

(** The loop body of [_create_even_odd_lists]. *)
Definition distribute_step
  : Queue * Queue → Z * list Student → Queue * Queue :=
  λ '(even_list, odd_list) '(i, students),
  if bool_decide (i = 0) then (Some <$> students, odd_list)
  else if bool_decide (i = 1) then (even_list, Some <$> students)
  else if bool_decide (len even_list > len odd_list)
       then (even_list, odd_list ++ (Some <$> students))
       else (even_list ++ (Some <$> students), odd_list).

(** ** Statistics *)

(** Sums over the statistics dictionaries. *)
Definition dict_sum {K} (d : list (K * Z)) : Z :=
  foldr (λ kv acc, kv.2 + acc) 0 d.

(** The per-room occupied-seat counts, summed over the rooms. *)
Definition sum_assigned (rs : list (RoomNo * RoomStats)) : Z :=
  foldr (λ kv acc, assigned_seats kv.2 + acc) 0 rs.

(** The per-branch occupancy counts, summed over the branches and the
    rooms. *)
Definition sum_branch_counts (rs : list (RoomNo * RoomStats)) : Z :=
  foldr (λ kv acc, dict_sum (branch_distribution kv.2) + acc) 0 rs.

(** The student carries a non-empty branch label. *)
Definition has_branch (s : Student) : Prop :=
  truthy_str (branch_name s) = true.

Instance has_branch_dec s : Decision (has_branch s).
Proof. unfold has_branch. apply _. Defined.

(** The body of the scan of [count_branches]. *)
Definition count_step (x : option Student) (dist : list (option string * Z))
  : list (option string * Z) :=
  match x with
  | Some student =>
      if truthy_str (branch_name student) then
        let dist :=
          if negb (dict_contains (branch_name student) dist)
          then dict_set (branch_name student) 0 dist else dist in
        dict_alter (λ n, n + 1) (branch_name student) dist
      else dist
  | None => dist
  end.

(** ** Room summaries *)

(** The seated students that carry a hall ticket number, row by row. *)
Definition ticketed (room : Room) : list Student :=
  filter (λ s, hallticket_no s ≠ ""%string) (seated room).

(** The summary of a room in the words of its documentation: the branches
    of the seated students in the order of their first seat, each with the
    hall ticket numbers of its students in row order, and with the distinct
    non-empty college codes of these students in the order of their first
    seat. *)
Definition room_summary_of (room : Room) : DataManager.room_summary :=
  let branches := first_seen (branch_name <$> ticketed room) in
  DataManager.mkRoomSummary
    ((λ b, (b, hallticket_no <$> branch_group (ticketed room) b)) <$> branches)
    ((λ b, (b, first_seen
                 (filter (λ code, code ≠ ""%string)
                    (get_college_code <$> branch_group (ticketed room) b))))
     <$> branches).

(** The body of the scan of [_get_room_summary_data]. *)
Definition summary_step (x : option Student)
    (st : list (option string * list string)
          * list (option string * list string))
  : list (option string * list string) * list (option string * list string) :=
  let '(branch_data, college_code_data) := st in
  match x with
  | Some student =>
      if truthy_str (Some (hallticket_no student)) then
        let branch_data :=
          if negb (dict_contains (branch_name student) branch_data)
          then dict_set (branch_name student) [] branch_data
          else branch_data in
        let branch_data :=
          dict_alter (λ l, l ++ [hallticket_no student])
                     (branch_name student) branch_data in
        let college_code := get_college_code student in
        let college_code_data :=
          if negb (dict_contains (branch_name student) college_code_data)
          then dict_set (branch_name student) [] college_code_data
          else college_code_data in
        let college_code_data :=
          if truthy_str (Some college_code)
             && negb (bool_decide
                        (college_code ∈
                         default [] (dict_get (branch_name student)
                                              college_code_data)))
          then dict_alter (λ l, l ++ [college_code])
                          (branch_name student) college_code_data
          else college_code_data in
        (branch_data, college_code_data)
      else (branch_data, college_code_data)
  | None => (branch_data, college_code_data)
  end.

(** What one student adds to the college codes of its branch. *)
Definition add_code (student : Student) (codes : list string) : list string :=
  if truthy_str (Some (get_college_code student))
     && negb (bool_decide (get_college_code student ∈ codes))
  then codes ++ [get_college_code student] else codes.

(** ** Concrete students and sessions *)

Definition student_of (hallticket_no : string) : Student :=
  new_Student hallticket_no None None None None.

Definition session_of (students : list Student) (rooms : list Room) : ExamSession :=
  mkExamSession None None None students rooms.

Definition ece1 := student_of "21321A0401".
Definition ece2 := student_of "21321A0402".
Definition ece3 := student_of "21321A0403".
Definition cse1 := student_of "21321A0501".
Definition cse2 := student_of "21321A0502".
Definition cse3 := student_of "21321A0503".

(** Three ECE students followed by three CSE students, one 3 by 3 room. *)
Definition two_branch_session : ExamSession :=
  session_of [ece1; ece2; ece3; cse1; cse2; cse3] [new_Room (RoomInt 101) 3 3].

(** Two CSE students and two rooms of one seat each. *)
Definition single_branch_session : ExamSession :=
  session_of [cse1; cse2]
             [new_Room (RoomInt 101) 1 1; new_Room (RoomInt 102) 1 1].

(** Two ECE students and one CSE student, one room of one row and three
    columns. *)
Definition unbalanced_session : ExamSession :=
  session_of [ece1; ece2; cse1] [new_Room (RoomInt 101) 1 3].

(** The students of the two-branch scenario and two rooms, of two and of
    four seats. *)
Definition two_room_session : ExamSession :=
  session_of [ece1; ece2; ece3; cse1; cse2; cse3]
             [new_Room (RoomInt 101) 1 2; new_Room (RoomInt 102) 2 2].

(** Two ECE students, two CSE students and one student whose branch code
    is not in the table; two rooms, of four and of two seats. *)
Definition mixed_session : ExamSession :=
  session_of [ece1; ece2; cse1; cse2; student_of "21321A9901"]
             [new_Room (RoomInt 101) 2 2; new_Room (RoomInt 102) 1 2].

(** Two students and two rooms: one without seats, of -1 rows and 2
    columns, and one of four seats. *)
Definition degenerate_session : ExamSession :=
  session_of [ece1; cse1]
             [new_Room (RoomInt 100) (-1) 2; new_Room (RoomInt 101) 2 2].

(** One student whose branch code is not in the table, one seat. *)
Definition unknown_branch_session : ExamSession :=
  session_of [student_of "21321A9901"] [new_Room (RoomInt 101) 1 1].

(** * Properties *)

(** ** Python lists *)

Lemma norm_index_nonneg {A} (l : list A) (i : Z) :
  0 ≤ i < len l → norm_index l i = Some (Z.to_nat i).
Proof.
  intros [H0 H1]. unfold norm_index.
  rewrite bool_decide_eq_false_2 by lia.
  rewrite bool_decide_eq_true_2 by lia. done.
Qed.

Lemma norm_index_ge {A} (l : list A) (i : Z) :
  len l ≤ i → norm_index l i = None.
Proof.
  intros H. unfold norm_index, len in *.
  rewrite bool_decide_eq_false_2 by lia.
  rewrite bool_decide_eq_false_2 by lia. done.
Qed.

Lemma getitem_nonneg {A} (l : list A) (i : Z) (x : A) :
  0 ≤ i → l !! Z.to_nat i = Some x → getitem l i = Ok x.
Proof.
  intros H0 Hl. unfold getitem.
  rewrite norm_index_nonneg; [simpl; by rewrite Hl|].
  apply lookup_lt_Some in Hl. unfold len. lia.
Qed.

Lemma setitem_nonneg {A} (l : list A) (i : Z) (x : A) :
  0 ≤ i < len l → setitem l i x = Ok (<[Z.to_nat i:=x]> l).
Proof. intros H. unfold setitem. by rewrite norm_index_nonneg. Qed.

Lemma for_each_app {A S} (xs ys : list A) (body : A → S → result S) s :
  for_each (xs ++ ys) body s = s' ← for_each xs body s; for_each ys body s'.
Proof.
  revert s. induction xs as [|x xs IH]; intros s; simpl; [done|].
  destruct (body x s); simpl; [apply IH|done].
Qed.

(** Two nested loops walk the product of their ranges. *)
Lemma for_each_nested {A B S} (xs : list A) (ys : list B)
    (body : A → B → S → result S) s :
  for_each xs (λ x, for_each ys (body x)) s =
  for_each (xs ≫= λ x, pair x <$> ys) (λ p, body p.1 p.2) s.
Proof.
  revert s. induction xs as [|x xs IH]; intros s; [done|].
  change ((x :: xs) ≫= _) with
    ((pair x <$> ys) ++ (xs ≫= λ x, pair x <$> ys)).
  rewrite for_each_app. simpl.
  assert (for_each ys (body x) s
          = for_each (pair x <$> ys) (λ p, body p.1 p.2) s) as ->.
  { clear. revert s. induction ys as [|y ys IH]; intros s; simpl; [done|].
    destruct (body x y s); simpl; [apply IH|done]. }
  destruct (for_each (pair x <$> ys) _ s); simpl; [apply IH|done].
Qed.

(** ** Dictionaries *)

Section dict_facts.
Context {K V : Type} `{EqDecision K}.
Implicit Types (d : list (K * V)) (k : K) (v : V).

Lemma dict_get_Some_elem d k v : dict_get k d = Some v → (k, v) ∈ d.
Proof.
  induction d as [|[k' v'] d IH]; simpl; [done|].
  case_decide; intros; simplify_eq; [left|right; auto].
Qed.

Lemma dict_get_None d k : k ∉ d.*1 → dict_get k d = None.
Proof.
  induction d as [|[k' v'] d IH]; simpl; [done|].
  intros Hn. apply not_elem_of_cons in Hn as [Hne Hn].
  rewrite decide_False by done. auto.
Qed.

Lemma dict_get_elem d k v : NoDup d.*1 → (k, v) ∈ d → dict_get k d = Some v.
Proof.
  induction d as [|[k' v'] d IH]; simpl; intros Hnd Hin.
  - by apply elem_of_nil in Hin.
  - apply NoDup_cons in Hnd as [Hk Hnd].
    apply elem_of_cons in Hin as [Heq|Hin].
    + simplify_eq. by rewrite decide_True.
    + rewrite decide_False; [auto|].
      intros ->. apply Hk. apply list_elem_of_fmap. by exists (k, v).
Qed.

Lemma dict_contains_set k v d : dict_contains k (dict_set k v d) = true.
Proof.
  apply bool_decide_eq_true_2.
  induction d as [|[k' v'] d IH]; simpl.
  - rewrite decide_True by done. eauto.
  - case_decide; simpl; [by rewrite decide_True; eauto|].
    by rewrite decide_False.
Qed.

Lemma dict_set_new (k : K) (v : V) (d : list (K * V)) :
  dict_get k d = None → dict_set k v d = d ++ [(k, v)].
Proof.
  induction d as [|[k' v'] d IH]; simpl; [done|].
  case_decide; [done|]. intros Hd. by rewrite IH.
Qed.
End dict_facts.

Lemma dict_get_fmap_keys {K V} `{EqDecision K} (v : K → V) (ks : list K)
    (k : K) :
  dict_get k ((λ k', (k', v k')) <$> ks)
  = if decide (k ∈ ks) then Some (v k) else None.
Proof.
  induction ks as [|k' ks IH]; csimpl; [done|].
  destruct (decide (k' = k)) as [->|Hk].
  - rewrite decide_True; [done|]. apply list_elem_of_here.
  - rewrite IH. destruct (decide (k ∈ ks)) as [Hin|Hin].
    + rewrite decide_True; [done|]. by apply list_elem_of_further.
    + rewrite decide_False; [done|]. intros [?|?]%elem_of_cons; by simplify_eq.
Qed.

Lemma dict_alter_fmap_keys {K V} `{EqDecision K} (f : V → V) (v : K → V)
    (ks : list K) (k : K) :
  NoDup ks →
  dict_alter f k ((λ k', (k', v k')) <$> ks)
  = (λ k', (k', if decide (k' = k) then f (v k') else v k')) <$> ks.
Proof.
  induction 1 as [|k' ks Hk' Hnd IH]; csimpl; [done|].
  destruct (decide (k' = k)) as [->|Hk].
  - f_equal. apply list_fmap_ext. intros i k' Hin.
    rewrite decide_False; [done|]. intros Heq. subst k'.
    apply Hk'. by eapply list_elem_of_lookup_2.
  - by rewrite IH.
Qed.

Lemma dict_alter_app_new {K V} `{EqDecision K} (f : V → V) (k : K)
    (d1 d2 : list (K * V)) :
  k ∉ d1.*1 → dict_alter f k (d1 ++ d2) = d1 ++ dict_alter f k d2.
Proof.
  induction d1 as [|[k' v'] d1 IH]; simpl; [done|].
  intros [Hne Hnot]%not_elem_of_cons.
  rewrite decide_False by done. by rewrite IH.
Qed.

(** ** Branch derivation *)

Lemma BRANCH_CODES_NoDup : NoDup BRANCH_CODES.*1.
Proof. compute_done. Qed.

(** C7: branch derivation is a total function of the identifier.  For an
    identifier whose length is not 10 the result is the empty string.  For an
    identifier of length 10, with [c6] and [c7] its characters at the
    0-indexed positions 6 and 7, the result is the label that the table
    [BRANCH_CODES] gives to the two-character code [c6 c7] when the code is
    a key of the table, and the empty string when it is not. *)
Theorem branch_derivation_spec (self : Student) :
  (String.length (hallticket_no self) ≠ 10%nat →
     _get_branch_from_hallticket self = ""%string) ∧
  (String.length (hallticket_no self) = 10%nat →
     ∃ c6 c7,
       String.get 6 (hallticket_no self) = Some c6 ∧
       String.get 7 (hallticket_no self) = Some c7 ∧
       (∀ label, (String c6 (String c7 EmptyString), label) ∈ BRANCH_CODES →
                 _get_branch_from_hallticket self = label) ∧
       (String c6 (String c7 EmptyString) ∉ BRANCH_CODES.*1 →
          _get_branch_from_hallticket self = ""%string)).
Proof.
  unfold _get_branch_from_hallticket. split; intros Hlen.
  - by rewrite bool_decide_eq_false_2.
  - rewrite bool_decide_eq_true_2 by done.
    destruct self as [h y s r b]; cbn [hallticket_no] in *.
    destruct h as [|c0 [|c1 [|c2 [|c3 [|c4 [|c5 [|c6 [|c7 [|c8 [|c9 [|]]]]]]]]]]];
      try discriminate Hlen. clear Hlen.
    exists c6, c7. split; [reflexivity|]. split; [reflexivity|].
    change (str_slice 6 8 _) with (String c6 (String c7 EmptyString)).
    set (code := String c6 (String c7 EmptyString)).
    unfold dict_contains. split.
    + intros label Hin.
      rewrite (dict_get_elem _ _ _ BRANCH_CODES_NoDup Hin).
      rewrite bool_decide_eq_true_2; [done|]. by exists label.
    + intros Hnot. rewrite (dict_get_None _ _ Hnot).
      rewrite bool_decide_eq_false_2; [done|]. by intros [? ?].
Qed.

(** ** Grids *)

Lemma cell_grid_set_eq g i j x :
  is_Some (cell g i j) → cell (grid_set g i j x) i j = Some x.
Proof.
  unfold cell, grid_set. intros [y Hy].
  rewrite list_lookup_alter_eq.
  destruct (g !! i) as [r|]; simpl in *; [|done].
  apply list_lookup_insert_eq. by apply lookup_lt_Some in Hy.
Qed.

Lemma cell_grid_set_ne g i j x i' j' :
  (i, j) ≠ (i', j') → cell (grid_set g i j x) i' j' = cell g i' j'.
Proof.
  unfold cell, grid_set. intros Hne.
  destruct (decide (i = i')) as [<-|Hi].
  - rewrite list_lookup_alter_eq.
    destruct (g !! i) as [r|]; simpl; [|done].
    apply list_lookup_insert_ne. congruence.
  - by rewrite list_lookup_alter_ne.
Qed.

Lemma grid_set_insert g i j x r :
  g !! i = Some r → grid_set g i j x = <[i:=<[j:=x]> r]> g.
Proof.
  unfold grid_set. revert i. induction g as [|r' g IH]; intros [|i] Hi;
    simplify_eq/=; [done|]. f_equal. by apply IH.
Qed.

Lemma grid_set_shape room i j x :
  grid_shape room → grid_shape (with_grid room (grid_set (seating_grid room) i j x)).
Proof.
  unfold grid_shape, grid_set. intros [Hl Hf]. simpl. split.
  - by rewrite length_alter.
  - apply Forall_alter; [done|]. intros r _ Hr. by rewrite length_insert.
Qed.

Lemma cell_in_bounds room p :
  grid_shape room → in_bounds room p →
  is_Some (cell (seating_grid room) (Z.to_nat p.1) (Z.to_nat p.2)).
Proof.
  intros [Hl Hf] [Hr Hc]. unfold cell.
  destruct (lookup_lt_is_Some_2 (seating_grid room) (Z.to_nat p.1)) as [r Hrow];
    [lia|].
  rewrite Hrow. simpl. apply lookup_lt_is_Some_2.
  rewrite Forall_lookup in Hf. rewrite (Hf _ _ Hrow). lia.
Qed.

(** Seating a student on an empty seat adds this student, and nobody else. *)
Lemma seated_grid_set g i j s :
  cell g i j = Some None →
  omap id (concat (grid_set g i j (Some s))) ≡ₚ s :: omap id (concat g).
Proof.
  unfold cell. intros Hc.
  destruct (g !! i) as [r|] eqn:Hi; simplify_eq/=.
  rewrite (grid_set_insert _ _ _ _ _ Hi).
  rewrite insert_take_drop by (by eapply lookup_lt_Some).
  rewrite (insert_take_drop r) by (by eapply lookup_lt_Some).
  rewrite <-(take_drop_middle g i r Hi) at 3.
  rewrite <-(take_drop_middle r j None Hc) at 3.
  rewrite !concat_app, !omap_app. simpl.
  rewrite !omap_app. simpl. rewrite <-!app_assoc. simpl.
  symmetry. etrans; [apply Permutation_middle|].
  f_equiv. apply Permutation_middle.
Qed.

(** ** Rooms: [set_seat], [get_seat], [clear_all_seats] *)

Lemma out_of_bounds_false room row column :
  in_bounds room (row, column) → out_of_bounds room row column = false.
Proof.
  intros [Hr Hc]. unfold out_of_bounds. simpl in *.
  rewrite !bool_decide_eq_false_2 by lia. done.
Qed.

Lemma out_of_bounds_true room row column :
  ¬ in_bounds room (row, column) → out_of_bounds room row column = true.
Proof.
  unfold in_bounds, out_of_bounds. simpl. intros Hn.
  repeat case_bool_decide; simpl; try done. lia.
Qed.

Lemma set_seat_in_bounds room row column student :
  grid_shape room → in_bounds room (row, column) →
  set_seat room row column student =
  Ok (with_grid room
        (grid_set (seating_grid room) (Z.to_nat row) (Z.to_nat column) student)).
Proof.
  intros Hs Hb. unfold set_seat.
  rewrite (out_of_bounds_false room row column Hb).
  destruct (cell_in_bounds room (row, column) Hs Hb) as [x Hx].
  unfold cell in Hx. simpl in Hx.
  destruct (seating_grid room !! Z.to_nat row) as [r|] eqn:Hrow; simplify_eq/=.
  destruct Hb as [Hr Hc]. simpl in *.
  rewrite (getitem_nonneg _ _ r) by (lia || done). simpl.
  rewrite setitem_nonneg; [simpl|].
  2:{ apply lookup_lt_Some in Hx. unfold len. lia. }
  rewrite setitem_nonneg; [simpl|].
  2:{ apply lookup_lt_Some in Hrow. unfold len. lia. }
  by rewrite (grid_set_insert _ _ _ _ _ Hrow).
Qed.

Lemma get_seat_in_bounds room row column :
  grid_shape room → in_bounds room (row, column) →
  ∃ x, cell (seating_grid room) (Z.to_nat row) (Z.to_nat column) = Some x ∧
       get_seat room row column = Ok x.
Proof.
  intros Hs Hb. unfold get_seat.
  rewrite (out_of_bounds_false room row column Hb).
  destruct (cell_in_bounds room (row, column) Hs Hb) as [x Hx].
  exists x. split; [done|].
  unfold cell in Hx. simpl in Hx.
  destruct (seating_grid room !! Z.to_nat row) as [r|] eqn:Hrow; simplify_eq/=.
  destruct Hb as [Hr Hc]. simpl in *.
  rewrite (getitem_nonneg _ _ r) by (lia || done). simpl.
  by apply getitem_nonneg; [lia|].
Qed.

Lemma empty_grid_replicate r c :
  empty_grid r c = replicate (Z.to_nat r) (replicate (Z.to_nat c) None).
Proof.
  unfold empty_grid, range. rewrite !Z.sub_0_r.
  assert (∀ {A B} (x : B) (l : list A), (λ _, x) <$> l = replicate (length l) x) as Hc.
  { intros A B x l. induction l; simpl; [done|]. by f_equal. }
  by rewrite !Hc, !length_seqZ.
Qed.

Lemma clear_all_seats_shape room : grid_shape (clear_all_seats room).
Proof.
  unfold grid_shape, clear_all_seats. simpl. rewrite empty_grid_replicate.
  split; [by rewrite length_replicate|].
  apply Forall_replicate. by rewrite length_replicate.
Qed.

Lemma new_Room_shape no r c : grid_shape (new_Room no r c).
Proof. apply (clear_all_seats_shape (mkRoom no r c [])). Qed.

Lemma empty_grid_cell r c i j x : cell (empty_grid r c) i j = Some x → x = None.
Proof.
  rewrite empty_grid_replicate. unfold cell. intros H.
  destruct (replicate _ _ !! i) as [row|] eqn:Hrow; simplify_eq/=.
  apply lookup_replicate in Hrow as [-> _].
  by apply lookup_replicate in H as [-> _].
Qed.

Lemma seated_clear room : seated (clear_all_seats room) = [].
Proof.
  unfold seated, clear_all_seats. simpl. rewrite empty_grid_replicate.
  induction (Z.to_nat (rows room)) as [|n IH]; simpl; [done|].
  rewrite omap_app, IH, app_nil_r.
  clear. induction (Z.to_nat (columns room)); simpl; done.
Qed.

(** ** Walking seats with a queue cursor *)

Lemma fill_seat_dims room p e :
  room_no (fill_seat room p e) = room_no room ∧
  rows (fill_seat room p e) = rows room ∧
  columns (fill_seat room p e) = columns room.
Proof. by destruct e. Qed.

Lemma fill_seat_shape room p e : grid_shape room → grid_shape (fill_seat room p e).
Proof. destruct e; [apply grid_set_shape|done]. Qed.

Lemma fill_seat_in_bounds room p e p' :
  in_bounds (fill_seat room p e) p' ↔ in_bounds room p'.
Proof. by destruct e. Qed.

Lemma place_ok q idx room p :
  0 ≤ idx → grid_shape room → in_bounds room p →
  place q idx room p = Ok (fill_seat room p (q_at q idx)).
Proof.
  intros Hidx Hs Hb. unfold place, q_at. case_bool_decide as Hlt.
  - destruct (lookup_lt_is_Some_2 q (Z.to_nat idx)) as [e He];
      [unfold len in Hlt; lia|].
    rewrite (getitem_nonneg _ _ e) by done. rewrite He. simpl.
    destruct e as [s|]; simpl.
    + destruct p as [r c]. by apply set_seat_in_bounds.
    + done.
  - rewrite lookup_ge_None_2; [done|]. unfold len in Hlt. lia.
Qed.

Lemma fill_walk_dims q idx room ps :
  room_no (fill_walk q idx room ps) = room_no room ∧
  rows (fill_walk q idx room ps) = rows room ∧
  columns (fill_walk q idx room ps) = columns room.
Proof.
  revert idx room. induction ps as [|p ps IH]; intros idx room; simpl; [done|].
  destruct (IH (idx + 1) (fill_seat room p (q_at q idx))) as (-> & -> & ->).
  apply fill_seat_dims.
Qed.

Lemma fill_walk_shape q idx room ps :
  grid_shape room → grid_shape (fill_walk q idx room ps).
Proof.
  revert idx room. induction ps as [|p ps IH]; intros idx room Hs; simpl;
    [done|]. by apply IH, fill_seat_shape.
Qed.

Lemma fill_walk_app q idx room ps1 ps2 :
  fill_walk q idx room (ps1 ++ ps2) =
  fill_walk q (idx + len ps1) (fill_walk q idx room ps1) ps2.
Proof.
  revert idx room. induction ps1 as [|p ps1 IH]; intros idx room; simpl.
  - by rewrite Z.add_0_r.
  - rewrite IH. f_equal. unfold len. simpl. lia.
Qed.

(** The loop over a list of index values [xs], the seat of [x] being
    [pos x]; [enc] packs the cursor and the room into the loop state. *)
Lemma walk_loop {A S} (enc : Z → Room → S) (pos : A → Z * Z)
    (body : A → S → result S) (q : Queue) (xs : list A) idx room :
  (∀ x i r, body x (enc i r) = r' ← place q i r (pos x); Ok (enc (i + 1) r')) →
  0 ≤ idx → grid_shape room → Forall (in_bounds room) (pos <$> xs) →
  for_each xs body (enc idx room) =
  Ok (enc (idx + len (pos <$> xs)) (fill_walk q idx room (pos <$> xs))).
Proof.
  intros Hbody. revert idx room.
  induction xs as [|x xs IH]; intros idx room Hidx Hs Hb; simpl.
  - by rewrite Z.add_0_r.
  - apply Forall_cons in Hb as [Hx Hb].
    rewrite Hbody, place_ok by done. simpl.
    rewrite IH; [|lia|by apply fill_seat_shape|].
    + do 2 f_equal. unfold len. simpl. rewrite !length_fmap. lia.
    + eapply Forall_impl; [done|]. intros y Hy. by apply fill_seat_in_bounds.
Qed.

Lemma npos_ne (room : Room) (p p' : Z * Z) :
  in_bounds room p → in_bounds room p' → p ≠ p' →
  (Z.to_nat p.1, Z.to_nat p.2) ≠ (Z.to_nat p'.1, Z.to_nat p'.2).
Proof.
  destruct p as [r c], p' as [r' c']. intros [? ?] [? ?] Hne Heq.
  simpl in *. apply Hne. f_equal; simplify_eq; lia.
Qed.

Lemma fill_seat_other room p e p' :
  in_bounds room p → in_bounds room p' → p ≠ p' →
  cell_at (fill_seat room p e) p' = cell_at room p'.
Proof.
  intros Hp Hp' Hne. destruct e as [s|]; [|done].
  unfold cell_at. simpl. apply cell_grid_set_ne. by eapply npos_ne.
Qed.

Lemma fill_seat_same room p e :
  grid_shape room → in_bounds room p → cell_at room p = Some None →
  cell_at (fill_seat room p e) p = Some e.
Proof.
  intros Hs Hp Hc. destruct e as [s|]; [|done].
  unfold cell_at. simpl. apply cell_grid_set_eq. by apply cell_in_bounds.
Qed.

(** Seats off the walk keep their occupant. *)
Lemma fill_walk_other q idx room ps p :
  Forall (in_bounds room) ps → in_bounds room p → p ∉ ps →
  cell_at (fill_walk q idx room ps) p = cell_at room p.
Proof.
  revert idx room. induction ps as [|p0 ps IH]; intros idx room Hb Hp Hn;
    simpl; [done|].
  apply Forall_cons in Hb as [Hp0 Hb].
  apply not_elem_of_cons in Hn as [Hne Hn].
  rewrite IH; [by apply fill_seat_other| | |done].
  - eapply Forall_impl; [done|]. intros y Hy. by apply fill_seat_in_bounds.
  - by apply fill_seat_in_bounds.
Qed.

(** The [k]-th seat of a walk over empty seats receives the queue entry [k]
    steps after the cursor. *)
Lemma fill_walk_at q idx room ps k p :
  0 ≤ idx → grid_shape room → Forall (in_bounds room) ps → NoDup ps →
  (∀ p, p ∈ ps → cell_at room p = Some None) →
  ps !! k = Some p →
  cell_at (fill_walk q idx room ps) p = Some (q_at q (idx + Z.of_nat k)).
Proof.
  revert idx room k.
  induction ps as [|p0 ps IH]; intros idx room k Hidx Hs Hb Hnd He Hk;
    [done|].
  apply Forall_cons in Hb as [Hp0 Hb].
  apply NoDup_cons in Hnd as [Hp0n Hnd].
  assert (Forall (in_bounds (fill_seat room p0 (q_at q idx))) ps) as Hb'.
  { eapply Forall_impl; [done|]. intros y Hy. by apply fill_seat_in_bounds. }
  destruct k as [|k]; simplify_eq/=.
  - rewrite fill_walk_other; [|done|by apply fill_seat_in_bounds|done].
    rewrite Z.add_0_r. apply fill_seat_same; [done..|]. apply He. left.
  - rewrite (IH (idx + 1) _ k); [|lia|by apply fill_seat_shape|done..| |done].
    + do 2 f_equal. lia.
    + intros p' Hp'. rewrite fill_seat_other; [apply He; by right|done| |].
      * rewrite Forall_forall in Hb. by apply Hb.
      * intros ->. done.
Qed.

Lemma seated_fill_seat room p e :
  cell_at room p = Some None →
  seated (fill_seat room p e) ≡ₚ seated room ++ option_list e.
Proof.
  intros Hc. destruct e as [s|]; simpl; [|by rewrite app_nil_r].
  unfold seated. simpl. rewrite seated_grid_set by done.
  apply Permutation_cons_append.
Qed.

(** A walk over empty seats seats exactly the students of the queue slice
    it consumes. *)
Lemma seated_fill_walk q idx room ps :
  0 ≤ idx → grid_shape room → Forall (in_bounds room) ps → NoDup ps →
  (∀ p, p ∈ ps → cell_at room p = Some None) →
  seated (fill_walk q idx room ps) ≡ₚ
  seated room ++ omap id (take (length ps) (drop (Z.to_nat idx) q)).
Proof.
  revert idx room.
  induction ps as [|p0 ps IH]; intros idx room Hidx Hs Hb Hnd He; simpl.
  { by rewrite app_nil_r. }
  apply Forall_cons in Hb as [Hp0 Hb].
  apply NoDup_cons in Hnd as [Hp0n Hnd].
  rewrite IH; [|lia|by apply fill_seat_shape| |done|].
  - rewrite seated_fill_seat by (apply He; left).
    rewrite <-app_assoc. apply Permutation_app_head.
    replace (Z.to_nat (idx + 1)) with (S (Z.to_nat idx)) by lia.
    unfold q_at.
    destruct (q !! Z.to_nat idx) as [e|] eqn:Hq.
    + rewrite (drop_S _ _ _ Hq). simpl. destruct e; reflexivity.
    + apply lookup_ge_None in Hq. rewrite !drop_ge by lia.
      rewrite !take_nil. reflexivity.
  - eapply Forall_impl; [done|]. intros y Hy. by apply fill_seat_in_bounds.
  - intros p' Hp'. rewrite fill_seat_other; [apply He; by right|done| |].
    + rewrite Forall_forall in Hb. by apply Hb.
    + intros ->. done.
Qed.

(** ** The bands of a room *)

Lemma odd_mod2 (x : Z) : Z.odd x = true ↔ x `mod` 2 = 1.
Proof. rewrite Zodd_mod. apply Z.eqb_eq. Qed.

Lemma even_mod2 (x : Z) : Z.even x = true ↔ x `mod` 2 = 0.
Proof. rewrite Zeven_mod. apply Z.eqb_eq. Qed.

Ltac lia_div := Z.to_euclidean_division_equations; lia.

Lemma filter_odd_seqZ (c : Z) :
  filter (λ j, Z.odd j = true) (seqZ 1 c) =
  (λ x, x * 2 - 1) <$> seqZ 1 ((c + 1) `div` 2).
Proof.
  destruct (decide (c ≤ 0)) as [Hc|Hc].
  { rewrite !seqZ_nil; [done|lia_div..]. }
  rewrite <-(Z2Nat.id c) by lia. generalize (Z.to_nat c) as n. clear.
  induction n as [|n IH]; [done|].
  rewrite seqZ_S, filter_app, IH.
  destruct (Z.odd (1 + Z.of_nat n)) eqn:Hodd.
  - apply odd_mod2 in Hodd.
    replace ((Z.of_nat (S n) + 1) `div` 2)
      with ((Z.of_nat n + 1) `div` 2 + 1) by lia_div.
    rewrite seqZ_app, fmap_app by lia_div. f_equal.
    rewrite filter_cons_True by (by apply odd_mod2).
    rewrite filter_nil. simpl. f_equal. lia_div.
  - apply not_true_iff_false in Hodd. rewrite odd_mod2 in Hodd.
    rewrite filter_cons_False by (by rewrite odd_mod2).
    rewrite filter_nil, app_nil_r. f_equal. f_equal. lia_div.
Qed.

Lemma filter_even_seqZ (c : Z) :
  filter (λ j, Z.even j = true) (seqZ 1 c) =
  (λ x, x * 2) <$> seqZ 1 (c - (c + 1) `div` 2).
Proof.
  destruct (decide (c ≤ 0)) as [Hc|Hc].
  { rewrite !seqZ_nil; [done|lia_div..]. }
  rewrite <-(Z2Nat.id c) by lia. generalize (Z.to_nat c) as n. clear.
  induction n as [|n IH]; [done|].
  rewrite seqZ_S, filter_app, IH.
  destruct (Z.even (1 + Z.of_nat n)) eqn:Heven.
  - apply even_mod2 in Heven.
    replace (Z.of_nat (S n) - (Z.of_nat (S n) + 1) `div` 2)
      with ((Z.of_nat n - (Z.of_nat n + 1) `div` 2) + 1) by lia_div.
    rewrite seqZ_app, fmap_app by lia_div. f_equal.
    rewrite filter_cons_True by (by apply even_mod2).
    rewrite filter_nil. simpl. f_equal. lia_div.
  - apply not_true_iff_false in Heven. rewrite even_mod2 in Heven.
    rewrite filter_cons_False by (by rewrite even_mod2).
    rewrite filter_nil, app_nil_r. f_equal. f_equal. lia_div.
Qed.

Lemma range_shift (n : Z) : range 0 n = (λ y, y - 1) <$> range 1 (n + 1).
Proof.
  unfold range. replace (n + 1 - 1) with (n - 0) by lia.
  rewrite <-(fmap_add_seqZ (-1) 1). apply list_fmap_ext. intros; lia.
Qed.

Lemma fmap_product {A B C} (f : A * B → C) (xs : list A) (ys : list B) :
  f <$> (xs ≫= λ x, pair x <$> ys) = xs ≫= λ x, (λ y, f (x, y)) <$> ys.
Proof.
  induction xs as [|x xs IH]; [done|].
  change ((x :: xs) ≫= ?g) with (g x ++ (xs ≫= g)).
  rewrite fmap_app, IH. f_equal. by rewrite <-list_fmap_compose.
Qed.

(** The index arithmetic of the odd loops enumerates the odd band. *)
Lemma odd_loop_walk room :
  (λ p : Z * Z, (p.2 - 1, (p.1 * 2 - 1) - 1)) <$>
    (range 1 ((columns room + 1) `div` 2 + 1) ≫= λ x,
       pair x <$> range 1 (rows room + 1))
  = odd_walk room.
Proof.
  rewrite fmap_product. unfold odd_walk, column_major, odd_columns, range.
  replace (columns room + 1 - 1) with (columns room) by lia.
  rewrite filter_odd_seqZ, list_fmap_bind.
  replace ((columns room + 1) `div` 2 + 1 - 1)
    with ((columns room + 1) `div` 2) by lia.
  apply list_bind_ext; [|done]. intros x. simpl.
  change (seqZ 0 (rows room - 0)) with (range 0 (rows room)).
  rewrite range_shift, <-list_fmap_compose. done.
Qed.

Lemma even_loop_walk room :
  (λ p : Z * Z, (p.2 - 1, (p.1 * 2) - 1)) <$>
    (range 1 (columns room - (columns room + 1) `div` 2 + 1) ≫= λ x,
       pair x <$> range 1 (rows room + 1))
  = even_walk room.
Proof.
  rewrite fmap_product. unfold even_walk, column_major, even_columns, range.
  replace (columns room + 1 - 1) with (columns room) by lia.
  rewrite filter_even_seqZ, list_fmap_bind.
  replace (columns room - (columns room + 1) `div` 2 + 1 - 1)
    with (columns room - (columns room + 1) `div` 2) by lia.
  apply list_bind_ext; [|done]. intros x. simpl.
  change (seqZ 0 (rows room - 0)) with (range 0 (rows room)).
  rewrite range_shift, <-list_fmap_compose. done.
Qed.

Lemma full_loop_walk room :
  (λ p : Z * Z, (p.2, p.1)) <$>
    (range 0 (columns room) ≫= λ x, pair x <$> range 0 (rows room))
  = full_walk room.
Proof.
  rewrite fmap_product. unfold full_walk, column_major.
  rewrite (range_shift (columns room)), list_fmap_bind. done.
Qed.

Lemma elem_of_column_major room cols p :
  p ∈ column_major room cols ↔ (0 ≤ p.1 < rows room) ∧ p.2 + 1 ∈ cols.
Proof.
  unfold column_major. rewrite list_elem_of_bind. split.
  - intros (j & Hp & Hj). apply list_elem_of_fmap in Hp as (i & -> & Hi).
    apply elem_of_seqZ in Hi. simpl.
    replace (j - 1 + 1) with j by lia. split; [lia|done].
  - intros [Hr Hc]. exists (p.2 + 1). split; [|done].
    apply list_elem_of_fmap. exists p.1. split.
    + destruct p; simpl. f_equal. lia.
    + apply elem_of_seqZ. lia.
Qed.

Lemma column_major_in_bounds room cols :
  (∀ j, j ∈ cols → 1 ≤ j ≤ columns room) →
  Forall (in_bounds room) (column_major room cols).
Proof.
  intros Hc. apply Forall_forall. intros p Hp.
  apply elem_of_column_major in Hp as [Hr Hj]. apply Hc in Hj.
  split; [done|lia].
Qed.

Lemma column_major_NoDup room cols :
  NoDup cols → NoDup (column_major room cols).
Proof.
  intros Hnd. unfold column_major. apply NoDup_bind; [| |done].
  - intros j1 j2 p _ _ H1 H2.
    apply list_elem_of_fmap in H1 as (i1 & -> & _).
    apply list_elem_of_fmap in H2 as (i2 & Heq & _). simplify_eq. lia.
  - intros j _. apply NoDup_fmap_2; [|apply NoDup_seqZ].
    intros i1 i2 Heq. by simplify_eq.
Qed.

Lemma range_columns_bounds c j : j ∈ range 1 (c + 1) → 1 ≤ j ≤ c.
Proof. unfold range. rewrite elem_of_seqZ. lia. Qed.

Lemma odd_walk_in_bounds room : Forall (in_bounds room) (odd_walk room).
Proof.
  apply column_major_in_bounds. intros j Hj.
  apply list_elem_of_filter in Hj as [_ Hj]. by apply range_columns_bounds.
Qed.

Lemma even_walk_in_bounds room : Forall (in_bounds room) (even_walk room).
Proof.
  apply column_major_in_bounds. intros j Hj.
  apply list_elem_of_filter in Hj as [_ Hj]. by apply range_columns_bounds.
Qed.

Lemma full_walk_in_bounds room : Forall (in_bounds room) (full_walk room).
Proof. apply column_major_in_bounds. apply range_columns_bounds. Qed.

Lemma odd_walk_NoDup room : NoDup (odd_walk room).
Proof. apply column_major_NoDup, NoDup_filter, NoDup_seqZ. Qed.

Lemma even_walk_NoDup room : NoDup (even_walk room).
Proof. apply column_major_NoDup, NoDup_filter, NoDup_seqZ. Qed.

Lemma full_walk_NoDup room : NoDup (full_walk room).
Proof. apply column_major_NoDup, NoDup_seqZ. Qed.

Lemma odd_even_walk_disjoint room p :
  p ∈ even_walk room → p ∉ odd_walk room.
Proof.
  intros He Ho.
  apply elem_of_column_major in He as [_ He].
  apply elem_of_column_major in Ho as [_ Ho].
  apply list_elem_of_filter in He as [He _].
  apply list_elem_of_filter in Ho as [Ho _].
  rewrite <-Z.negb_odd, Ho in He. done.
Qed.

(** ** One room *)

Lemma alternating_ok self room even_list odd_list :
  0 ≤ odd_index self → 0 ≤ even_index self → grid_shape room →
  _allocate_alternating_seats self room even_list odd_list =
  Ok (mkSeatingAllocator (exam_session self)
        (odd_index self + len (odd_walk room))
        (even_index self + len (even_walk room)),
      fill_bands even_list odd_list (odd_index self) (even_index self) room).
Proof.
  intros Ho He Hs. destruct self as [sess o e]. simpl in *.
  unfold _allocate_alternating_seats, fill_bands.
  rewrite for_each_nested.
  pose proof (walk_loop (λ i r, (mkSeatingAllocator sess i e, r))
                (λ p : Z * Z, (p.2 - 1, (p.1 * 2 - 1) - 1))
                (λ p '(self, room),
                   room ← (if bool_decide (odd_index self < len odd_list) then
                             student ← getitem odd_list (odd_index self);
                             if bool_decide (student ≠ None)
                             then set_seat room (p.2 - 1) ((p.1 * 2 - 1) - 1) student
                             else Ok room
                           else Ok room);
                   Ok (set_odd_index self (odd_index self + 1), room))
                odd_list
                (range 1 ((columns room + 1) `div` 2 + 1) ≫= λ x,
                   pair x <$> range 1 (rows room + 1))
                o room) as Hodd.
  rewrite odd_loop_walk in Hodd.
  simpl in Hodd. rewrite Hodd; [simpl|done..| ]; clear Hodd.
  2:{ apply odd_walk_in_bounds. }
  rewrite for_each_nested.
  set (room1 := fill_walk odd_list o room (odd_walk room)).
  destruct (fill_walk_dims odd_list o room (odd_walk room)) as (Hno & Hr & Hc).
  pose proof (walk_loop (λ i r, (mkSeatingAllocator sess
                                    (o + len (odd_walk room)) i, r))
                (λ p : Z * Z, (p.2 - 1, (p.1 * 2) - 1))
                (λ p '(self, room),
                   room ← (if bool_decide (even_index self < len even_list) then
                             student ← getitem even_list (even_index self);
                             if bool_decide (student ≠ None)
                             then set_seat room (p.2 - 1) ((p.1 * 2) - 1) student
                             else Ok room
                           else Ok room);
                   Ok (set_even_index self (even_index self + 1), room))
                even_list
                (range 1 (columns room - (columns room + 1) `div` 2 + 1) ≫= λ x,
                   pair x <$> range 1 (rows room + 1))
                e room1) as Heven.
  rewrite even_loop_walk in Heven.
  simpl in Heven. rewrite Heven; [done..| |].
  - by apply fill_walk_shape.
  - eapply Forall_impl; [apply (even_walk_in_bounds room)|].
    intros p [? ?]. split; unfold room1; [by rewrite Hr|by rewrite Hc].
Qed.

Lemma sequential_ok room students :
  grid_shape room →
  _allocate_sequential_seats room students =
  Ok (fill_walk students 0 room (full_walk room)).
Proof.
  intros Hs. unfold _allocate_sequential_seats.
  rewrite for_each_nested.
  pose proof (walk_loop (λ i r, (i, r)) (λ p : Z * Z, (p.2, p.1))
                (λ p '(k, room),
                   room ← (if bool_decide (k < len students) then
                             student ← getitem students k;
                             if bool_decide (student ≠ None)
                             then student' ← getitem students k;
                                  set_seat room p.2 p.1 student'
                             else Ok room
                           else Ok room);
                   Ok (k + 1, room))
                students
                (range 0 (columns room) ≫= λ x, pair x <$> range 0 (rows room))
                0 room) as Hloop.
  rewrite full_loop_walk in Hloop. simpl in Hloop.
  rewrite Hloop; [done| |done..|apply full_walk_in_bounds].
  intros x i r. unfold place. cbn [fst snd].
  case_bool_decide; [|done].
  destruct (getitem students i) as [student|] eqn:Hget; [|done].
  cbn [mbind result_bind]. by case_bool_decide.
Qed.

Lemma fill_walk_nil idx room ps : fill_walk [] idx room ps = room.
Proof.
  revert idx. induction ps as [|p ps IH]; intros idx; simpl; [done|].
  apply IH.
Qed.

(** ** All rooms *)

Lemma alloc_alternating_nil o e rooms :
  alloc_alternating [] [] o e rooms = clear_all_seats <$> rooms.
Proof.
  revert o e. induction rooms as [|room rooms IH]; intros o e; simpl; [done|].
  rewrite IH. f_equal. unfold fill_bands. by rewrite !fill_walk_nil.
Qed.

Lemma alloc_sequential_nil rooms :
  alloc_sequential [] rooms = clear_all_seats <$> rooms.
Proof.
  unfold alloc_sequential. apply list_fmap_ext. intros _ room _.
  apply fill_walk_nil.
Qed.

Lemma queues_test_false (even_list odd_list : Queue) :
  ¬ (even_list = [] ∧ odd_list = []) →
  bool_decide (even_list = []) && bool_decide (odd_list = []) = false.
Proof.
  intros Hne. repeat case_bool_decide; simpl; try done. by destruct Hne.
Qed.

Lemma allocate_room_alternating groups even_list odd_list self room :
  len groups > 1 → ¬ (even_list = [] ∧ odd_list = []) →
  allocate_room groups even_list odd_list self room =
  _allocate_alternating_seats self (clear_all_seats room) even_list odd_list.
Proof.
  intros Hg Hne. unfold allocate_room.
  by rewrite (bool_decide_eq_true_2 _ Hg), (queues_test_false _ _ Hne).
Qed.

Lemma allocate_room_sequential groups even_list odd_list self room :
  ¬ len groups > 1 → ¬ (even_list = [] ∧ odd_list = []) →
  allocate_room groups even_list odd_list self room =
  room' ← _allocate_sequential_seats (clear_all_seats room)
            (even_list ++ odd_list);
  Ok (self, room').
Proof.
  intros Hg Hne. unfold allocate_room.
  by rewrite (bool_decide_eq_false_2 _ Hg), (queues_test_false _ _ Hne).
Qed.

Lemma for_rooms_empty_queues groups self rooms :
  for_rooms (allocate_room groups [] []) self rooms
  = Ok (self, clear_all_seats <$> rooms).
Proof.
  induction rooms as [|room rooms IH]; [done|].
  cbn [for_rooms].
  change (allocate_room groups [] [] self room)
    with (Ok (self, clear_all_seats room)).
  cbn [mbind result_bind]. by rewrite IH.
Qed.

Lemma for_rooms_alternating groups even_list odd_list self rooms :
  len groups > 1 → 0 ≤ odd_index self → 0 ≤ even_index self →
  ∃ o' e',
    for_rooms (allocate_room groups even_list odd_list) self rooms
    = Ok (mkSeatingAllocator (exam_session self) o' e',
          alloc_alternating even_list odd_list
            (odd_index self) (even_index self) rooms).
Proof.
  intros Hg.
  destruct (decide (even_list = [] ∧ odd_list = [])) as [[-> ->]|Hne].
  { intros _ _. rewrite for_rooms_empty_queues, alloc_alternating_nil.
    destruct self. by eexists _, _. }
  revert self. induction rooms as [|room rooms IH]; intros self Ho He.
  { destruct self. by eexists _, _. }
  cbn [for_rooms alloc_alternating].
  rewrite allocate_room_alternating by done.
  rewrite alternating_ok; [|done..|apply clear_all_seats_shape].
  cbn [mbind result_bind].
  change (odd_walk (clear_all_seats room)) with (odd_walk room).
  change (even_walk (clear_all_seats room)) with (even_walk room).
  edestruct (IH (mkSeatingAllocator (exam_session self)
                   (odd_index self + len (odd_walk room))
                   (even_index self + len (even_walk room))))
    as (o' & e' & ->); [simpl; unfold len; lia..|].
  cbn [mbind result_bind]. by eexists _, _.
Qed.

Lemma for_rooms_sequential groups even_list odd_list self rooms :
  ¬ len groups > 1 →
  for_rooms (allocate_room groups even_list odd_list) self rooms
  = Ok (self, alloc_sequential (even_list ++ odd_list) rooms).
Proof.
  intros Hg.
  destruct (decide (even_list = [] ∧ odd_list = [])) as [[-> ->]|Hne].
  { by rewrite for_rooms_empty_queues, alloc_sequential_nil. }
  induction rooms as [|room rooms IH]; [done|].
  cbn [for_rooms]. rewrite allocate_room_sequential by done.
  rewrite sequential_ok by apply clear_all_seats_shape.
  cbn [mbind result_bind]. by rewrite IH.
Qed.

(** [allocate_seats] never raises: it fails at the capacity gate, leaving the
    allocator and its session as they are, or it succeeds with the rooms
    [allocated_rooms]. *)
Lemma allocate_seats_result self :
  if has_sufficient_capacity (exam_session self) then
    ∃ self', allocate_seats self = Ok (true, self') ∧
             exam_session self' =
             set_rooms (exam_session self) (allocated_rooms (exam_session self))
  else allocate_seats self = Ok (false, self).
Proof.
  unfold allocate_seats, allocated_rooms.
  destruct (has_sufficient_capacity (exam_session self)); simpl; [|done].
  destruct (_create_even_odd_lists _) as [even_list odd_list].
  case_bool_decide as Hg.
  - edestruct (for_rooms_alternating
                 (get_students_by_branch (exam_session self))
                 even_list odd_list
                 (set_even_index (set_odd_index self 0) 0)
                 (rooms (exam_session self)))
      as (o' & e' & ->); [done..|].
    simpl. by eexists.
  - rewrite for_rooms_sequential by done. simpl. by eexists.
Qed.

(** ** The capacity gate *)

Lemma foldl_add_capacity (a : Z) (rooms : list Room) :
  foldl Z.add a (capacity <$> rooms) = a + sum_rows_columns rooms.
Proof.
  revert a. induction rooms as [|room rooms IH]; intros a; simpl; [lia|].
  rewrite IH. unfold capacity. lia.
Qed.

Lemma get_total_capacity_sum session :
  get_total_capacity session = sum_rows_columns (rooms session).
Proof. unfold get_total_capacity. by rewrite foldl_add_capacity. Qed.

(** C2: [allocate_seats] returns normally on every session; it returns
    success exactly when the sum of [rows * columns] over the rooms is at
    least the number of students; and when it returns failure the allocator
    and its session, hence every room and every cell of every grid, are what
    they were before the call. *)
Theorem capacity_gate_exact (self : SeatingAllocator) :
  ∃ ok self',
    allocate_seats self = Ok (ok, self') ∧
    (ok = true ↔
       sum_rows_columns (rooms (exam_session self))
       >= len (students (exam_session self))) ∧
    (ok = false → self' = self ∧
       rooms (exam_session self') = rooms (exam_session self)).
Proof.
  pose proof (allocate_seats_result self) as Hres.
  rewrite <-get_total_capacity_sum.
  unfold has_sufficient_capacity in Hres.
  case_bool_decide as Hcap.
  - destruct Hres as (self' & -> & _). exists true, self'. by split_and!.
  - exists false, self. split_and!; [done| |done]. split; [done|]. intros; lia.
Qed.

(** ** Seats *)

(** C10: in a room whose grid has [rows] rows of [columns] seats, [set_seat]
    at an in-bounds position succeeds whatever the seat held before; the
    seat then holds the given student, every other cell of the grid is
    unchanged, and so are the room number and the row and column counts.  At
    an out-of-bounds position [set_seat] raises [IndexError]; no room is
    produced, the room of the caller is the one it had. *)
Theorem set_seat_frame (room : Room) (row column : Z) (student : option Student) :
  grid_shape room →
  (in_bounds room (row, column) →
     ∃ room',
       set_seat room row column student = Ok room' ∧
       room_no room' = room_no room ∧
       rows room' = rows room ∧ columns room' = columns room ∧
       grid_shape room' ∧
       get_seat room' row column = Ok student ∧
       (∀ i j : nat, (Z.of_nat i, Z.of_nat j) ≠ (row, column) →
          cell (seating_grid room') i j = cell (seating_grid room) i j) ∧
       (∀ r c, (r, c) ≠ (row, column) →
          get_seat room' r c = get_seat room r c)) ∧
  (¬ in_bounds room (row, column) →
     set_seat room row column student = Raise IndexError).
Proof.
  intros Hs. split.
  - intros Hb. eexists. split; [by apply set_seat_in_bounds|].
    set (room' := with_grid room _).
    assert (grid_shape room') as Hs' by (by apply grid_set_shape).
    assert (∀ i j : nat, (Z.of_nat i, Z.of_nat j) ≠ (row, column) →
              cell (seating_grid room') i j = cell (seating_grid room) i j)
      as Hother.
    { intros i j Hne. apply cell_grid_set_ne. destruct Hb as [? ?].
      simpl in *. intros Heq. apply Hne. simplify_eq. f_equal; lia. }
    assert (in_bounds room' (row, column)) as Hb' by done.
    split_and!; try done.
    + destruct (get_seat_in_bounds room' row column Hs' Hb') as (x & Hx & ->).
      f_equal. unfold room' in Hx. simpl in Hx.
      rewrite cell_grid_set_eq in Hx by (by apply (cell_in_bounds room (row, column))).
      by simplify_eq.
    + intros r c Hne.
      destruct (decide (in_bounds room (r, c))) as [Hrc|Hrc].
      * destruct (get_seat_in_bounds room r c Hs Hrc) as (x & Hx & ->).
        destruct (get_seat_in_bounds room' r c Hs' Hrc) as (x' & Hx' & ->).
        f_equal. destruct Hrc as [? ?]. simpl in *.
        rewrite <-(Z2Nat.id r), <-(Z2Nat.id c) in Hne by lia.
        rewrite (Hother _ _ Hne) in Hx'. by simplify_eq.
      * unfold get_seat.
        rewrite (out_of_bounds_true room r c Hrc).
        by rewrite (out_of_bounds_true room' r c Hrc).
  - intros Hb. unfold set_seat. by rewrite out_of_bounds_true.
Qed.

Lemma set_seat_frame_witness :
  let s1 := new_Student "21321A0401" None None None None in
  let s2 := new_Student "21321A0501" None None None None in
  let room := mkRoom (RoomInt 101) 2 2 [[None; Some s1]; [None; None]] in
  grid_shape room ∧ in_bounds room (0, 1) ∧
  ∃ room', set_seat room 0 1 (Some s2) = Ok room' ∧
           get_seat room' 0 1 = Ok (Some s2).
Proof.
  intros s1 s2 room.
  assert (grid_shape room) as Hs.
  { split; [reflexivity|]. by repeat constructor. }
  assert (in_bounds room (0, 1)) as Hb.
  { unfold in_bounds; simpl; lia. }
  split; [exact Hs|]. split; [exact Hb|].
  destruct (set_seat_frame room 0 1 (Some s2) Hs) as [Hin _].
  destruct (Hin Hb) as (room' & Hset & _ & _ & _ & _ & Hget & _).
  exists room'. split; [exact Hset|exact Hget].
Defined.

(** ** Grouping by branch *)

Lemma first_seen_snoc {K} `{EqDecision K} (l : list K) (k : K) :
  first_seen (l ++ [k])
  = if decide (k ∈ first_seen l) then first_seen l else first_seen l ++ [k].
Proof. unfold first_seen. by rewrite foldl_app. Qed.

Lemma first_seen_elem_of {K} `{EqDecision K} (l : list K) (k : K) :
  k ∈ first_seen l ↔ k ∈ l.
Proof.
  induction l as [|x l IH] using rev_ind; [done|].
  rewrite first_seen_snoc, elem_of_app, list_elem_of_singleton.
  case_decide as Hx; [|rewrite elem_of_app, list_elem_of_singleton; tauto].
  split; [tauto|]. intros [?| ->]; tauto.
Qed.

Lemma first_seen_NoDup {K} `{EqDecision K} (l : list K) : NoDup (first_seen l).
Proof.
  induction l as [|x l IH] using rev_ind; [constructor|].
  rewrite first_seen_snoc. case_decide as Hx; [done|].
  apply NoDup_app. split_and!; [done| |apply NoDup_singleton].
  intros y Hy ->%list_elem_of_singleton. done.
Qed.

Lemma branch_group_absent l b :
  b ∉ branch_name <$> l → branch_group l b = [].
Proof.
  unfold branch_group. induction l as [|s l IH]; [done|].
  intros [Hne Hnot]%not_elem_of_cons.
  rewrite filter_cons_False by congruence. auto.
Qed.

(** The groups of [get_students_by_branch] are the branches in first-seen
    order, each with its students in roster order. *)
Lemma get_students_by_branch_stable session :
  get_students_by_branch session
  = (λ b, (b, branch_group (students session) b))
    <$> first_seen (branch_name <$> students session).
Proof.
  unfold get_students_by_branch.
  induction (students session) as [|s l IH] using rev_ind; [done|].
  rewrite foldl_app. cbn [foldl]. rewrite IH. clear IH.
  rewrite fmap_app. cbn [fmap list_fmap]. rewrite first_seen_snoc.
  set (ks := first_seen (branch_name <$> l)).
  pose proof (first_seen_NoDup (branch_name <$> l)) as Hnd. fold ks in Hnd.
  unfold dict_contains. rewrite dict_get_fmap_keys.
  assert (∀ b, branch_group (l ++ [s]) b
               = if decide (b = branch_name s)
                 then branch_group l b ++ [s] else branch_group l b) as Hgrp.
  { intros b. unfold branch_group. rewrite filter_app.
    case_decide as Hb.
    - by rewrite filter_cons_True, filter_nil.
    - rewrite filter_cons_False, filter_nil, app_nil_r; [done|]. congruence. }
  destruct (decide (branch_name s ∈ ks)) as [Hin|Hin].
  - rewrite bool_decide_eq_true_2 by eauto. cbn [negb].
    rewrite dict_alter_fmap_keys by done.
    apply list_fmap_ext. intros i b Hb. by rewrite Hgrp.
  - rewrite bool_decide_eq_false_2 by (by intros [? ?]). cbn [negb].
    rewrite dict_set_new by (by rewrite dict_get_fmap_keys, decide_False).
    rewrite dict_alter_app_new.
    2:{ rewrite <-list_fmap_compose. simpl. by rewrite list_fmap_id. }
    rewrite fmap_app. simpl. rewrite decide_True by done. f_equal.
    + apply list_fmap_ext. intros i b Hb. rewrite Hgrp.
      rewrite decide_False; [done|]. intros Heq. subst b.
      apply Hin. by eapply list_elem_of_lookup_2.
    + rewrite Hgrp, decide_True by done. do 3 f_equal.
      rewrite branch_group_absent; [done|].
      by rewrite <-first_seen_elem_of.
Qed.

Lemma concat_dict_alter_snoc {K} `{EqDecision K} (k : K) (s : Student)
    (d : list (K * list Student)) :
  is_Some (dict_get k d) →
  concat (dict_values (dict_alter (λ l, l ++ [s]) k d))
  ≡ₚ concat (dict_values d) ++ [s].
Proof.
  unfold dict_values.
  induction d as [|[k' v'] d IH]; simpl; [by intros [? ?]|].
  case_decide; simpl; intros Hk.
  - rewrite <-!app_assoc. apply Permutation_app_head.
    apply Permutation_app_comm.
  - rewrite IH by done. by rewrite app_assoc.
Qed.

Lemma get_students_by_branch_perm session :
  concat (dict_values (get_students_by_branch session)) ≡ₚ students session.
Proof.
  unfold get_students_by_branch.
  assert (∀ (l : list Student) (d : BranchGroups),
    concat (dict_values (foldl (λ branch_dict student,
        let branch_dict :=
          if negb (dict_contains (branch_name student) branch_dict)
          then dict_set (branch_name student) [] branch_dict
          else branch_dict in
        dict_alter (λ l, l ++ [student]) (branch_name student) branch_dict)
      d l)) ≡ₚ concat (dict_values d) ++ l) as Hgen.
  { induction l as [|s l IH]; intros d; simpl; [by rewrite app_nil_r|].
    rewrite IH. unfold dict_contains. case_bool_decide as Hin; simpl.
    - rewrite concat_dict_alter_snoc by done. by rewrite <-app_assoc.
    - rewrite concat_dict_alter_snoc.
      + assert (dict_get (branch_name s) d = None) as Hnone.
        { destruct (dict_get (branch_name s) d) eqn:Hd; [|done].
          destruct Hin. by eexists. }
        rewrite (dict_set_new _ _ _ Hnone). unfold dict_values.
        rewrite fmap_app, concat_app. simpl.
        by rewrite !app_nil_r, <-app_assoc.
      + pose proof (dict_contains_set (branch_name s) ([] : list Student) d)
          as Hc.
        by apply bool_decide_eq_true_1 in Hc. }
  apply (Hgen (students session) []).
Qed.

(** ** Queue construction *)

Lemma zip_seqZ_cons {A} (i : Z) (x : A) (l : list A) :
  zip (seqZ i (len (x :: l))) (x :: l) = (i, x) :: zip (seqZ (i + 1) (len l)) l.
Proof.
  rewrite seqZ_cons by (unfold len; simpl; lia). simpl. do 3 f_equal.
  unfold len. simpl. lia.
Qed.

Lemma distribute_later (i : Z) (A B : list Student) (groups : list (list Student)) :
  2 ≤ i →
  foldl distribute_step (Some <$> A, Some <$> B) (zip (seqZ i (len groups)) groups)
  = (Some <$> (place_groups A B groups).1, Some <$> (place_groups A B groups).2).
Proof.
  revert i A B. induction groups as [|g rest IH]; intros i A B Hi; [done|].
  rewrite zip_seqZ_cons. cbn [foldl place_groups].
  unfold distribute_step at 2.
  rewrite !bool_decide_eq_false_2 by lia.
  unfold len. rewrite !length_fmap.
  case_bool_decide; rewrite <-fmap_app; apply IH; lia.
Qed.

Lemma create_lists_unpadded (groups : list (list Student)) :
  foldl distribute_step ([], []) (enumerate groups)
  = (Some <$> (queue_students groups).1, Some <$> (queue_students groups).2).
Proof.
  unfold enumerate. destruct groups as [|g1 [|g2 rest]]; [done|done|].
  rewrite zip_seqZ_cons, zip_seqZ_cons. cbn [foldl].
  change (distribute_step (distribute_step ([], []) (0, g1)) (0 + 1, g2))
    with ((Some <$> g1, Some <$> g2) : Queue * Queue).
  by apply distribute_later.
Qed.

Lemma create_lists_queues_spec (branch_groups : BranchGroups) :
  _create_even_odd_lists branch_groups = queues_spec (dict_values branch_groups).
Proof.
  unfold _create_even_odd_lists, queues_spec, pad_queues.
  change (foldl _ _ (enumerate (dict_values branch_groups)))
    with (foldl distribute_step ([], []) (enumerate (dict_values branch_groups))).
  rewrite create_lists_unpadded.
  destruct (queue_students (dict_values branch_groups)) as [A B].
  cbn [fst snd]. unfold len. rewrite !length_fmap.
  f_equal; f_equal; f_equal; lia.
Qed.

(** C5: the queues built by [_create_even_odd_lists] are those of the
    specification, with [even_list] as queue A and [odd_list] as queue B:
    the first group is all of A, the second all of B, a later group is
    appended to B exactly when A is longer than B at that moment and to A
    otherwise, and the shorter queue is padded with empty places; the two
    queues returned have the same length. *)
Theorem create_even_odd_lists_spec (branch_groups : BranchGroups) :
  _create_even_odd_lists branch_groups = queues_spec (dict_values branch_groups) ∧
  length (_create_even_odd_lists branch_groups).1
  = length (_create_even_odd_lists branch_groups).2.
Proof.
  split; [apply create_lists_queues_spec|].
  rewrite create_lists_queues_spec. unfold queues_spec, pad_queues.
  cbn [fst snd]. rewrite !length_app, !length_fmap, !length_replicate. lia.
Qed.

(** ** Concrete sessions *)

(** C6 as stated fails: for three ECE students followed by three CSE
    students and one 3 by 3 room the call succeeds with 6 occupied and 3
    empty seats, the CSE students in the first column and the ECE students
    in the second, top to bottom.  The seats (0,1) and (1,1) share an edge
    and both hold an ECE student, and so do (0,0) and (1,0) with CSE
    students. *)
Lemma two_branch_scenario :
  ∃ self' room',
    allocate_seats (new_SeatingAllocator two_branch_session) = Ok (true, self') ∧
    rooms (exam_session self') = [room'] ∧
    seating_grid room' = [ [Some cse1; Some ece1; None];
                           [Some cse2; Some ece2; None];
                           [Some cse3; Some ece3; None] ] ∧
    length (seated room') = 6%nat ∧
    get_empty_seats_count room' = Ok 3 ∧
    adjacent (0, 1) (1, 1) ∧
    get_seat room' 0 1 = Ok (Some ece1) ∧ get_seat room' 1 1 = Ok (Some ece2) ∧
    branch_name ece1 = Some "ECE"%string ∧ branch_name ece2 = Some "ECE"%string ∧
    adjacent (0, 0) (1, 0) ∧
    get_seat room' 0 0 = Ok (Some cse1) ∧ get_seat room' 1 0 = Ok (Some cse2) ∧
    branch_name cse1 = Some "CSE"%string ∧ branch_name cse2 = Some "CSE"%string.
Proof.
  eexists _, _. split; [vm_compute; reflexivity|].
  split; [reflexivity|].
  split_and!; try (vm_compute; reflexivity); left; simpl; lia.
Qed.

Ltac seat_cases r H :=
  let Hr := fresh in
  assert (r = 0 ∨ r = 1 ∨ r = 2) as Hr by lia; clear H;
  destruct Hr as [->|[->| ->]].

(** C6, amended: for three ECE students followed by three CSE students and
    one 3 by 3 room the call succeeds and leaves 6 occupied and 3 empty
    seats: the first column holds the three CSE students, the second the
    three ECE students, each from the top down, and the third is empty.  No
    two seats that share an edge within a row hold students of the same
    branch; two occupied seats that share an edge within a column hold
    students of the same branch, as the band fill puts one queue in a
    column. *)
Theorem two_branch_layout :
  let room' := mkRoom (RoomInt 101) 3 3
                 [ [Some cse1; Some ece1; None];
                   [Some cse2; Some ece2; None];
                   [Some cse3; Some ece3; None] ] in
  ∃ self',
    allocate_seats (new_SeatingAllocator two_branch_session) = Ok (true, self') ∧
    rooms (exam_session self') = [room'] ∧
    length (seated room') = 6%nat ∧
    get_empty_seats_count room' = Ok 3 ∧
    (∀ p q s t,
       adjacent p q → p.1 = q.1 →
       get_seat room' p.1 p.2 = Ok (Some s) →
       get_seat room' q.1 q.2 = Ok (Some t) →
       branch_name s ≠ branch_name t) ∧
    (∀ p q s t,
       adjacent p q → p.2 = q.2 →
       get_seat room' p.1 p.2 = Ok (Some s) →
       get_seat room' q.1 q.2 = Ok (Some t) →
       branch_name s = branch_name t).
Proof.
  intros room'.
  assert (∀ r c x, get_seat room' r c = Ok x → 0 ≤ r < 3 ∧ 0 ≤ c < 3)
    as Hbounds.
  { intros r c x Hget.
    destruct (decide (in_bounds room' (r, c))) as [Hin|Hout]; [exact Hin|].
    unfold get_seat in Hget.
    by rewrite (out_of_bounds_true room' r c Hout) in Hget. }
  eexists. split; [vm_compute; reflexivity|].
  split; [reflexivity|]. split; [reflexivity|].
  split; [vm_compute; reflexivity|].
  split.
  - intros [r c] [r' c'] s t Hadj Hrow Hp Hq. simpl in Hrow, Hp, Hq.
    subst r'.
    destruct (Hbounds _ _ _ Hp) as [Hr Hc].
    destruct (Hbounds _ _ _ Hq) as [_ Hc'].
    assert (c' = c + 1 ∨ c' = c - 1) as Hside.
    { destruct Hadj as [[Heq Habs]|[_ Habs]]; simpl in *; lia. }
    clear Hadj Hbounds.
    seat_cases r Hr; seat_cases c Hc;
      destruct Hside as [-> | ->]; try lia; clear Hc';
      vm_compute in Hp; vm_compute in Hq;
      try discriminate Hp; try discriminate Hq;
      injection Hp as <-; injection Hq as <-;
      vm_compute; discriminate.
  - intros [r c] [r' c'] s t Hadj Hcol Hp Hq. simpl in Hcol, Hp, Hq.
    subst c'.
    destruct (Hbounds _ _ _ Hp) as [Hr Hc].
    destruct (Hbounds _ _ _ Hq) as [Hr' _].
    assert (r' = r + 1 ∨ r' = r - 1) as Hside.
    { destruct Hadj as [[_ Habs]|[Heq Habs]]; simpl in *; lia. }
    clear Hadj Hbounds.
    seat_cases r Hr; seat_cases c Hc;
      destruct Hside as [-> | ->]; try lia; clear Hr';
      vm_compute in Hp; vm_compute in Hq;
      try discriminate Hp; try discriminate Hq;
      injection Hp as <-; injection Hq as <-;
      reflexivity.
Qed.

Lemma two_branch_layout_witness :
  branch_name cse1 ≠ branch_name ece1 ∧ branch_name ece1 = branch_name ece2.
Proof.
  destruct two_branch_layout as (self' & _ & _ & _ & _ & Hrow & Hcolumn).
  split.
  - apply (Hrow (0, 0) (0, 1) cse1 ece1);
      [right; simpl; lia|reflexivity|reflexivity|reflexivity].
  - apply (Hcolumn (0, 1) (1, 1) ece1 ece2);
      [left; simpl; lia|reflexivity|reflexivity|reflexivity].
Defined.

(** C4, on the code: with one branch every room is filled from the start of
    the queue.  For two CSE students and two rooms of one seat each the call
    succeeds, both rooms seat the first student and the second student has
    no seat. *)
Theorem single_branch_restart :
  has_sufficient_capacity single_branch_session = true ∧
  ∃ self' room1 room2,
    allocate_seats (new_SeatingAllocator single_branch_session) = Ok (true, self') ∧
    rooms (exam_session self') = [room1; room2] ∧
    get_seat room1 0 0 = Ok (Some cse1) ∧
    get_seat room2 0 0 = Ok (Some cse1) ∧
    seated_all (rooms (exam_session self')) = [cse1; cse1] ∧
    cse2 ∉ seated_all (rooms (exam_session self')).
Proof.
  split; [reflexivity|].
  eexists _, _, _. split; [vm_compute; reflexivity|].
  split; [reflexivity|].
  split_and!; try (vm_compute; reflexivity).
  intros Hin. apply list_elem_of_In in Hin. vm_compute in Hin.
  destruct Hin as [H|[H|[]]]; discriminate H.
Qed.

(** With one branch the rooms after a successful call are, in general, each
    filled column-major in natural column order from the start of the
    combined queue. *)
Lemma single_branch_rooms (self : SeatingAllocator) :
  has_sufficient_capacity (exam_session self) = true →
  ¬ len (get_students_by_branch (exam_session self)) > 1 →
  ∃ self',
    allocate_seats self = Ok (true, self') ∧
    rooms (exam_session self') =
    (λ room,
       fill_walk ((_create_even_odd_lists
                     (get_students_by_branch (exam_session self))).1 ++
                  (_create_even_odd_lists
                     (get_students_by_branch (exam_session self))).2)
                 0 (clear_all_seats room) (full_walk room))
    <$> rooms (exam_session self).
Proof.
  intros Hcap Hg. pose proof (allocate_seats_result self) as Hres.
  rewrite Hcap in Hres. destruct Hres as (self' & Hok & Hs).
  exists self'. split; [done|]. rewrite Hs. unfold allocated_rooms. simpl.
  destruct (_create_even_odd_lists _) as [even_list odd_list].
  by rewrite bool_decide_eq_false_2.
Qed.

(** ** Band sizes and the cursors at a room *)

Lemma odd_cells_nonneg rooms : 0 ≤ odd_cells rooms.
Proof. induction rooms; simpl; unfold len in *; lia. Qed.

Lemma even_cells_nonneg rooms : 0 ≤ even_cells rooms.
Proof. induction rooms; simpl; unfold len in *; lia. Qed.

Lemma length_column_major room cols :
  length (column_major room cols) = (length cols * Z.to_nat (rows room))%nat.
Proof.
  unfold column_major. induction cols as [|j cols IH]; [done|].
  change ((j :: cols) ≫= ?g) with (g j ++ (cols ≫= g)).
  rewrite length_app, IH, length_fmap. unfold range. rewrite length_seqZ.
  simpl. f_equal. f_equal. lia.
Qed.

Lemma length_odd_walk room :
  length (odd_walk room) =
  (Z.to_nat ((columns room + 1) `div` 2) * Z.to_nat (rows room))%nat.
Proof.
  unfold odd_walk. rewrite length_column_major. f_equal.
  unfold odd_columns, range.
  replace (columns room + 1 - 1) with (columns room) by lia.
  by rewrite filter_odd_seqZ, length_fmap, length_seqZ.
Qed.

Lemma length_even_walk room :
  length (even_walk room) =
  (Z.to_nat (columns room - (columns room + 1) `div` 2)
   * Z.to_nat (rows room))%nat.
Proof.
  unfold even_walk. rewrite length_column_major. f_equal.
  unfold even_columns, range.
  replace (columns room + 1 - 1) with (columns room) by lia.
  by rewrite filter_even_seqZ, length_fmap, length_seqZ.
Qed.

Lemma length_full_walk room :
  length (full_walk room) =
  (Z.to_nat (columns room) * Z.to_nat (rows room))%nat.
Proof.
  unfold full_walk. rewrite length_column_major. f_equal.
  unfold range. rewrite length_seqZ. lia.
Qed.

(** A room without rows or without columns has no seat to walk. *)
Lemma degenerate_walks room :
  rows room ≤ 0 ∨ columns room ≤ 0 →
  odd_walk room = [] ∧ even_walk room = [] ∧ full_walk room = [].
Proof.
  intros Hd. split_and!; apply length_zero_iff_nil.
  - rewrite length_odd_walk. destruct Hd; [lia|].
    assert ((columns room + 1) `div` 2 ≤ 0) by lia_div. lia.
  - rewrite length_even_walk. destruct Hd; [lia|].
    assert (columns room - (columns room + 1) `div` 2 ≤ 0) by lia_div. lia.
  - rewrite length_full_walk. lia.
Qed.

Lemma alloc_alternating_lookup even_list odd_list o e rooms k room :
  rooms !! k = Some room →
  alloc_alternating even_list odd_list o e rooms !! k =
  Some (fill_bands even_list odd_list
          (o + odd_cells (take k rooms)) (e + even_cells (take k rooms))
          (clear_all_seats room)).
Proof.
  revert o e k. induction rooms as [|r rooms IH]; intros o e k Hk; [done|].
  destruct k as [|k]; simplify_eq/=.
  - by rewrite !Z.add_0_r.
  - rewrite (IH _ _ _ Hk). do 2 f_equal; lia.
Qed.

Lemma alloc_sequential_lookup students rooms k room :
  rooms !! k = Some room →
  alloc_sequential students rooms !! k =
  Some (fill_walk students 0 (clear_all_seats room) (full_walk room)).
Proof. intros Hk. unfold alloc_sequential. by rewrite list_lookup_fmap, Hk. Qed.

Lemma allocated_rooms_degenerate session k room :
  rooms session !! k = Some room →
  rows room ≤ 0 ∨ columns room ≤ 0 →
  allocated_rooms session !! k = Some (clear_all_seats room).
Proof.
  intros Hk Hd. unfold allocated_rooms.
  destruct (_create_even_odd_lists _) as [even_list odd_list].
  destruct (degenerate_walks room Hd) as (Ho & He & Hf).
  case_bool_decide.
  - rewrite (alloc_alternating_lookup _ _ _ _ _ _ _ Hk).
    unfold fill_bands.
    change (odd_walk (clear_all_seats room)) with (odd_walk room).
    change (even_walk (clear_all_seats room)) with (even_walk room).
    by rewrite Ho, He.
  - rewrite (alloc_sequential_lookup _ _ _ _ Hk). by rewrite Hf.
Qed.

(** ** Rooms without rows or columns *)

(** C9 as stated fails: a room with -2 rows and -3 columns has no seat, yet
    its capacity is 6 and it adds 6 to the total capacity of its session;
    a room with -2 rows and 3 columns has capacity -6. *)
Lemma negative_room_capacity :
  let room := new_Room (RoomInt 101) (-2) (-3) in
  (rows room ≤ 0 ∨ columns room ≤ 0) ∧
  seating_grid room = [] ∧
  capacity room = 6 ∧
  get_total_capacity (session_of [] [room]) = 6 ∧
  capacity (new_Room (RoomInt 102) (-2) 3) = -6.
Proof. split_and!; [left; simpl; lia|reflexivity..]. Qed.

(** C9, amended: a room with zero rows or zero columns has capacity zero; a
    room with a negative count has capacity [rows * columns], which need not
    be zero.  In both cases [allocate_seats] returns normally and never
    writes a student into the room: on success the room is left with the
    cleared grid of its dimensions, which seats nobody, and on failure the
    session is unchanged. *)
Theorem degenerate_room_never_seated (self : SeatingAllocator) (k : nat) (room : Room) :
  rooms (exam_session self) !! k = Some room →
  rows room ≤ 0 ∨ columns room ≤ 0 →
  (rows room = 0 ∨ columns room = 0 → capacity room = 0) ∧
  capacity room = rows room * columns room ∧
  ∃ ok self',
    allocate_seats self = Ok (ok, self') ∧
    (ok = false → self' = self) ∧
    (ok = true →
       rooms (exam_session self') !! k = Some (clear_all_seats room)) ∧
    seated (clear_all_seats room) = [].
Proof.
  intros Hk Hd. split; [|split; [done|]].
  { unfold capacity. lia. }
  pose proof (allocate_seats_result self) as Hres.
  destruct (has_sufficient_capacity (exam_session self)).
  - destruct Hres as (self' & Hok & Hs). exists true, self'.
    split_and!; [done|done| |apply seated_clear].
    intros _. rewrite Hs. simpl. by apply allocated_rooms_degenerate.
  - exists false, self. split_and!; [done|done|done|apply seated_clear].
Qed.

Lemma degenerate_room_never_seated_witness :
  let room := new_Room (RoomInt 100) (-1) 2 in
  let self := new_SeatingAllocator degenerate_session in
  rooms (exam_session self) !! 0%nat = Some room ∧
  (rows room ≤ 0 ∨ columns room ≤ 0) ∧
  ∃ self',
    allocate_seats self = Ok (true, self') ∧
    rooms (exam_session self') !! 0%nat = Some (clear_all_seats room) ∧
    seated (clear_all_seats room) = [] ∧
    seated_all (rooms (exam_session self')) = [cse1; ece1].
Proof.
  intros room self.
  assert (rooms (exam_session self) !! 0%nat = Some room) as Hk by reflexivity.
  assert (rows room ≤ 0 ∨ columns room ≤ 0) as Hd by (left; simpl; lia).
  split; [exact Hk|]. split; [exact Hd|].
  destruct (degenerate_room_never_seated self 0 room Hk Hd)
    as (_ & _ & ok & self' & Hres & _ & Hok & Hnone).
  assert (∃ self0, allocate_seats self = Ok (true, self0) ∧
                   seated_all (rooms (exam_session self0)) = [cse1; ece1])
    as (self0 & Hrun & Hseated).
  { eexists. split; vm_compute; reflexivity. }
  rewrite Hrun in Hres. injection Hres as <- <-.
  exists self0. split; [exact Hrun|]. split; [exact (Hok eq_refl)|].
  split; [exact Hnone|exact Hseated].
Defined.

(** ** What the bands of a room hold after a multi-branch allocation *)

Lemma cell_at_clear room p :
  in_bounds room p → cell_at (clear_all_seats room) p = Some None.
Proof.
  intros Hb.
  destruct (cell_in_bounds (clear_all_seats room) p) as [x Hx];
    [apply clear_all_seats_shape|done|].
  unfold cell_at. rewrite Hx. f_equal.
  exact (empty_grid_cell (rows room) (columns room) _ _ _ Hx).
Qed.

Lemma get_seat_cell_at room p x :
  grid_shape room → in_bounds room p → cell_at room p = Some x →
  get_seat room p.1 p.2 = Ok x.
Proof.
  intros Hs Hb Hc. destruct p as [r c]. cbn [fst snd].
  destruct (get_seat_in_bounds room r c Hs Hb) as (y & Hy & ->).
  unfold cell_at in Hc. simpl in *. by simplify_eq.
Qed.

Lemma read_walk_slice room ps q start :
  grid_shape room → Forall (in_bounds room) ps →
  (∀ k p, ps !! k = Some p → cell_at room p = Some (q_at q (start + Z.of_nat k))) →
  read_walk room ps = queue_slice q start (length ps).
Proof.
  intros Hs Hb Hc. unfold read_walk, queue_slice.
  apply list_eq. intros k. rewrite !list_lookup_fmap.
  destruct (ps !! k) as [p|] eqn:Hp; simpl.
  - rewrite lookup_seqZ_lt by (apply lookup_lt_Some in Hp; lia). simpl.
    f_equal. rewrite Z.add_0_l.
    apply get_seat_cell_at; [done| |by eapply Hc].
    rewrite Forall_forall in Hb. apply Hb. by eapply list_elem_of_lookup_2.
  - rewrite lookup_seqZ_ge by (apply lookup_ge_None in Hp; lia). done.
Qed.

Lemma fill_bands_dims even_list odd_list o e room :
  room_no (fill_bands even_list odd_list o e room) = room_no room ∧
  rows (fill_bands even_list odd_list o e room) = rows room ∧
  columns (fill_bands even_list odd_list o e room) = columns room.
Proof.
  unfold fill_bands.
  destruct (fill_walk_dims even_list e
              (fill_walk odd_list o room (odd_walk room)) (even_walk room))
    as (-> & -> & ->).
  apply fill_walk_dims.
Qed.

Lemma fill_bands_in_bounds even_list odd_list o e room ps :
  Forall (in_bounds room) ps →
  Forall (in_bounds (fill_bands even_list odd_list o e room)) ps.
Proof.
  destruct (fill_bands_dims even_list odd_list o e room) as (_ & Hr & Hc).
  intros Hb. eapply Forall_impl; [exact Hb|].
  intros p [? ?]. split; [by rewrite Hr|by rewrite Hc].
Qed.

Lemma fill_walk_in_bounds q idx room ps ps' :
  Forall (in_bounds room) ps' →
  Forall (in_bounds (fill_walk q idx room ps)) ps'.
Proof.
  destruct (fill_walk_dims q idx room ps) as (_ & Hr & Hc).
  intros Hb. eapply Forall_impl; [exact Hb|].
  intros p [? ?]. split; [by rewrite Hr|by rewrite Hc].
Qed.

Lemma walk_elem_in_bounds room ps p :
  Forall (in_bounds room) ps → p ∈ ps → in_bounds room p.
Proof. rewrite Forall_forall. auto. Qed.

(** In a cleared room, after the two band loops, the odd band read
    column-major holds the entries of [odd_list] from the cursor [o] on, and
    the even band those of [even_list] from [e] on. *)
Lemma fill_bands_read even_list odd_list o e room :
  0 ≤ o → 0 ≤ e →
  let room' := fill_bands even_list odd_list o e (clear_all_seats room) in
  read_walk room' (odd_walk room)
  = queue_slice odd_list o (length (odd_walk room)) ∧
  read_walk room' (even_walk room)
  = queue_slice even_list e (length (even_walk room)).
Proof.
  intros Ho He room'.
  set (room0 := clear_all_seats room).
  set (room1 := fill_walk odd_list o room0 (odd_walk room)).
  assert (grid_shape room1) as Hs1
    by apply fill_walk_shape, clear_all_seats_shape.
  assert (grid_shape room') as Hs' by (by apply fill_walk_shape).
  assert (Forall (in_bounds room1) (even_walk room)) as Hbe
    by apply fill_walk_in_bounds, (even_walk_in_bounds room).
  split.
  - apply read_walk_slice; [done| |].
    { apply fill_bands_in_bounds, (odd_walk_in_bounds room). }
    intros k p Hk.
    assert (p ∈ odd_walk room) as Hp by (by eapply list_elem_of_lookup_2).
    assert (in_bounds room p) as Hb
      by (by eapply walk_elem_in_bounds; [apply odd_walk_in_bounds|]).
    unfold room', fill_bands.
    change (odd_walk (clear_all_seats room)) with (odd_walk room).
    change (even_walk (clear_all_seats room)) with (even_walk room).
    rewrite fill_walk_other; [|done| |].
    + apply fill_walk_at; [done|apply clear_all_seats_shape
                          |apply (odd_walk_in_bounds room)
                          |apply odd_walk_NoDup| |done].
      intros p' Hp'. apply cell_at_clear.
      by eapply walk_elem_in_bounds; [apply odd_walk_in_bounds|].
    + by eapply walk_elem_in_bounds;
        [apply fill_walk_in_bounds, (odd_walk_in_bounds room)|].
    + intros Hpe. by apply (odd_even_walk_disjoint room p).
  - apply read_walk_slice; [done| |].
    { apply fill_bands_in_bounds, (even_walk_in_bounds room). }
    intros k p Hk. unfold room', fill_bands.
    change (odd_walk (clear_all_seats room)) with (odd_walk room).
    change (even_walk (clear_all_seats room)) with (even_walk room).
    apply fill_walk_at; [done|done|done|apply even_walk_NoDup| |done].
    intros p' Hp'. unfold room1.
    rewrite fill_walk_other;
      [|apply (odd_walk_in_bounds room)| |by apply odd_even_walk_disjoint].
    + apply cell_at_clear.
      by eapply walk_elem_in_bounds; [apply even_walk_in_bounds|].
    + by eapply walk_elem_in_bounds; [apply (even_walk_in_bounds room)|].
Qed.

Lemma place_groups_prefix A B groups :
  A `prefix_of` (place_groups A B groups).1 ∧
  B `prefix_of` (place_groups A B groups).2.
Proof.
  revert A B. induction groups as [|g rest IH]; intros A B; simpl; [done|].
  case_bool_decide.
  - destruct (IH A (B ++ g)) as [HA HB]. split; [done|].
    etrans; [|exact HB]. by apply prefix_app_r.
  - destruct (IH (A ++ g) B) as [HA HB]. split; [|done].
    etrans; [|exact HA]. by apply prefix_app_r.
Qed.

(** With two groups or more, [even_list] starts with the first group and
    [odd_list] with the second. *)
Lemma queue_heads (branch_groups : BranchGroups) :
  len branch_groups > 1 →
  ∃ g1 g2 rest,
    dict_values branch_groups = g1 :: g2 :: rest ∧
    (Some <$> g1) `prefix_of` (_create_even_odd_lists branch_groups).1 ∧
    (Some <$> g2) `prefix_of` (_create_even_odd_lists branch_groups).2.
Proof.
  intros Hg. rewrite create_lists_queues_spec.
  unfold dict_values.
  destruct branch_groups as [|[b1 g1] [|[b2 g2] rest]];
    [unfold len in Hg; simpl in Hg; lia..|].
  exists g1, g2, rest.*2. split; [done|].
  unfold queues_spec, pad_queues.
  cbn [fmap list_fmap snd queue_students fst].
  destruct (place_groups_prefix g1 g2 rest.*2) as [H1 H2].
  destruct H1 as [k1 ->], H2 as [k2 ->].
  split; apply prefix_app_r; rewrite fmap_app; by apply prefix_app_r.
Qed.

(** C3 as stated fails: with three ECE students followed by three CSE
    students and one 3 by 3 room, the queue whose head is the first-seen
    group (ECE) is [even_list], and the odd-positioned columns, read
    column-major, hold the CSE students, not the entries of that queue. *)
Lemma odd_columns_not_from_first_group :
  let groups := get_students_by_branch two_branch_session in
  let queue_A := (_create_even_odd_lists groups).1 in
  ∃ self' room',
    allocate_seats (new_SeatingAllocator two_branch_session) = Ok (true, self') ∧
    rooms (exam_session self') = [room'] ∧
    dict_values groups = [[ece1; ece2; ece3]; [cse1; cse2; cse3]] ∧
    queue_A = [Some ece1; Some ece2; Some ece3] ∧
    odd_walk room' = [(0, 0); (1, 0); (2, 0); (0, 2); (1, 2); (2, 2)] ∧
    read_walk room' (odd_walk room')
    = [Ok (Some cse1); Ok (Some cse2); Ok (Some cse3); Ok None; Ok None; Ok None] ∧
    read_walk room' (odd_walk room') ≠ queue_slice queue_A 0 6.
Proof.
  eexists _, _. split; [vm_compute; reflexivity|].
  split; [reflexivity|].
  split_and!; try (vm_compute; reflexivity).
  vm_compute. discriminate.
Qed.

(** C3, amended: in a multi-branch allocation the odd-positioned columns
    (1-based positions 1, 3, 5, ...) of each room are filled column-major,
    top to bottom, by consuming sequentially from [odd_list], the queue
    whose head is the second-seen branch group, and the even-positioned
    columns from [even_list], whose head is the first-seen branch group.
    The groups are the branches in first-seen order, each with its
    students in roster order.  The cursor of a room starts where the
    previous rooms left it: at the total number of odd-band seats,
    respectively even-band seats, of the rooms before it. *)
Theorem bands_filled_from_queues (self : SeatingAllocator) :
  let session := exam_session self in
  let groups := get_students_by_branch session in
  let even_list := (_create_even_odd_lists groups).1 in
  let odd_list := (_create_even_odd_lists groups).2 in
  has_sufficient_capacity session = true →
  len groups > 1 →
  dict_values groups
  = branch_group (students session)
    <$> first_seen (branch_name <$> students session) ∧
  (∃ g1 g2 rest,
     dict_values groups = g1 :: g2 :: rest ∧
     (Some <$> g1) `prefix_of` even_list ∧
     (Some <$> g2) `prefix_of` odd_list) ∧
  ∃ self',
    allocate_seats self = Ok (true, self') ∧
    length (rooms (exam_session self')) = length (rooms session) ∧
    ∀ k room, rooms session !! k = Some room →
      ∃ room',
        rooms (exam_session self') !! k = Some room' ∧
        rows room' = rows room ∧ columns room' = columns room ∧
        read_walk room' (odd_walk room)
        = queue_slice odd_list (odd_cells (take k (rooms session)))
                      (length (odd_walk room)) ∧
        read_walk room' (even_walk room)
        = queue_slice even_list (even_cells (take k (rooms session)))
                      (length (even_walk room)).
Proof.
  intros session groups even_list odd_list Hcap Hg.
  split.
  { unfold groups, dict_values.
    by rewrite get_students_by_branch_stable, <-list_fmap_compose. }
  split; [by apply queue_heads|].
  pose proof (allocate_seats_result self) as Hres.
  fold session in Hres. rewrite Hcap in Hres.
  destruct Hres as (self' & Hok & Hs).
  exists self'. split; [done|]. rewrite Hs.
  unfold allocated_rooms. fold groups.
  rewrite (surjective_pairing (_create_even_odd_lists groups)).
  fold even_list odd_list. rewrite bool_decide_eq_true_2 by done.
  cbn [set_rooms rooms]. split.
  { clear. generalize 0 at 1 as o. generalize 0 as e.
    induction (rooms session) as [|r rs IH]; intros e o; simpl; [done|].
    by rewrite IH. }
  intros k room Hk. eexists. split.
  { by apply alloc_alternating_lookup. }
  rewrite !Z.add_0_l.
  destruct (fill_bands_dims even_list odd_list
              (odd_cells (take k (rooms session)))
              (even_cells (take k (rooms session)))
              (clear_all_seats room)) as (_ & -> & ->).
  split; [done|]. split; [done|].
  apply fill_bands_read; [apply odd_cells_nonneg|apply even_cells_nonneg].
Qed.

Lemma bands_filled_from_queues_witness :
  let self := new_SeatingAllocator two_room_session in
  has_sufficient_capacity (exam_session self) = true ∧
  len (get_students_by_branch (exam_session self)) > 1 ∧
  ∃ self' room',
    allocate_seats self = Ok (true, self') ∧
    length (rooms (exam_session self')) = 2%nat ∧
    rooms (exam_session self') !! 1%nat = Some room' ∧
    read_walk room' (odd_walk (new_Room (RoomInt 102) 2 2))
    = [Ok (Some cse2); Ok (Some cse3)] ∧
    read_walk room' (even_walk (new_Room (RoomInt 102) 2 2))
    = [Ok (Some ece2); Ok (Some ece3)].
Proof.
  intros self.
  assert (has_sufficient_capacity (exam_session self) = true) as Hcap
    by reflexivity.
  assert (len (get_students_by_branch (exam_session self)) > 1) as Hg
    by reflexivity.
  split; [exact Hcap|]. split; [exact Hg|].
  destruct (bands_filled_from_queues self Hcap Hg)
    as (_ & _ & self' & Hok & Hlen & Hrooms).
  destruct (Hrooms 1%nat (new_Room (RoomInt 102) 2 2) eq_refl)
    as (room' & Hroom' & _ & _ & Hodd & Heven).
  exists self', room'. split; [exact Hok|]. split; [exact Hlen|].
  split; [exact Hroom'|]. split; [exact Hodd|exact Heven].
Defined.

(** ** Who is seated after an allocation *)

Lemma seated_fill_bands even_list odd_list o e room :
  0 ≤ o → 0 ≤ e →
  seated (fill_bands even_list odd_list o e (clear_all_seats room)) ≡ₚ
  omap id (take (length (odd_walk room)) (drop (Z.to_nat o) odd_list)) ++
  omap id (take (length (even_walk room)) (drop (Z.to_nat e) even_list)).
Proof.
  intros Ho He. unfold fill_bands.
  change (odd_walk (clear_all_seats room)) with (odd_walk room).
  change (even_walk (clear_all_seats room)) with (even_walk room).
  set (room0 := clear_all_seats room).
  set (room1 := fill_walk odd_list o room0 (odd_walk room)).
  rewrite seated_fill_walk;
    [|done|apply fill_walk_shape, clear_all_seats_shape
     |apply fill_walk_in_bounds, (even_walk_in_bounds room)
     |apply even_walk_NoDup|].
  - apply Permutation_app_tail. unfold room1.
    rewrite seated_fill_walk;
      [|done|apply clear_all_seats_shape|apply (odd_walk_in_bounds room)
       |apply odd_walk_NoDup|].
    + unfold room0. by rewrite seated_clear.
    + intros p Hp. apply cell_at_clear.
      by eapply walk_elem_in_bounds; [apply odd_walk_in_bounds|].
  - intros p Hp. unfold room1.
    rewrite fill_walk_other;
      [|apply (odd_walk_in_bounds room)| |by apply odd_even_walk_disjoint].
    + apply cell_at_clear.
      by eapply walk_elem_in_bounds; [apply even_walk_in_bounds|].
    + by eapply walk_elem_in_bounds; [apply (even_walk_in_bounds room)|].
Qed.

Lemma take_drop_split {A} (l : list A) (o n m : nat) :
  take (n + m) (drop o l) = take n (drop o l) ++ take m (drop (o + n) l).
Proof. by rewrite <-take_take_drop, drop_drop. Qed.

Lemma seated_alloc_alternating even_list odd_list o e rooms :
  0 ≤ o → 0 ≤ e →
  seated_all (alloc_alternating even_list odd_list o e rooms) ≡ₚ
  omap id (take (Z.to_nat (odd_cells rooms)) (drop (Z.to_nat o) odd_list)) ++
  omap id (take (Z.to_nat (even_cells rooms)) (drop (Z.to_nat e) even_list)).
Proof.
  revert o e. induction rooms as [|room rooms IH]; intros o e Ho He.
  { simpl. reflexivity. }
  cbn [alloc_alternating odd_cells even_cells foldr].
  fold (odd_cells rooms). fold (even_cells rooms).
  unfold seated_all in *.
  change ((?r :: ?rs) ≫= seated) with (seated r ++ (rs ≫= seated)).
  rewrite IH by (unfold len; lia).
  rewrite seated_fill_bands by done.
  pose proof (odd_cells_nonneg rooms). pose proof (even_cells_nonneg rooms).
  unfold len.
  replace (Z.to_nat (Z.of_nat (length (odd_walk room)) + odd_cells rooms))
    with (length (odd_walk room) + Z.to_nat (odd_cells rooms))%nat by lia.
  replace (Z.to_nat (Z.of_nat (length (even_walk room)) + even_cells rooms))
    with (length (even_walk room) + Z.to_nat (even_cells rooms))%nat by lia.
  rewrite !take_drop_split, !omap_app.
  replace (Z.to_nat (o + Z.of_nat (length (odd_walk room))))
    with (Z.to_nat o + length (odd_walk room))%nat by lia.
  replace (Z.to_nat (e + Z.of_nat (length (even_walk room))))
    with (Z.to_nat e + length (even_walk room))%nat by lia.
  rewrite <-!app_assoc. apply Permutation_app_head.
  rewrite !app_assoc. apply Permutation_app_tail.
  apply Permutation_app_comm.
Qed.

Lemma omap_Some {A} (l : list A) : omap id (Some <$> l) = l.
Proof. induction l; simpl; [done|]. by f_equal. Qed.

Lemma omap_all_None {A} (l : list (option A)) :
  Forall (λ e, e = None) l → omap id l = [].
Proof. induction 1 as [|? ? ->]; simpl; done. Qed.

(** A queue made of students followed by empty places: a prefix that covers
    the students holds them all. *)
Lemma omap_take_padded {A} (X : list A) (R : list (option A)) (n : nat) :
  Forall (λ e, e = None) R → (length X ≤ n)%nat →
  omap id (take n ((Some <$> X) ++ R)) = X.
Proof.
  intros HR Hn. rewrite take_app, length_fmap, omap_app.
  rewrite take_ge by (rewrite length_fmap; lia).
  rewrite omap_Some, omap_all_None, app_nil_r; [done|].
  by apply Forall_take.
Qed.

Lemma place_groups_perm A B groups :
  (place_groups A B groups).1 ++ (place_groups A B groups).2
  ≡ₚ A ++ B ++ concat groups.
Proof.
  revert A B. induction groups as [|g rest IH]; intros A B; simpl.
  { by rewrite app_nil_r. }
  case_bool_decide; rewrite IH.
  - by rewrite <-!app_assoc.
  - rewrite <-!app_assoc. apply Permutation_app_head.
    rewrite !app_assoc. apply Permutation_app_tail.
    apply Permutation_app_comm.
Qed.

Lemma queue_students_perm groups :
  (queue_students groups).1 ++ (queue_students groups).2 ≡ₚ concat groups.
Proof.
  destruct groups as [|g1 [|g2 rest]]; simpl; [done|done|].
  apply place_groups_perm.
Qed.

(** ** Conservation *)

(** C1, on the code: for two ECE students, one CSE student and one room of
    one row and three columns the capacity is sufficient, three seats for
    three students, and the call returns success; but the even band has a
    single seat for the two ECE students: two seats are filled and the
    second ECE student has no seat. *)
Theorem capacity_does_not_seat_everyone :
  has_sufficient_capacity unbalanced_session = true ∧
  sum_rows_columns (rooms unbalanced_session) >= len (students unbalanced_session) ∧
  ∃ self',
    allocate_seats (new_SeatingAllocator unbalanced_session) = Ok (true, self') ∧
    seated_all (rooms (exam_session self')) = [cse1; ece1] ∧
    length (seated_all (rooms (exam_session self')))
    ≠ length (students unbalanced_session) ∧
    ece2 ∈ students unbalanced_session ∧
    ece2 ∉ seated_all (rooms (exam_session self')).
Proof.
  split; [reflexivity|].
  split; [by vm_compute|].
  eexists. split; [vm_compute; reflexivity|].
  split; [vm_compute; reflexivity|].
  split; [vm_compute; discriminate|].
  split; [right; left|].
  intros Hin. apply list_elem_of_In in Hin. vm_compute in Hin.
  destruct Hin as [H|[H|[]]]; discriminate H.
Qed.

Lemma queues_padded (branch_groups : BranchGroups) :
  ∃ SA SB pa pb,
    _create_even_odd_lists branch_groups
    = ((Some <$> SA) ++ replicate pa None, (Some <$> SB) ++ replicate pb None) ∧
    SA ++ SB ≡ₚ concat (dict_values branch_groups) ∧
    (¬ len branch_groups > 1 → SB = []).
Proof.
  rewrite create_lists_queues_spec.
  unfold queues_spec, pad_queues.
  eexists _, _, _, _. split; [reflexivity|].
  split; [apply queue_students_perm|].
  intros Hg. unfold dict_values.
  destruct branch_groups as [|[b1 g1] [|[b2 g2] rest]]; [done|done|].
  unfold len in Hg. simpl in Hg. lia.
Qed.

Lemma Forall_replicate_None {A} (n : nat) :
  Forall (λ e : option A, e = None) (replicate n None).
Proof. by apply Forall_replicate. Qed.

Lemma omap_padded {A} (X : list A) (n : nat) :
  omap id ((Some <$> X) ++ replicate n None) = X.
Proof.
  rewrite omap_app, omap_Some, omap_all_None, app_nil_r;
    [done|apply Forall_replicate_None].
Qed.

Lemma seated_all_clear rooms : seated_all (clear_all_seats <$> rooms) = [].
Proof.
  unfold seated_all. induction rooms as [|room rooms IH]; [done|].
  change ((clear_all_seats <$> room :: rooms) ≫= seated)
    with (seated (clear_all_seats room)
          ++ ((clear_all_seats <$> rooms) ≫= seated)).
  by rewrite IH, seated_clear.
Qed.

Lemma seated_sequential_room (students : Queue) room :
  seated (fill_walk students 0 (clear_all_seats room) (full_walk room))
  ≡ₚ omap id (take (length (full_walk room)) students).
Proof.
  rewrite seated_fill_walk;
    [|done|apply clear_all_seats_shape|apply (full_walk_in_bounds room)
     |apply full_walk_NoDup|].
  - by rewrite seated_clear.
  - intros p Hp. apply cell_at_clear.
    by eapply walk_elem_in_bounds; [apply full_walk_in_bounds|].
Qed.

Lemma seated_sequential_none (R : Queue) rooms :
  Forall (λ e, e = None) R → seated_all (alloc_sequential R rooms) ≡ₚ [].
Proof.
  intros HR. unfold alloc_sequential, seated_all.
  induction rooms as [|room rooms IH]; [done|].
  change ((?f <$> room :: rooms) ≫= seated)
    with (seated (f room) ++ ((f <$> rooms) ≫= seated)).
  rewrite IH, seated_sequential_room, omap_all_None; [done|].
  by apply Forall_take.
Qed.

(** When the roster is seated in full: if the capacity is sufficient and
    each band has room for its queue (with two branches or more: the
    odd-positioned columns of all rooms together have at least as many
    seats as [odd_list] has students, and the even-positioned columns at
    least as many as [even_list] has; with at most one branch: the roster
    is empty, or the session has one room, of non-negative dimensions),
    then the students seated over all rooms are exactly the roster. *)
Lemma seats_conserve_roster (self : SeatingAllocator) :
  has_sufficient_capacity (exam_session self) = true →
  bands_suffice (exam_session self) →
  ∃ self',
    allocate_seats self = Ok (true, self') ∧
    seated_all (rooms (exam_session self')) ≡ₚ students (exam_session self) ∧
    length (seated_all (rooms (exam_session self')))
    = length (students (exam_session self)).
Proof.
  intros Hcap Hb.
  pose proof (allocate_seats_result self) as Hres. rewrite Hcap in Hres.
  destruct Hres as (self' & Hok & Hs).
  exists self'. split; [done|].
  assert (seated_all (rooms (exam_session self'))
          ≡ₚ students (exam_session self)) as Hperm;
    [|split; [done|by rewrite Hperm]].
  rewrite Hs. cbn [set_rooms rooms].
  unfold allocated_rooms, bands_suffice in *.
  set (session := exam_session self) in *.
  set (groups := get_students_by_branch session) in *.
  destruct (queues_padded groups) as (SA & SB & pa & pb & Hq & Hp & Hone).
  rewrite Hq in *. cbn [fst snd] in Hb.
  rewrite <-(get_students_by_branch_perm session). fold groups.
  rewrite <-Hp.
  case_bool_decide as Hg.
  - destruct Hb as [Hodd Heven].
    rewrite !omap_padded in Hodd, Heven.
    rewrite seated_alloc_alternating by done.
    change (Z.to_nat 0) with 0%nat. rewrite !drop_0.
    rewrite !omap_take_padded
      by first [apply Forall_replicate_None | unfold len in *; lia].
    apply Permutation_app_comm.
  - rewrite (Hone Hg) in *. rewrite app_nil_r.
    destruct Hb as [Hnil|(room & Hrooms & Hr & Hc)].
    + assert (SA = []) as ->.
      { apply Permutation_nil_r. rewrite <-(app_nil_r SA), Hp.
        unfold groups. by rewrite get_students_by_branch_perm, Hnil. }
      apply seated_sequential_none. simpl.
      apply Forall_app. split; apply Forall_replicate_None.
    + rewrite Hrooms. unfold alloc_sequential, seated_all. simpl.
      rewrite app_nil_r, seated_sequential_room.
      rewrite <-app_assoc, omap_take_padded; [done| |].
      * apply Forall_app. split; apply Forall_replicate_None.
      * rewrite length_full_walk.
        assert (length SA = length (students session)) as ->.
        { rewrite <-(get_students_by_branch_perm session). fold groups.
          by rewrite <-Hp, app_nil_r. }
        unfold has_sufficient_capacity in Hcap.
        apply bool_decide_eq_true_1 in Hcap.
        rewrite get_total_capacity_sum in Hcap. fold session in Hcap.
        rewrite Hrooms in Hcap. unfold len in Hcap. simpl in Hcap. nia.
Qed.

Lemma seats_conserve_roster_witness :
  let self := new_SeatingAllocator two_branch_session in
  has_sufficient_capacity (exam_session self) = true ∧
  bands_suffice (exam_session self) ∧
  ∃ self',
    allocate_seats self = Ok (true, self') ∧
    length (seated_all (rooms (exam_session self'))) = 6%nat.
Proof.
  intros self.
  assert (has_sufficient_capacity (exam_session self) = true) as Hcap
    by reflexivity.
  assert (bands_suffice (exam_session self)) as Hb.
  { unfold bands_suffice. rewrite bool_decide_eq_true_2 by reflexivity.
    split; vm_compute; discriminate. }
  split; [exact Hcap|]. split; [exact Hb|].
  destruct (seats_conserve_roster self Hcap Hb) as (self' & Hok & _ & Hlen).
  exists self'. split; [exact Hok|exact Hlen].
Defined.

(** ** Statistics *)

Lemma bind_seq_lookup {A B} (l : list A) (h : option A → list B) :
  seq 0 (length l) ≫= (λ i, h (l !! i)) = l ≫= (λ x, h (Some x)).
Proof.
  induction l as [|x l IH]; [done|].
  cbn [length seq]. rewrite <-fmap_S_seq.
  change ((0%nat :: ?t) ≫= ?g) with (g 0%nat ++ (t ≫= g)).
  change ((x :: l) ≫= ?g) with (g x ++ (l ≫= g)).
  by rewrite list_fmap_bind, <-IH.
Qed.

Lemma bind_seqZ_lookup {A B} (l : list A) (h : option A → list B) :
  seqZ 0 (len l) ≫= (λ i, h (l !! Z.to_nat i)) = l ≫= (λ x, h (Some x)).
Proof.
  unfold seqZ, len. rewrite list_fmap_bind.
  rewrite (Nat2Z.id (length l)), <-bind_seq_lookup.
  apply list_bind_ext; [|done]. intros i. simpl.
  by rewrite Z.add_0_r, Nat2Z.id.
Qed.

Lemma bind_singleton {A} (l : list A) : l ≫= (λ x, [x]) = l.
Proof. induction l as [|x l IH]; [done|]. csimpl. by rewrite IH. Qed.

Lemma fmap_seqZ_lookup {A} (d : A) (l : list A) :
  (λ i, default d (l !! Z.to_nat i)) <$> seqZ 0 (len l) = l.
Proof.
  etrans; [|apply bind_singleton].
  etrans; [|apply (bind_seqZ_lookup l (λ o, [default d o]))].
  generalize (seqZ 0 (len l)). intros zs.
  induction zs as [|z zs IH]; [done|]. csimpl. by rewrite IH.
Qed.

(** Reading every seat row by row gives the rows of the grid, one after the
    other. *)
Lemma row_major_cells room :
  grid_shape room → 0 ≤ rows room → 0 ≤ columns room →
  (λ p, default None (cell_at room p)) <$> row_major room
  = concat (seating_grid room).
Proof.
  intros [Hl Hf] Hr Hc. unfold row_major. rewrite fmap_product.
  unfold cell_at, cell, range. cbn [fst snd]. rewrite !Z.sub_0_r.
  replace (rows room) with (len (seating_grid room)) by (unfold len; lia).
  rewrite (bind_seqZ_lookup (seating_grid room)
             (λ o, (λ y, default None (o ≫= λ r, r !! Z.to_nat y))
                   <$> seqZ 0 (columns room))).
  clear Hl Hr. induction Hf as [|row g Hrow Hf IH]; [done|]. csimpl.
  f_equal; [|exact IH].
  replace (columns room) with (len row) by (unfold len; lia).
  apply fmap_seqZ_lookup.
Qed.

Lemma row_major_in_bounds room : Forall (in_bounds room) (row_major room).
Proof.
  apply Forall_forall. intros p Hp. unfold row_major in Hp.
  apply list_elem_of_bind in Hp as (r & Hp & Hr).
  apply list_elem_of_fmap in Hp as (c & -> & Hc).
  unfold range in *. apply elem_of_seqZ in Hr, Hc. split; simpl; lia.
Qed.

(** A scan of seats with an accumulator. *)
Lemma scan_loop {S} (f : option Student → S → S)
    (body : Z * Z → S → result S) (room : Room) (ps : list (Z * Z)) (acc : S) :
  (∀ p a, body p a = x ← get_seat room p.1 p.2; Ok (f x a)) →
  grid_shape room → Forall (in_bounds room) ps →
  for_each ps body acc
  = Ok (foldl (λ a x, f x a) acc
          ((λ p, default None (cell_at room p)) <$> ps)).
Proof.
  intros Hbody Hs Hb. revert acc.
  induction Hb as [|p ps Hp Hb IH]; intros acc; [done|].
  cbn [for_each]. rewrite Hbody.
  destruct (cell_in_bounds room p Hs Hp) as [x Hx].
  rewrite (get_seat_cell_at room p x) by done.
  cbn [mbind result_bind]. rewrite IH. csimpl.
  unfold cell_at. by rewrite Hx.
Qed.

Lemma count_empty_foldl (cells : Queue) (c : Z) :
  foldl (λ a (x : option Student), if bool_decide (x = None) then a + 1 else a)
        c cells
  = c + len cells - len (omap id cells).
Proof.
  revert c. unfold len.
  induction cells as [|[s|] cells IH]; intros c; cbn [foldl];
    [simpl; lia|rewrite bool_decide_eq_false_2 by done
        |rewrite bool_decide_eq_true_2 by done];
    rewrite IH; simpl;
    change (list_omap (option Student) Student id cells) with (omap id cells);
    lia.
Qed.

Lemma length_concat_grid room :
  grid_shape room →
  length (concat (seating_grid room))
  = (Z.to_nat (rows room) * Z.to_nat (columns room))%nat.
Proof.
  intros [Hl Hf]. rewrite <-Hl. clear Hl.
  induction Hf as [|row g Hrow Hf IH]; [done|].
  simpl. rewrite length_app, IH, Hrow. done.
Qed.

Lemma get_empty_seats_count_ok room :
  grid_shape room → 0 ≤ rows room → 0 ≤ columns room →
  get_empty_seats_count room = Ok (capacity room - len (seated room)).
Proof.
  intros Hs Hr Hc. unfold get_empty_seats_count.
  rewrite for_each_nested. fold (row_major room).
  rewrite (scan_loop (λ x a, if bool_decide (x = None) then a + 1 else a)
             _ room); [| |done|apply row_major_in_bounds].
  2:{ intros p a. unfold is_seat_empty.
      by destruct (get_seat room p.1 p.2). }
  rewrite row_major_cells by done. rewrite count_empty_foldl. f_equal.
  unfold seated, capacity, len. rewrite length_concat_grid by done. lia.
Qed.

Lemma dict_sum_app {K} (d1 d2 : list (K * Z)) :
  dict_sum (d1 ++ d2) = dict_sum d1 + dict_sum d2.
Proof. induction d1 as [|[k v] d1 IH]; simpl in *; lia. Qed.

Lemma dict_sum_alter {K} `{EqDecision K} (k : K) (d : list (K * Z)) :
  is_Some (dict_get k d) →
  dict_sum (dict_alter (λ n, n + 1) k d) = dict_sum d + 1.
Proof.
  induction d as [|[k' v'] d IH]; simpl; [by intros [? ?]|].
  case_decide; simpl; intros Hk; [lia|]. rewrite IH by done. lia.
Qed.

Lemma dict_sum_count_step x dist :
  dict_sum (count_step x dist)
  = dict_sum dist + len (filter has_branch (option_list x)).
Proof.
  destruct x as [s|]; simpl; [|unfold len; simpl; lia].
  unfold has_branch.
  destruct (truthy_str (branch_name s)) eqn:Ht.
  - rewrite filter_cons_True by done. unfold len. simpl.
    unfold dict_contains. case_bool_decide as Hin; simpl.
    + by rewrite dict_sum_alter.
    + rewrite dict_sum_alter.
      * assert (dict_get (branch_name s) dist = None) as Hnone.
        { destruct (dict_get (branch_name s) dist) eqn:Hd; [|done].
          destruct Hin. by eexists. }
        rewrite (dict_set_new _ _ _ Hnone), dict_sum_app. simpl. lia.
      * pose proof (dict_contains_set (branch_name s) 0 dist) as Hc.
        by apply bool_decide_eq_true_1 in Hc.
  - rewrite filter_cons_False by (rewrite Ht; done). unfold len. simpl. lia.
Qed.

Lemma dict_sum_count_cells (cells : Queue) dist :
  dict_sum (foldl (λ a x, count_step x a) dist cells)
  = dict_sum dist + len (filter has_branch (omap id cells)).
Proof.
  revert dist. induction cells as [|x cells IH]; intros dist.
  { unfold len. simpl. lia. }
  cbn [foldl]. rewrite IH, dict_sum_count_step.
  assert (omap id (x :: cells) = option_list x ++ omap id cells) as ->
    by (by destruct x).
  rewrite filter_app. unfold len. rewrite length_app. lia.
Qed.

Lemma count_branches_ok room :
  grid_shape room → 0 ≤ rows room → 0 ≤ columns room →
  ∃ dist, count_branches room = Ok dist ∧
          dict_sum dist = len (filter has_branch (seated room)).
Proof.
  intros Hs Hr Hc. unfold count_branches.
  rewrite for_each_nested. fold (row_major room).
  rewrite (scan_loop count_step _ room);
    [| |done|apply row_major_in_bounds].
  2:{ intros p a. unfold count_step.
      destruct (get_seat room p.1 p.2) as [[s|]|]; [|done..].
      cbn [mbind result_bind]. by destruct (truthy_str (branch_name s)). }
  eexists. split; [done|].
  rewrite row_major_cells by done. by rewrite dict_sum_count_cells.
Qed.

Lemma rooms_stats_loop (rooms : list Room) (rs : list (RoomNo * RoomStats)) :
  Forall scannable rooms → NoDup (rs.*1 ++ (room_no <$> rooms)) →
  ∃ rs',
    for_each rooms (λ room rooms_stats,
      empty ← get_empty_seats_count room;
      dist ← count_branches room;
      Ok (dict_set (room_no room)
            (mkRoomStats (capacity room) (capacity room - empty) dist)
            rooms_stats)) rs = Ok rs' ∧
    sum_assigned rs' = sum_assigned rs + len (seated_all rooms) ∧
    sum_branch_counts rs'
    = sum_branch_counts rs + len (filter has_branch (seated_all rooms)).
Proof.
  intros Hsc.
  match goal with |- context [for_each _ ?b _] => set (body := b) end.
  revert rs.
  induction Hsc as [|room rooms (Hs & Hr & Hc) Hsc IH]; intros rs Hnd.
  { exists rs. unfold len. simpl. split_and!; [done|lia..]. }
  destruct (count_branches_ok room Hs Hr Hc) as (dist & Hcb & Hdist).
  assert (dict_get (room_no room) rs = None) as Hnew.
  { apply dict_get_None. apply NoDup_app in Hnd as (_ & Hdisj & _).
    intros Hin. apply (Hdisj _ Hin). left. }
  set (st := mkRoomStats (capacity room)
               (capacity room - (capacity room - len (seated room))) dist).
  assert (for_each (room :: rooms) body rs
          = for_each rooms body (rs ++ [(room_no room, st)])) as ->.
  { assert (body room rs = Ok (rs ++ [(room_no room, st)])) as Hstep.
    { unfold body. rewrite get_empty_seats_count_ok by done.
      cbn [mbind result_bind]. rewrite Hcb.
      cbn [mbind result_bind]. cbv zeta.
      by rewrite (dict_set_new _ _ _ Hnew). }
    cbn [for_each]. by rewrite Hstep. }
  destruct (IH (rs ++ [(room_no room, st)])) as (rs' & -> & Ha & Hb).
  { rewrite fmap_app, <-app_assoc. exact Hnd. }
  exists rs'. split; [done|].
  rewrite Ha, Hb. unfold sum_assigned, sum_branch_counts, seated_all, st.
  rewrite !foldr_app. cbn [foldr snd assigned_seats branch_distribution].
  change ((room :: rooms) ≫= seated) with (seated room ++ (rooms ≫= seated)).
  rewrite filter_app. unfold len in *. rewrite !length_app, Hdist.
  assert (∀ (f : RoomNo * RoomStats → Z) (a : Z) l,
            foldr (λ kv acc, f kv + acc) a l
            = foldr (λ kv acc, f kv + acc) 0 l + a) as Hshift.
  { intros f a l. induction l as [|x l IHl]; simpl; [lia|]. rewrite IHl. lia. }
  rewrite (Hshift (λ kv, assigned_seats kv.2) (_ + 0)).
  rewrite (Hshift (λ kv, dict_sum (branch_distribution kv.2)) (_ + 0)).
  split; lia.
Qed.

(** C8 as stated fails: a seated student with an empty branch label is
    counted in the occupied seats of the room and in no branch. *)
Lemma unknown_branch_not_counted :
  ∃ self' stats,
    allocate_seats (new_SeatingAllocator unknown_branch_session) = Ok (true, self') ∧
    generate_statistics self' = Ok stats ∧
    branch_name (student_of "21321A9901") = Some ""%string ∧
    len (seated_all (rooms (exam_session self'))) = 1 ∧
    sum_assigned (rooms_stats stats) = 1 ∧
    sum_branch_counts (rooms_stats stats) = 0 ∧
    sum_branch_counts (rooms_stats stats) ≠ sum_assigned (rooms_stats stats).
Proof.
  eexists _, _. split; [vm_compute; reflexivity|].
  split; [vm_compute; reflexivity|].
  split_and!; try (vm_compute; reflexivity). vm_compute. discriminate.
Qed.

(** The scans rely on the dimensions of the rooms and on their numbers: a
    room of -2 rows and -3 columns is reported with 6 occupied seats, and
    of two rooms with the same number only the second is reported. *)
Lemma statistics_need_scannable_rooms :
  (∃ stats,
     generate_statistics
       (new_SeatingAllocator (session_of [] [new_Room (RoomInt 101) (-2) (-3)]))
     = Ok stats ∧ sum_assigned (rooms_stats stats) = 6) ∧
  (∃ self' stats,
     allocate_seats (new_SeatingAllocator
       (session_of [cse1] [new_Room (RoomInt 101) 1 1; new_Room (RoomInt 101) 1 1]))
     = Ok (true, self') ∧
     generate_statistics self' = Ok stats ∧
     len (seated_all (rooms (exam_session self'))) = 2 ∧
     sum_assigned (rooms_stats stats) = 1).
Proof.
  split.
  - eexists. split; vm_compute; reflexivity.
  - eexists _, _. split; [vm_compute; reflexivity|].
    split_and!; vm_compute; reflexivity.
Qed.

(** C8, amended: for a session whose rooms have distinct numbers,
    non-negative row and column counts and grids of these dimensions,
    [generate_statistics] returns; the per-room occupied-seat counts
    (capacity minus empty seats) sum to the number of students seated over
    all grids, and the per-branch occupancy counts sum to the number of
    seated students whose branch label is not empty.  The three numbers are
    equal when every seated student has a non-empty branch label. *)
Theorem statistics_totals (self : SeatingAllocator) :
  let session := exam_session self in
  Forall scannable (rooms session) →
  NoDup (room_no <$> rooms session) →
  ∃ stats,
    generate_statistics self = Ok stats ∧
    sum_assigned (rooms_stats stats) = len (seated_all (rooms session)) ∧
    sum_branch_counts (rooms_stats stats)
    = len (filter has_branch (seated_all (rooms session))) ∧
    (Forall has_branch (seated_all (rooms session)) →
       sum_branch_counts (rooms_stats stats) = sum_assigned (rooms_stats stats)).
Proof.
  intros session Hsc Hnd. unfold generate_statistics. cbv zeta.
  fold session.
  destruct (rooms_stats_loop (rooms session) [] Hsc Hnd)
    as (rs & -> & Ha & Hb).
  eexists. split; [done|]. cbn [rooms_stats].
  rewrite Ha, Hb. simpl. split_and!; [done..|].
  intros Hall. do 2 f_equal. clear -Hall.
  induction Hall as [|s l Hs Hall IH]; [done|].
  rewrite filter_cons_True by done. by f_equal.
Qed.

Lemma statistics_totals_witness :
  ∃ self' stats,
    allocate_seats (new_SeatingAllocator mixed_session) = Ok (true, self') ∧
    Forall scannable (rooms (exam_session self')) ∧
    NoDup (room_no <$> rooms (exam_session self')) ∧
    generate_statistics self' = Ok stats ∧
    seated_all (rooms (exam_session self'))
    = [cse1; ece1; cse2; ece2; student_of "21321A9901"] ∧
    sum_assigned (rooms_stats stats) = 5 ∧
    sum_branch_counts (rooms_stats stats) = 4.
Proof.
  assert (∃ self',
            allocate_seats (new_SeatingAllocator mixed_session)
            = Ok (true, self') ∧
            rooms (exam_session self')
            = [mkRoom (RoomInt 101) 2 2
                 [[Some cse1; Some ece1]; [Some cse2; Some ece2]];
               mkRoom (RoomInt 102) 1 2
                 [[None; Some (student_of "21321A9901")]]])
    as (self' & Hrun & Hrooms).
  { eexists. split; vm_compute; reflexivity. }
  assert (Forall scannable (rooms (exam_session self'))) as Hsc.
  { rewrite Hrooms. repeat (apply Forall_cons; split);
      [| |apply Forall_nil; exact I];
      (split; [split; [reflexivity|]|simpl; lia]);
      repeat (apply Forall_cons; split); try reflexivity;
      apply Forall_nil; exact I. }
  assert (NoDup (room_no <$> rooms (exam_session self'))) as Hnd.
  { rewrite Hrooms. simpl. apply NoDup_cons. split; [|apply NoDup_singleton].
    intros Hin. apply list_elem_of_singleton in Hin. discriminate Hin. }
  destruct (statistics_totals self' Hsc Hnd) as (stats & Hok & Ha & Hb & _).
  exists self', stats. split; [exact Hrun|]. split; [exact Hsc|].
  split; [exact Hnd|]. split; [exact Hok|].
  rewrite Ha, Hb, Hrooms. split_and!; reflexivity.
Defined.


(** * Further properties *)

(** ** Loops that stop at the first match *)

Lemma first_index_enumerate {A} (p : A → bool) (l : list A) (i : Z) :
  match first_index p (zip (seqZ i (len l)) l) with
  | None => Forall (λ x, p x = false) l
  | Some j =>
      ∃ l1 x l2, l = l1 ++ x :: l2 ∧ Forall (λ x, p x = false) l1 ∧
                 p x = true ∧ j = i + len l1
  end.
Proof.
  revert i. induction l as [|x l IH]; intros i; [by constructor|].
  rewrite zip_seqZ_cons. cbn [first_index].
  destruct (p x) eqn:Hx.
  - exists [], x, l. unfold len. simpl. split_and!; [done..|lia].
  - specialize (IH (i + 1)).
    destruct (first_index p (zip (seqZ (i + 1) (len l)) l)) as [j|].
    + destruct IH as (l1 & y & l2 & -> & Hl1 & Hy & ->).
      exists (x :: l1), y, l2. split_and!; [done|by constructor|done|].
      unfold len. simpl. lia.
    + by constructor.
Qed.

Lemma delitem_middle {A} (l1 l2 : list A) (x : A) :
  delitem (l1 ++ x :: l2) (len l1) = Ok (l1 ++ l2).
Proof.
  unfold delitem. rewrite norm_index_nonneg.
  2:{ unfold len. rewrite length_app. simpl. lia. }
  unfold len. rewrite Nat2Z.id. f_equal.
  induction l1 as [|y l1 IH]; simpl; [done|]. by f_equal.
Qed.

Lemma set_students_id self : set_students self (students self) = self.
Proof. by destruct self. Qed.

Lemma set_rooms_id self : set_rooms self (rooms self) = self.
Proof. by destruct self. Qed.

(** ** Sessions *)

(** X1: [remove_student] never raises.  It returns [False] and leaves the
    session as it is exactly when no student of the roster has the hall
    ticket number; otherwise it returns [True] and removes the first student
    with that number, and only that one: the students before and after it
    keep their order, later students with the same number stay. *)
Theorem remove_student_first_match (self : ExamSession) (hallticket : string) :
  (Forall (λ s, hallticket_no s ≠ hallticket) (students self) ∧
   remove_student self hallticket = Ok (false, self)) ∨
  (∃ l1 s l2,
     students self = l1 ++ s :: l2 ∧
     Forall (λ s, hallticket_no s ≠ hallticket) l1 ∧
     hallticket_no s = hallticket ∧
     remove_student self hallticket
     = Ok (true, set_students self (l1 ++ l2))).
Proof.
  unfold remove_student, enumerate.
  pose proof (first_index_enumerate
                (λ student, bool_decide (hallticket_no student = hallticket))
                (students self) 0) as Hfi.
  destruct (first_index _ _) as [j|].
  - right. destruct Hfi as (l1 & s & l2 & Hl & Hl1 & Hs & ->).
    exists l1, s, l2. split_and!; [done| |by apply bool_decide_eq_true_1 in Hs|].
    + eapply Forall_impl; [exact Hl1|]. intros x Hx.
      by apply bool_decide_eq_false_1 in Hx.
    + rewrite Hl at 1. rewrite Z.add_0_l, delitem_middle. done.
  - left. split; [|done].
    eapply Forall_impl; [exact Hfi|]. intros x Hx.
    by apply bool_decide_eq_false_1 in Hx.
Qed.

(** X2: [remove_room] never raises.  It returns [False] and leaves the
    session as it is exactly when no room has the number; otherwise it
    returns [True] and removes the first room with that number, keeping the
    other rooms, their order and their seating. *)
Theorem remove_room_first_match (self : ExamSession) (no : RoomNo) :
  (Forall (λ r, room_no r ≠ no) (rooms self) ∧
   remove_room self no = Ok (false, self)) ∨
  (∃ l1 r l2,
     rooms self = l1 ++ r :: l2 ∧
     Forall (λ r, room_no r ≠ no) l1 ∧
     room_no r = no ∧
     remove_room self no = Ok (true, set_rooms self (l1 ++ l2))).
Proof.
  unfold remove_room, enumerate.
  pose proof (first_index_enumerate
                (λ room, room_no_eqb (room_no room) no) (rooms self) 0) as Hfi.
  destruct (first_index _ _) as [j|].
  - right. destruct Hfi as (l1 & r & l2 & Hl & Hl1 & Hr & ->).
    exists l1, r, l2. split_and!; [done| |by apply bool_decide_eq_true_1 in Hr|].
    + eapply Forall_impl; [exact Hl1|]. intros x Hx.
      by apply bool_decide_eq_false_1 in Hx.
    + rewrite Hl at 1. rewrite Z.add_0_l, delitem_middle. done.
  - left. split; [|done].
    eapply Forall_impl; [exact Hfi|]. intros x Hx.
    by apply bool_decide_eq_false_1 in Hx.
Qed.

(** X3: adding a student whose hall ticket number is not yet in the roster
    and removing that number again gives back the session. *)
Theorem add_remove_student (self : ExamSession) (student : Student) :
  Forall (λ s, hallticket_no s ≠ hallticket_no student) (students self) →
  remove_student (add_student self student) (hallticket_no student)
  = Ok (true, self).
Proof.
  intros Hnew. unfold remove_student, enumerate.
  pose proof (first_index_enumerate
                (λ s, bool_decide (hallticket_no s = hallticket_no student))
                (students (add_student self student)) 0) as Hfi.
  destruct (first_index _ _) as [j|].
  2:{ exfalso. unfold add_student in Hfi. simpl in Hfi.
      apply Forall_app in Hfi as [_ Hfi].
      apply Forall_cons in Hfi as [Hfi _].
      by rewrite bool_decide_eq_true_2 in Hfi. }
  destruct Hfi as (l1 & s & l2 & Hl & Hl1 & Hs & ->).
  rewrite Hl at 1. rewrite Z.add_0_l, delitem_middle.
  cbn [mbind result_bind].
  apply bool_decide_eq_true_1 in Hs.
  assert (Forall (λ s, hallticket_no s ≠ hallticket_no student) l1) as Hl1'.
  { eapply Forall_impl; [exact Hl1|]. intros x Hx.
    by apply bool_decide_eq_false_1 in Hx. }
  clear Hl1. rename Hl1' into Hl1.
  unfold add_student in *. simpl in *. do 2 f_equal.
  assert (l1 = students self ∧ l2 = []) as [-> ->].
  { clear -Hl Hl1 Hs Hnew. revert l1 Hl Hl1.
    induction Hnew as [|x l Hx Hnew IH]; intros l1 Hl Hl1.
    - destruct l1 as [|y l1]; simplify_eq/=; [done|].
      destruct l1; simplify_eq/=.
    - destruct l1 as [|y l1]; simplify_eq/=.
      apply Forall_cons in Hl1 as [_ Hl1].
      destruct (IH l1) as [-> ->]; done. }
  rewrite app_nil_r. by destruct self.
Qed.

Lemma add_remove_student_witness :
  let self := session_of [ece1; cse1] [] in
  Forall (λ s, hallticket_no s ≠ hallticket_no cse2) (students self) ∧
  remove_student (add_student self cse2) (hallticket_no cse2) = Ok (true, self).
Proof.
  intros self.
  assert (Forall (λ s, hallticket_no s ≠ hallticket_no cse2) (students self))
    as Hnew.
  { repeat constructor; vm_compute; discriminate. }
  split; [exact Hnew|]. exact (add_remove_student self cse2 Hnew).
Defined.

Lemma sum_rows_columns_app rooms1 rooms2 :
  sum_rows_columns (rooms1 ++ rooms2)
  = sum_rows_columns rooms1 + sum_rows_columns rooms2.
Proof. induction rooms1 as [|r rs IH]; simpl in *; lia. Qed.

(** X4: the total capacity is additive: after adding students and rooms to
    a session it is the old total plus the sum of [rows * columns] over the
    added rooms; adding students alone does not change it. *)
Theorem total_capacity_additive (self : ExamSession)
    (students' : list Student) (rooms' : list Room) (room : Room) :
  get_total_capacity (add_rooms (add_students self students') rooms')
  = get_total_capacity self + sum_rows_columns rooms' ∧
  get_total_capacity (add_room self room)
  = get_total_capacity self + rows room * columns room ∧
  get_total_capacity (add_students self students') = get_total_capacity self.
Proof.
  rewrite !get_total_capacity_sum. unfold add_rooms, add_room, add_students.
  simpl. rewrite !sum_rows_columns_app. simpl. split_and!; lia.
Qed.

(** X5: [get_additional_capacity_needed] is never negative, it is zero
    exactly when the capacity is sufficient, and it is the gap to close: a
    session extended by one row of that many seats has sufficient capacity,
    and with one seat less it has not. *)
Theorem additional_capacity_closes_gap (self : ExamSession) (no : RoomNo) :
  let needed := get_additional_capacity_needed self in
  0 ≤ needed ∧
  (needed = 0 ↔ has_sufficient_capacity self = true) ∧
  has_sufficient_capacity (add_room self (new_Room no 1 needed)) = true ∧
  (0 < needed →
     has_sufficient_capacity (add_room self (new_Room no 1 (needed - 1)))
     = false).
Proof.
  unfold get_additional_capacity_needed, has_sufficient_capacity.
  rewrite !get_total_capacity_sum. unfold add_room. simpl.
  rewrite !sum_rows_columns_app. simpl.
  case_bool_decide as Hcap; simpl.
  - split_and!; [done|done| |lia].
    by rewrite bool_decide_eq_true_2 by lia.
  - split_and!; [lia|split; [lia|done]| |].
    + by rewrite bool_decide_eq_true_2 by lia.
    + intros _. by rewrite bool_decide_eq_false_2 by lia.
Qed.

Lemma additional_capacity_closes_gap_witness :
  has_sufficient_capacity
    (add_room (session_of [cse1; cse2] []) (new_Room (RoomInt 101) 1 1))
  = false.
Proof.
  destruct (additional_capacity_closes_gap
              (session_of [cse1; cse2] []) (RoomInt 101)) as (_ & _ & _ & H).
  apply H. reflexivity.
Defined.

(** ** The capacity check of the arrangement controller *)

(** X6: the capacity check agrees with the session and with the allocator:
    for a session holding the same students and rooms, [sufficient] is
    [has_sufficient_capacity], [additional_needed] is
    [get_additional_capacity_needed], and [allocate_seats] returns success
    exactly when [sufficient] holds.  The surplus and the shortfall are not
    negative, at most one of them is not zero, and their difference is the
    capacity minus the number of students. *)
Theorem check_capacity_agrees (self : SeatingAllocator) :
  let session := exam_session self in
  let check := ArrangementController.check_capacity
                 (students session) (rooms session) in
  ArrangementController.sufficient check = has_sufficient_capacity session ∧
  ArrangementController.additional_needed check
  = get_additional_capacity_needed session ∧
  ArrangementController.total_capacity check = get_total_capacity session ∧
  0 ≤ ArrangementController.extra_capacity check ∧
  0 ≤ ArrangementController.additional_needed check ∧
  ArrangementController.extra_capacity check
  * ArrangementController.additional_needed check = 0 ∧
  ArrangementController.extra_capacity check
  - ArrangementController.additional_needed check
  = get_total_capacity session - len (students session) ∧
  ∃ self',
    allocate_seats self = Ok (ArrangementController.sufficient check, self').
Proof.
  intros session check. unfold check, ArrangementController.check_capacity.
  pose proof (allocate_seats_result self) as Hres. fold session in Hres.
  unfold get_additional_capacity_needed, has_sufficient_capacity in *.
  unfold get_total_capacity in *.
  case_bool_decide as Hcap; simpl.
  - destruct Hres as (self' & Hok & _).
    split_and!; try done; try lia. by exists self'.
  - split_and!; try done; try lia. by exists self.
Qed.

(** ** The room controller *)

Lemma any_room_no (no : RoomNo) (l : list Room) :
  any (λ room, room_no_eqb (room_no room) no) l = true ↔ no ∈ room_no <$> l.
Proof.
  unfold any, room_no_eqb. induction l as [|r l IH]; simpl.
  - split; [done|]. by intros ?%elem_of_nil.
  - rewrite orb_true_iff, IH, bool_decide_eq_true, elem_of_cons.
    split; (intros [H|H]; [left|right]); done.
Qed.

Lemma any_room_no_false (no : RoomNo) (l : list Room) :
  any (λ room, room_no_eqb (room_no room) no) l = false ↔ no ∉ room_no <$> l.
Proof. rewrite <-any_room_no. by destruct (any _ l). Qed.

Lemma first_room_index (no : RoomNo) (l : list Room) :
  match first_index (λ room, room_no_eqb (room_no room) no) (enumerate l) with
  | None => no ∉ room_no <$> l
  | Some i =>
      ∃ l1 r l2, l = l1 ++ r :: l2 ∧ (no ∉ room_no <$> l1) ∧ room_no r = no ∧
                 i = len l1
  end.
Proof.
  pose proof (first_index_enumerate
                (λ room, room_no_eqb (room_no room) no) l 0) as Hfi.
  unfold enumerate.
  assert (∀ l', Forall (λ x, room_no_eqb (room_no x) no = false) l' →
                no ∉ room_no <$> l') as Hnot.
  { intros l' Hall Hin. apply list_elem_of_fmap in Hin as (r & -> & Hr).
    rewrite Forall_forall in Hall. specialize (Hall r Hr).
    unfold room_no_eqb in Hall. by rewrite bool_decide_eq_true_2 in Hall. }
  destruct (first_index _ _) as [j|]; [|by apply Hnot].
  destruct Hfi as (l1 & r & l2 & -> & Hl1 & Hr & ->).
  exists l1, r, l2. split_and!; [done|by apply Hnot| |lia].
  by apply bool_decide_eq_true_1 in Hr.
Qed.

Lemma insert_middle {A} (l1 l2 : list A) (x y : A) :
  <[Z.to_nat (len l1):=y]> (l1 ++ x :: l2) = l1 ++ y :: l2.
Proof.
  unfold len. rewrite Nat2Z.id.
  induction l1 as [|z l1 IH]; simpl; [done|]. by f_equal.
Qed.

(** X7: the room controller keeps room numbers distinct: if they are
    distinct before [add_room], [update_room] or [delete_room], they are
    distinct afterwards, whether the method returns or raises and whether
    the write succeeded or not. *)
Theorem room_numbers_stay_distinct (self : RoomController.controller)
    (original no : RoomNo) (rows columns : Z) (saved : bool) :
  NoDup (room_no <$> RoomController.rooms self) →
  NoDup (room_no <$> RoomController.rooms
           (RoomController.state
              (RoomController.add_room self no rows columns saved))) ∧
  NoDup (room_no <$> RoomController.rooms
           (RoomController.state
              (RoomController.update_room self original no rows columns saved))) ∧
  NoDup (room_no <$> RoomController.rooms
           (RoomController.state (RoomController.delete_room self no saved))).
Proof.
  intros Hnd. split_and!.
  - unfold RoomController.add_room.
    destruct (any _ _) eqn:Hany; [done|].
    apply any_room_no_false in Hany.
    assert (NoDup (room_no <$> RoomController.rooms self ++ [new_Room no rows columns])).
    { rewrite fmap_app. apply NoDup_app. split_and!; [done| |apply NoDup_singleton].
      intros x Hx ->%list_elem_of_singleton. done. }
    by destruct saved.
  - unfold RoomController.update_room.
    pose proof (first_room_index original (RoomController.rooms self)) as Hfi.
    destruct (first_index _ _) as [i|]; [|done].
    destruct Hfi as (l1 & r & l2 & Hl & Hl1 & Hr & ->).
    destruct (negb _ && any _ _) eqn:Htest; [done|].
    assert (NoDup (room_no <$> <[Z.to_nat (len l1):=
                      mkRoom no rows columns (empty_grid rows columns)]>
                      (RoomController.rooms self))) as Hgoal.
    { rewrite Hl, insert_middle. rewrite Hl in Hnd, Htest.
      rewrite fmap_app in *. csimpl in *.
      apply NoDup_app in Hnd as (Hnd1 & Hdisj & Hnd2).
      apply NoDup_cons in Hnd2 as [Hr2 Hnd2].
      apply andb_false_iff in Htest as [Hsame|Hfree].
      - apply negb_false_iff, bool_decide_eq_true_1 in Hsame. subst no original.
        apply NoDup_app. split_and!; [done|done|by apply NoDup_cons].
      - apply any_room_no_false in Hfree.
        rewrite fmap_app, elem_of_app in Hfree. csimpl in Hfree.
        rewrite elem_of_cons in Hfree.
        apply NoDup_app. split_and!; [done| |apply NoDup_cons; naive_solver].
        intros x Hx [->|Hx2]%elem_of_cons; [naive_solver|].
        apply (Hdisj x Hx). by right. }
    by destruct saved.
  - unfold RoomController.delete_room.
    pose proof (first_room_index no (RoomController.rooms self)) as Hfi.
    destruct (first_index _ _) as [i|]; [|done].
    destruct Hfi as (l1 & r & l2 & Hl & Hl1 & Hr & ->).
    rewrite Hl at 1. rewrite delitem_middle.
    assert (NoDup (room_no <$> l1 ++ l2)).
    { rewrite Hl in Hnd. rewrite fmap_app in *. csimpl in Hnd.
      apply NoDup_app in Hnd as (Hnd1 & Hdisj & Hnd2).
      apply NoDup_cons in Hnd2 as [Hr2 Hnd2].
      apply NoDup_app. split_and!; [done| |done].
      intros x Hx Hx2. apply (Hdisj x Hx). by right. }
    by destruct saved.
Qed.

Lemma room_numbers_stay_distinct_witness :
  let self := RoomController.mkController
                [new_Room (RoomInt 101) 3 3; new_Room (RoomStr "A") 2 2] in
  NoDup (room_no <$> RoomController.rooms self) ∧
  NoDup (room_no <$> RoomController.rooms
           (RoomController.state
              (RoomController.add_room self (RoomInt 102) 1 1 false))).
Proof.
  intros self.
  assert (NoDup (room_no <$> RoomController.rooms self)) as Hnd.
  { compute_done. }
  split; [exact Hnd|].
  exact (proj1 (room_numbers_stay_distinct self (RoomInt 101) (RoomInt 102)
                  1 1 false Hnd)).
Defined.

(** X8: a room added under a number that the controller does not hold yet
    and deleted again leaves the list of rooms as it was, whatever the two
    writes did; under a number that it holds, [add_room] raises
    [ValueError] and changes nothing. *)
Theorem add_delete_room (self : RoomController.controller) (no : RoomNo)
    (rows columns : Z) (saved saved' : bool) :
  (no ∈ room_no <$> RoomController.rooms self →
     RoomController.add_room self no rows columns saved
     = RoomController.ValueError self) ∧
  (no ∉ room_no <$> RoomController.rooms self →
     RoomController.rooms
       (RoomController.state
          (RoomController.delete_room
             (RoomController.state
                (RoomController.add_room self no rows columns saved))
             no saved'))
     = RoomController.rooms self).
Proof.
  split; intros Hno.
  - unfold RoomController.add_room.
    by rewrite (proj2 (any_room_no no _) Hno).
  - unfold RoomController.add_room.
    rewrite (proj2 (any_room_no_false no _) Hno).
    assert (RoomController.state
              (RoomController._save_rooms saved
                 (RoomController.mkController
                    (RoomController.rooms self ++ [new_Room no rows columns])))
            = RoomController.mkController
                (RoomController.rooms self ++ [new_Room no rows columns])) as ->
      by (by destruct saved).
    unfold RoomController.delete_room. cbn [RoomController.rooms].
    pose proof (first_room_index no
                  (RoomController.rooms self ++ [new_Room no rows columns]))
      as Hfi.
    destruct (first_index _ _) as [i|].
    + destruct Hfi as (l1 & r & l2 & Hl & Hl1 & Hr & ->).
      rewrite Hl at 1. rewrite delitem_middle.
      assert (l1 = RoomController.rooms self ∧ l2 = []) as [-> ->].
      { clear -Hl Hl1 Hr Hno. revert l1 Hl Hl1.
        induction (RoomController.rooms self) as [|x l IH]; intros l1 Hl Hl1.
        - destruct l1 as [|y l1]; simplify_eq/=; [done|].
          destruct l1; simplify_eq/=.
        - destruct l1 as [|y l1]; simplify_eq/=.
          + exfalso. apply Hno. left.
          + destruct (IH (λ H, Hno (list_elem_of_further _ _ _ H)) l1)
              as [-> ->]; [done| |done].
            intros H. apply Hl1. by right. }
      rewrite app_nil_r. by destruct saved'.
    + exfalso. apply Hfi. rewrite fmap_app, elem_of_app. right. left.
Qed.

Lemma add_delete_room_witness :
  let self := RoomController.mkController [new_Room (RoomInt 101) 3 3] in
  (RoomInt 102 ∉ room_no <$> RoomController.rooms self) ∧
  RoomController.rooms
    (RoomController.state
       (RoomController.delete_room
          (RoomController.state
             (RoomController.add_room self (RoomInt 102) 2 2 true))
          (RoomInt 102) false))
  = RoomController.rooms self.
Proof.
  intros self.
  assert (RoomInt 102 ∉ room_no <$> RoomController.rooms self) as Hno.
  { intros Hin. apply list_elem_of_In in Hin. vm_compute in Hin.
    destruct Hin as [H|[]]. discriminate H. }
  split; [exact Hno|].
  exact (proj2 (add_delete_room self (RoomInt 102) 2 2 true false) Hno).
Defined.

(** X9: [update_room] raises [ValueError] and changes nothing when no room
    has the original number, or when the new number differs from the
    original and is held by a room.  Otherwise the first room with the
    original number is replaced by an empty room with the new number and
    dimensions: its seating is discarded, also when the dimensions stay the
    same; the other rooms are untouched. *)
Theorem update_room_resets (self : RoomController.controller)
    (original no : RoomNo) (rows columns : Z) (saved : bool) :
  (original ∉ room_no <$> RoomController.rooms self →
     RoomController.update_room self original no rows columns saved
     = RoomController.ValueError self) ∧
  (no ≠ original → no ∈ room_no <$> RoomController.rooms self →
     RoomController.update_room self original no rows columns saved
     = RoomController.ValueError self) ∧
  (∀ l1 r l2,
     RoomController.rooms self = l1 ++ r :: l2 →
     original ∉ room_no <$> l1 → room_no r = original →
     no = original ∨ (no ∉ room_no <$> RoomController.rooms self) →
     RoomController.update_room self original no rows columns saved
     = RoomController._save_rooms saved
         (RoomController.mkController (l1 ++ new_Room no rows columns :: l2)) ∧
     seated (new_Room no rows columns) = [] ∧
     grid_shape (new_Room no rows columns)).
Proof.
  unfold RoomController.update_room.
  pose proof (first_room_index original (RoomController.rooms self)) as Hfi.
  split_and!.
  - intros Hno. destruct (first_index _ _) as [i|]; [|done].
    destruct Hfi as (l1 & r & l2 & Hl & _ & Hr & _).
    exfalso. apply Hno. rewrite Hl, fmap_app, elem_of_app. right.
    rewrite <-Hr. left.
  - intros Hne Hin. destruct (first_index _ _) as [i|]; [|done].
    rewrite (proj2 (any_room_no no _) Hin).
    unfold room_no_eqb. by rewrite bool_decide_eq_false_2.
  - intros l1 r l2 Hl Hl1 Hr Hfree.
    split; [|split; [apply (seated_clear (mkRoom no rows columns []))
                    |apply new_Room_shape]].
    destruct (first_index _ _) as [i|].
    + destruct Hfi as (k1 & r' & k2 & Hk & Hk1 & Hr' & ->).
      assert (k1 = l1 ∧ r' = r ∧ k2 = l2) as (-> & -> & ->).
      { rewrite Hl in Hk. clear -Hk Hk1 Hl1 Hr Hr'. revert k1 Hk Hk1.
        induction l1 as [|x l1 IH]; intros k1 Hk Hk1.
        - destruct k1 as [|y k1]; simplify_eq/=; [done|].
          exfalso. apply Hk1. rewrite <-Hr. left.
        - destruct k1 as [|y k1]; simplify_eq/=.
          + exfalso. apply Hl1. left.
          + destruct (IH (λ H, Hl1 (list_elem_of_further _ _ _ H)) k1)
              as (-> & -> & ->); [done| |done].
            intros H. apply Hk1. by right. }
      assert (negb (room_no_eqb no original)
              && any (λ room, room_no_eqb (room_no room) no)
                     (RoomController.rooms self) = false) as ->.
      { destruct Hfree as [->|Hfree].
        - unfold room_no_eqb. by rewrite bool_decide_eq_true_2.
        - rewrite (proj2 (any_room_no_false no _) Hfree). apply andb_false_r. }
      cbv zeta. rewrite Hl, insert_middle. done.
    + exfalso. apply Hfi. rewrite Hl, fmap_app, elem_of_app. right.
      rewrite <-Hr. left.
Qed.

Lemma update_room_resets_witness :
  RoomController.update_room
    (RoomController.mkController [mkRoom (RoomInt 101) 1 1 [[Some cse1]]])
    (RoomInt 101) (RoomInt 101) 1 1 true
  = RoomController.Returned
      (RoomController.mkController [new_Room (RoomInt 101) 1 1]).
Proof.
  destruct (update_room_resets
              (RoomController.mkController
                 [mkRoom (RoomInt 101) 1 1 [[Some cse1]]])
              (RoomInt 101) (RoomInt 101) 1 1 true) as (_ & _ & H).
  destruct (H [] (mkRoom (RoomInt 101) 1 1 [[Some cse1]]) []) as [Hrun _].
  - reflexivity.
  - apply not_elem_of_nil.
  - reflexivity.
  - left. reflexivity.
  - exact Hrun.
Defined.

(** ** Rooms *)

(** X10: whatever a room held, after [clear_all_seats] every seat inside the
    room is empty, a position outside makes [is_seat_empty] raise
    [IndexError], nobody is seated, and, for non-negative dimensions, the
    number of empty seats is the capacity. *)
Theorem cleared_room_is_empty (room : Room) (row column : Z) :
  (in_bounds room (row, column) →
     is_seat_empty (clear_all_seats room) row column = Ok true) ∧
  (¬ in_bounds room (row, column) →
     is_seat_empty (clear_all_seats room) row column = Raise IndexError) ∧
  seated (clear_all_seats room) = [] ∧
  (0 ≤ rows room → 0 ≤ columns room →
     get_empty_seats_count (clear_all_seats room) = Ok (capacity room)).
Proof.
  split_and!.
  - intros Hb. unfold is_seat_empty.
    pose proof (get_seat_cell_at (clear_all_seats room) (row, column) None
                  (clear_all_seats_shape room) Hb
                  (cell_at_clear room _ Hb)) as Hget.
    cbn [fst snd] in Hget. by rewrite Hget.
  - intros Hb. unfold is_seat_empty, get_seat.
    by rewrite (out_of_bounds_true (clear_all_seats room) row column Hb).
  - apply seated_clear.
  - intros Hr Hc.
    rewrite get_empty_seats_count_ok;
      [|apply clear_all_seats_shape|done..].
    rewrite seated_clear. unfold capacity, len. simpl. f_equal. lia.
Qed.

Lemma cleared_room_is_empty_witness :
  is_seat_empty (clear_all_seats (mkRoom (RoomInt 101) 1 1 [[Some cse1]])) 0 0
  = Ok true.
Proof.
  apply (cleared_room_is_empty (mkRoom (RoomInt 101) 1 1 [[Some cse1]]) 0 0).
  unfold in_bounds. simpl. lia.
Defined.

(** X11: in a room whose grid has the dimensions of the room, [get_seat] and
    [is_seat_empty] return for every position inside the room, the second
    telling whether the first found nobody, and both raise [IndexError] for
    every position outside; negative indices are outside, they never count
    from the end. *)
Theorem seat_access_bounds (room : Room) (row column : Z) :
  grid_shape room →
  (in_bounds room (row, column) →
     ∃ x, get_seat room row column = Ok x ∧
          cell_at room (row, column) = Some x ∧
          is_seat_empty room row column = Ok (bool_decide (x = None))) ∧
  (¬ in_bounds room (row, column) →
     get_seat room row column = Raise IndexError ∧
     is_seat_empty room row column = Raise IndexError) ∧
  (row < 0 ∨ column < 0 → get_seat room row column = Raise IndexError).
Proof.
  intros Hs. split_and!.
  - intros Hb. destruct (get_seat_in_bounds room row column Hs Hb)
      as (x & Hx & Hget).
    exists x. unfold is_seat_empty. rewrite Hget. done.
  - intros Hb. unfold is_seat_empty, get_seat.
    by rewrite (out_of_bounds_true room row column Hb).
  - intros Hneg. unfold get_seat. rewrite out_of_bounds_true; [done|].
    unfold in_bounds. simpl. lia.
Qed.

Lemma seat_access_bounds_witness :
  let room := mkRoom (RoomInt 101) 1 2 [[None; Some cse1]] in
  grid_shape room ∧ in_bounds room (0, 1) ∧
  ∃ x, get_seat room 0 1 = Ok x ∧ is_seat_empty room 0 1 = Ok (bool_decide (x = None)).
Proof.
  intros room.
  assert (grid_shape room) as Hs.
  { split; [reflexivity|]. by repeat constructor. }
  assert (in_bounds room (0, 1)) as Hb by (unfold in_bounds; simpl; lia).
  split; [exact Hs|]. split; [exact Hb|].
  destruct (seat_access_bounds room 0 1 Hs) as (Hin & _).
  destruct (Hin Hb) as (x & Hget & _ & Hempty).
  exists x. split; [exact Hget|exact Hempty].
Defined.

Lemma length_seated_le room :
  grid_shape room → 0 ≤ rows room → 0 ≤ columns room →
  len (seated room) ≤ capacity room.
Proof.
  intros Hs Hr Hc. unfold seated, capacity, len.
  pose proof (length_concat_grid room Hs) as Hlen.
  assert (length (omap id (concat (seating_grid room)))
          ≤ length (concat (seating_grid room)))%nat as Hle.
  { generalize (concat (seating_grid room)). intros l.
    induction l as [|e l IH]; [done|].
    assert (omap id (e :: l) = option_list e ++ omap id l) as ->
      by (by destruct e).
    rewrite length_app. destruct e; simpl; lia. }
  rewrite Hlen in Hle. nia.
Qed.

(** X12: for a room of non-negative dimensions whose grid has these
    dimensions, the number of empty seats is the capacity minus the number
    of seated students; it lies between zero and the capacity. *)
Theorem empty_seats_count_spec (room : Room) :
  scannable room →
  ∃ n, get_empty_seats_count room = Ok n ∧
       n = capacity room - len (seated room) ∧
       0 ≤ n ≤ capacity room.
Proof.
  intros (Hs & Hr & Hc). eexists. split; [by apply get_empty_seats_count_ok|].
  split; [done|].
  pose proof (length_seated_le room Hs Hr Hc). unfold len in *. lia.
Qed.

Lemma empty_seats_count_spec_witness :
  let room := mkRoom (RoomInt 101) 1 2 [[None; Some cse1]] in
  scannable room ∧ get_empty_seats_count room = Ok 1.
Proof.
  intros room.
  assert (scannable room) as Hsc.
  { split; [split; [reflexivity|by repeat constructor]|simpl; lia]. }
  split; [exact Hsc|].
  destruct (empty_seats_count_spec room Hsc) as (n & -> & -> & _).
  reflexivity.
Defined.

Lemma length_seated_grid_set g i j x y :
  cell g i j = Some y →
  (length (omap id (concat (grid_set g i j x))) + length (option_list y)
   = length (omap id (concat g)) + length (option_list x))%nat.
Proof.
  unfold cell. intros Hc.
  destruct (g !! i) as [r|] eqn:Hi; simplify_eq/=.
  rewrite (grid_set_insert _ _ _ _ _ Hi).
  rewrite insert_take_drop by (by eapply lookup_lt_Some).
  rewrite (insert_take_drop r) by (by eapply lookup_lt_Some).
  rewrite <-(take_drop_middle g i r Hi) at 3.
  rewrite <-(take_drop_middle r j y Hc) at 3.
  rewrite !concat_app, !omap_app. simpl.
  rewrite !omap_app, !length_app.
  assert (∀ (e : option Student) l,
            length (omap id (e :: l))
            = (length (option_list e) + length (omap id l))%nat) as Hcons.
  { intros [s|] l; done. }
  rewrite !Hcons. lia.
Qed.

(** X13: in such a room, writing a seat changes the number of empty seats
    by the seat alone: one less when a student takes an empty seat, one more
    when an occupied seat is emptied, the same when an occupant is replaced
    or an empty seat is written empty. *)
Theorem set_seat_empty_count (room : Room) (row column : Z)
    (old new : option Student) :
  scannable room → in_bounds room (row, column) →
  get_seat room row column = Ok old →
  ∃ room' n,
    set_seat room row column new = Ok room' ∧
    get_empty_seats_count room = Ok n ∧
    get_empty_seats_count room'
    = Ok (n + len (option_list old) - len (option_list new)).
Proof.
  intros (Hs & Hr & Hc) Hb Hget.
  destruct (get_seat_in_bounds room row column Hs Hb) as (x & Hx & Hget').
  rewrite Hget in Hget'. simplify_eq.
  eexists _, _. split; [by apply set_seat_in_bounds|].
  split; [by apply get_empty_seats_count_ok|].
  rewrite get_empty_seats_count_ok; [|by apply grid_set_shape|done..].
  f_equal. unfold capacity, seated, len. simpl.
  pose proof (length_seated_grid_set (seating_grid room) (Z.to_nat row)
                (Z.to_nat column) new x Hx). lia.
Qed.

Lemma set_seat_empty_count_witness :
  let room := mkRoom (RoomInt 101) 1 2 [[None; Some cse1]] in
  scannable room ∧ in_bounds room (0, 0) ∧ get_seat room 0 0 = Ok None ∧
  ∃ room', set_seat room 0 0 (Some ece1) = Ok room' ∧
           get_empty_seats_count room' = Ok 0.
Proof.
  intros room.
  assert (scannable room) as Hsc.
  { split; [split; [reflexivity|by repeat constructor]|simpl; lia]. }
  assert (in_bounds room (0, 0)) as Hb by (unfold in_bounds; simpl; lia).
  assert (get_seat room 0 0 = Ok None) as Hget by reflexivity.
  split; [exact Hsc|]. split; [exact Hb|]. split; [exact Hget|].
  destruct (set_seat_empty_count room 0 0 None (Some ece1) Hsc Hb Hget)
    as (room' & n & Hset & Hn & Hn').
  exists room'. split; [exact Hset|].
  assert (n = 1) as -> by (vm_compute in Hn; congruence).
  exact Hn'.
Defined.

Lemma grid_set_set_eq g i j x y :
  grid_set (grid_set g i j x) i j y = grid_set g i j y.
Proof.
  unfold grid_set. rewrite list_alter_alter_eq.
  apply list_alter_ext; [|done]. intros r _. simpl.
  apply list_insert_insert_eq.
Qed.

Lemma grid_set_set_ne g i j x i' j' y :
  (i, j) ≠ (i', j') →
  grid_set (grid_set g i j x) i' j' y = grid_set (grid_set g i' j' y) i j x.
Proof.
  unfold grid_set. intros Hne. destruct (decide (i = i')) as [<-|Hi].
  - rewrite !list_alter_alter_eq. apply list_alter_ext; [|done].
    intros r _. simpl. apply list_insert_insert_ne. congruence.
  - by rewrite list_alter_alter_ne.
Qed.

(** X14: writes of seats compose as writes of distinct cells: in a room
    whose grid has its dimensions, two [set_seat] at the same position
    leave what the second alone leaves, and two [set_seat] at different
    positions give the same room in either order. *)
Theorem set_seat_compose (room : Room) (p q : Z * Z) (x y : option Student) :
  grid_shape room → in_bounds room p → in_bounds room q →
  ((room1 ← set_seat room p.1 p.2 x; set_seat room1 p.1 p.2 y)
   = set_seat room p.1 p.2 y) ∧
  (p ≠ q →
   (room1 ← set_seat room p.1 p.2 x; set_seat room1 q.1 q.2 y)
   = (room1 ← set_seat room q.1 q.2 y; set_seat room1 p.1 p.2 x)).
Proof.
  intros Hs Hp Hq. destruct p as [r c], q as [r' c']. cbn [fst snd].
  rewrite !(set_seat_in_bounds room) by done. cbn [mbind result_bind].
  rewrite !set_seat_in_bounds by (done || by apply grid_set_shape).
  cbn [with_grid seating_grid room_no rows columns]. split.
  - by rewrite grid_set_set_eq.
  - intros Hne. unfold with_grid. cbn [seating_grid room_no rows columns].
    do 2 f_equal. apply grid_set_set_ne.
    apply (npos_ne room (r, c) (r', c')); done.
Qed.

Lemma set_seat_compose_witness :
  let room := new_Room (RoomInt 101) 2 2 in
  grid_shape room ∧ in_bounds room (0, 1) ∧ in_bounds room (1, 0) ∧
  (room1 ← set_seat room 0 1 (Some ece1); set_seat room1 1 0 (Some cse1))
  = (room1 ← set_seat room 1 0 (Some cse1); set_seat room1 0 1 (Some ece1)).
Proof.
  intros room.
  assert (grid_shape room) as Hs by apply new_Room_shape.
  assert (in_bounds room (0, 1)) as Hp by (unfold in_bounds; simpl; lia).
  assert (in_bounds room (1, 0)) as Hq by (unfold in_bounds; simpl; lia).
  split; [exact Hs|]. split; [exact Hp|]. split; [exact Hq|].
  apply (proj2 (set_seat_compose room (0, 1) (1, 0) (Some ece1) (Some cse1)
                  Hs Hp Hq)).
  discriminate.
Defined.

(** ** Students *)

Lemma BRANCH_CODES_labels : Forall (λ kv, kv.2 ≠ ""%string) BRANCH_CODES.
Proof. repeat constructor; discriminate. Qed.

Lemma dict_get_is_Some {K V} `{EqDecision K} (k : K) (d : list (K * V)) :
  is_Some (dict_get k d) ↔ k ∈ d.*1.
Proof.
  split.
  - intros [v Hv]. apply dict_get_Some_elem in Hv.
    apply list_elem_of_fmap. by exists (k, v).
  - intros Hin. destruct (dict_get k d) eqn:Hd; [by eexists|].
    exfalso. revert Hd. clear -Hin.
    induction d as [|[k' v'] d IH]; csimpl in *.
    + by apply elem_of_nil in Hin.
    + case_decide; [done|]. apply IH.
      apply elem_of_cons in Hin as [->|Hin]; done.
Qed.

Lemma str_slice_length_10 (h : string) (a : nat) :
  String.length h = 10%nat → (a ≤ 8)%nat →
  String.length (str_slice a (a + 2) h) = 2%nat.
Proof.
  intros Hlen Ha.
  destruct h as [|c0 [|c1 [|c2 [|c3 [|c4 [|c5 [|c6 [|c7 [|c8 [|c9 [|]]]]]]]]]]];
    try discriminate Hlen.
  do 9 (destruct a as [|a]; [reflexivity|]). lia.
Qed.

(** X15: the branch derived from a hall ticket number is the entry of the
    table for [get_branch_code], empty when there is none; it is never a
    label outside the table.  For a number of 10 characters the branch code
    and the college code have two characters, otherwise both are empty. *)
Theorem derived_branch_is_table_entry (self : Student) :
  _get_branch_from_hallticket self
  = default ""%string (dict_get (get_branch_code self) BRANCH_CODES) ∧
  (_get_branch_from_hallticket self = ""%string ∨
   (get_branch_code self, _get_branch_from_hallticket self) ∈ BRANCH_CODES) ∧
  (String.length (hallticket_no self) = 10%nat →
     String.length (get_branch_code self) = 2%nat ∧
     String.length (get_college_code self) = 2%nat) ∧
  (String.length (hallticket_no self) ≠ 10%nat →
     get_branch_code self = ""%string ∧ get_college_code self = ""%string).
Proof.
  unfold _get_branch_from_hallticket, get_branch_code, get_college_code.
  case_bool_decide as Hlen.
  - set (code := str_slice 6 8 (hallticket_no self)).
    unfold dict_contains.
    destruct (dict_get code BRANCH_CODES) as [label|] eqn:Hget.
    + rewrite bool_decide_eq_true_2 by eauto. simpl.
      split_and!; [done| |intros _; split|done];
        [|apply (str_slice_length_10 _ 6 Hlen); lia
         |apply (str_slice_length_10 _ 2 Hlen); lia].
      right. by apply dict_get_Some_elem.
    + rewrite bool_decide_eq_false_2 by (by intros [? ?]). simpl.
      split_and!; [done|by left|intros _; split|done];
        [apply (str_slice_length_10 _ 6 Hlen); lia
        |apply (str_slice_length_10 _ 2 Hlen); lia].
  - split_and!; [done|by left|done|done].
Qed.

Lemma derived_branch_is_table_entry_witness :
  String.length (get_branch_code cse1) = 2%nat ∧
  String.length (get_college_code cse1) = 2%nat.
Proof.
  apply (derived_branch_is_table_entry cse1). reflexivity.
Defined.

(** X16: a student constructed without a branch gets the derived branch
    when the hall ticket number has 10 characters and no branch at all
    ([None], not the empty label) when it has not; it carries a non-empty
    branch label exactly when the number has 10 characters and its branch
    code is a key of the table.  A branch given to the constructor is kept
    as it is. *)
Theorem constructed_student_branch (hallticket : string)
    (year semester : option Z) (regulation : option string) :
  let student := new_Student hallticket year semester regulation None in
  (String.length hallticket ≠ 10%nat → branch_name student = None) ∧
  (String.length hallticket = 10%nat →
     branch_name student = Some (_get_branch_from_hallticket student)) ∧
  (has_branch student ↔
     String.length hallticket = 10%nat ∧
     get_branch_code student ∈ BRANCH_CODES.*1) ∧
  (∀ branch,
     branch_name (new_Student hallticket year semester regulation (Some branch))
     = Some branch).
Proof.
  intros student. unfold student, new_Student, has_branch.
  case_bool_decide as Hlen; cbn [branch_name hallticket_no].
  - split_and!; [done|done| |done].
    unfold _get_branch_from_hallticket, get_branch_code.
    cbn [hallticket_no]. rewrite bool_decide_eq_true_2 by done.
    set (code := str_slice 6 8 hallticket).
    rewrite <-dict_get_is_Some. unfold dict_contains, truthy_str.
    destruct (dict_get code BRANCH_CODES) as [label|] eqn:Hget.
    + rewrite (bool_decide_eq_true_2 (is_Some _)) by eauto. simpl.
      pose proof BRANCH_CODES_labels as Hlabels.
      rewrite Forall_forall in Hlabels.
      specialize (Hlabels _ (dict_get_Some_elem _ _ _ Hget)). simpl in Hlabels.
      rewrite bool_decide_eq_false_2 by done. split; [eauto|done].
    + rewrite (bool_decide_eq_false_2 (is_Some _)) by (by intros [? ?]). simpl.
      split; [done|]. by intros [_ [? ?]].
  - split_and!; [done|done| |done]. simpl. split; [done|]. by intros [? _].
Qed.

Lemma constructed_student_branch_witness :
  branch_name (new_Student "21321A0501" None None None None) = Some "CSE"%string ∧
  has_branch (new_Student "21321A0501" None None None None).
Proof.
  destruct (constructed_student_branch "21321A0501" None None None)
    as (_ & Hderived & Hbranch & _).
  split.
  - apply Hderived. reflexivity.
  - apply Hbranch. split; [reflexivity|]. simpl.
    do 4 apply list_elem_of_further. apply list_elem_of_here.
Defined.

(** ** Allocation as a whole *)

Lemma clear_all_seats_frame room room' :
  same_frame room room' → clear_all_seats room' = clear_all_seats room.
Proof. intros (H1 & H2 & H3). unfold clear_all_seats. by rewrite H1, H2, H3. Qed.

Lemma fill_bands_frame even_list odd_list o e room :
  let room' := fill_bands even_list odd_list o e (clear_all_seats room) in
  same_frame room room' ∧ grid_shape room'.
Proof.
  split; [apply (fill_bands_dims _ _ _ _ (clear_all_seats room))|].
  unfold fill_bands. do 2 apply fill_walk_shape. apply clear_all_seats_shape.
Qed.

Lemma fill_walk_frame q room ps :
  let room' := fill_walk q 0 (clear_all_seats room) ps in
  same_frame room room' ∧ grid_shape room'.
Proof.
  split; [apply (fill_walk_dims _ _ (clear_all_seats room))|].
  apply fill_walk_shape, clear_all_seats_shape.
Qed.

Lemma alloc_alternating_frame even_list odd_list o e rooms :
  Forall2 (λ room room', same_frame room room' ∧ grid_shape room')
          rooms (alloc_alternating even_list odd_list o e rooms).
Proof.
  revert o e. induction rooms as [|room rooms IH]; intros o e; simpl;
    constructor; [apply fill_bands_frame|apply IH].
Qed.

Lemma alloc_sequential_frame students rooms :
  Forall2 (λ room room', same_frame room room' ∧ grid_shape room')
          rooms (alloc_sequential students rooms).
Proof.
  unfold alloc_sequential. apply Forall2_fmap_r, Forall_Forall2_diag.
  apply Forall_forall. intros room _. apply fill_walk_frame.
Qed.

Lemma allocated_rooms_frame session :
  Forall2 (λ room room', same_frame room room' ∧ grid_shape room')
          (rooms session) (allocated_rooms session).
Proof.
  unfold allocated_rooms.
  destruct (_create_even_odd_lists _) as [even_list odd_list].
  case_bool_decide;
    [apply alloc_alternating_frame|apply alloc_sequential_frame].
Qed.

Lemma frame_clear rooms rooms' :
  Forall2 (λ room room', same_frame room room' ∧ grid_shape room') rooms rooms' →
  clear_all_seats <$> rooms' = clear_all_seats <$> rooms.
Proof.
  induction 1 as [|room room' rooms rooms' [Hf _] _ IH]; csimpl; [done|].
  by rewrite IH, (clear_all_seats_frame _ _ Hf).
Qed.

Lemma sum_rows_columns_clear rooms :
  sum_rows_columns (clear_all_seats <$> rooms) = sum_rows_columns rooms.
Proof. induction rooms as [|room rooms IH]; csimpl; [done|]. by rewrite IH. Qed.

Lemma capacity_of_cleared session1 session2 :
  clear_all_seats <$> rooms session1 = clear_all_seats <$> rooms session2 →
  get_total_capacity session1 = get_total_capacity session2.
Proof.
  intros Hrooms. rewrite !get_total_capacity_sum.
  by rewrite <-(sum_rows_columns_clear (rooms session1)), Hrooms,
    sum_rows_columns_clear.
Qed.

Lemma alloc_alternating_clear even_list odd_list o e rooms :
  alloc_alternating even_list odd_list o e (clear_all_seats <$> rooms)
  = alloc_alternating even_list odd_list o e rooms.
Proof.
  revert o e. induction rooms as [|room rooms IH]; intros o e; csimpl; [done|].
  by rewrite IH.
Qed.

Lemma alloc_sequential_clear students rooms :
  alloc_sequential students (clear_all_seats <$> rooms)
  = alloc_sequential students rooms.
Proof. unfold alloc_sequential. by rewrite <-list_fmap_compose. Qed.

Lemma allocated_rooms_ext session1 session2 :
  students session1 = students session2 →
  clear_all_seats <$> rooms session1 = clear_all_seats <$> rooms session2 →
  allocated_rooms session1 = allocated_rooms session2.
Proof.
  intros Hstudents Hrooms. unfold allocated_rooms, get_students_by_branch.
  rewrite Hstudents.
  destruct (_create_even_odd_lists _) as [even_list odd_list].
  case_bool_decide.
  - by rewrite <-(alloc_alternating_clear _ _ _ _ (rooms session1)), Hrooms,
      alloc_alternating_clear.
  - by rewrite <-(alloc_sequential_clear _ (rooms session1)), Hrooms,
      alloc_sequential_clear.
Qed.

(** X17: a successful allocation changes nothing but the grids: the roster,
    the number of rooms, every room's number and dimensions and the total
    capacity are as before, and every grid afterwards is a [rows] by
    [columns] matrix, whatever the grids were before. *)
Theorem allocation_keeps_rooms (self : SeatingAllocator) :
  has_sufficient_capacity (exam_session self) = true →
  ∃ self',
    allocate_seats self = Ok (true, self') ∧
    students (exam_session self') = students (exam_session self) ∧
    Forall2 (λ room room', same_frame room room' ∧ grid_shape room')
            (rooms (exam_session self)) (rooms (exam_session self')) ∧
    get_total_capacity (exam_session self')
    = get_total_capacity (exam_session self).
Proof.
  intros Hcap. pose proof (allocate_seats_result self) as Hres.
  rewrite Hcap in Hres. destruct Hres as (self' & Hrun & Hsession).
  exists self'. rewrite Hsession. split_and!; [done|done| |].
  - apply allocated_rooms_frame.
  - apply capacity_of_cleared. simpl.
    apply frame_clear, allocated_rooms_frame.
Qed.

Lemma allocation_keeps_rooms_witness :
  ∃ self',
    allocate_seats (new_SeatingAllocator two_branch_session) = Ok (true, self') ∧
    students (exam_session self') = students two_branch_session ∧
    Forall2 (λ room room', same_frame room room' ∧ grid_shape room')
            (rooms two_branch_session) (rooms (exam_session self')) ∧
    get_total_capacity (exam_session self')
    = get_total_capacity two_branch_session.
Proof.
  apply (allocation_keeps_rooms (new_SeatingAllocator two_branch_session)).
  reflexivity.
Defined.

(** X18: the outcome of [allocate_seats] does not depend on who was seated
    before the call: two sessions with the same roster whose rooms agree
    once cleared get the same verdict and, on success, the same rooms. *)
Theorem allocation_ignores_prior_seating (self1 self2 : SeatingAllocator) :
  students (exam_session self1) = students (exam_session self2) →
  clear_all_seats <$> rooms (exam_session self1)
  = clear_all_seats <$> rooms (exam_session self2) →
  ∃ ok self1' self2',
    allocate_seats self1 = Ok (ok, self1') ∧
    allocate_seats self2 = Ok (ok, self2') ∧
    (ok = true →
       rooms (exam_session self1') = rooms (exam_session self2')).
Proof.
  intros Hstudents Hrooms.
  pose proof (allocate_seats_result self1) as H1.
  pose proof (allocate_seats_result self2) as H2.
  assert (has_sufficient_capacity (exam_session self1)
          = has_sufficient_capacity (exam_session self2)) as Hcap.
  { unfold has_sufficient_capacity.
    by rewrite Hstudents, (capacity_of_cleared _ _ Hrooms). }
  rewrite <-Hcap in H2.
  destruct (has_sufficient_capacity (exam_session self1)).
  - destruct H1 as (self1' & Hrun1 & Hs1), H2 as (self2' & Hrun2 & Hs2).
    exists true, self1', self2'. split_and!; [done|done|].
    intros _. rewrite Hs1, Hs2. simpl. by apply allocated_rooms_ext.
  - exists false, self1, self2. by split_and!.
Qed.

Lemma allocation_ignores_prior_seating_witness :
  ∃ ok self1' self2',
    allocate_seats (new_SeatingAllocator two_branch_session) = Ok (ok, self1') ∧
    allocate_seats
      (new_SeatingAllocator
         (session_of (students two_branch_session)
            [mkRoom (RoomInt 101) 3 3 [[Some cse1]]])) = Ok (ok, self2') ∧
    (ok = true →
       rooms (exam_session self1') = rooms (exam_session self2')).
Proof.
  apply (allocation_ignores_prior_seating
           (new_SeatingAllocator two_branch_session)
           (new_SeatingAllocator
              (session_of (students two_branch_session)
                 [mkRoom (RoomInt 101) 3 3 [[Some cse1]]])));
    reflexivity.
Defined.

(** X19: allocating again changes nothing: a second call of
    [allocate_seats] on the allocator left by a successful call succeeds
    and leaves the same session. *)
Theorem allocation_idempotent (self self' : SeatingAllocator) :
  allocate_seats self = Ok (true, self') →
  ∃ self'',
    allocate_seats self' = Ok (true, self'') ∧
    exam_session self'' = exam_session self'.
Proof.
  intros Hrun. pose proof (allocate_seats_result self) as Hres.
  destruct (has_sufficient_capacity (exam_session self)) eqn:Hcap;
    [|by rewrite Hres in Hrun].
  destruct Hres as (self0 & Hrun0 & Hsession).
  rewrite Hrun0 in Hrun. injection Hrun as ->.
  assert (clear_all_seats <$> rooms (exam_session self')
          = clear_all_seats <$> rooms (exam_session self)) as Hrooms.
  { rewrite Hsession. simpl. apply frame_clear, allocated_rooms_frame. }
  assert (students (exam_session self') = students (exam_session self))
    as Hstudents by (by rewrite Hsession).
  pose proof (allocate_seats_result self') as Hres'.
  assert (has_sufficient_capacity (exam_session self') = true) as Hcap'.
  { unfold has_sufficient_capacity in *.
    by rewrite Hstudents, (capacity_of_cleared _ _ Hrooms). }
  rewrite Hcap' in Hres'. destruct Hres' as (self'' & Hrun' & Hsession').
  exists self''. split; [done|].
  rewrite Hsession', (allocated_rooms_ext _ _ Hstudents Hrooms).
  by rewrite Hsession.
Qed.

Lemma allocation_idempotent_witness :
  ∃ self'',
    allocate_seats
      (mkSeatingAllocator
         (session_of (students two_branch_session)
            (allocated_rooms two_branch_session)) 6 3)
    = Ok (true, self'') ∧
    exam_session self''
    = session_of (students two_branch_session)
        (allocated_rooms two_branch_session).
Proof.
  apply (allocation_idempotent (new_SeatingAllocator two_branch_session)).
  vm_compute. reflexivity.
Defined.

(** ** Who can be seated *)

Lemma several_branches_groups session :
  len (get_students_by_branch session) > 1 ↔ several_branches session.
Proof.
  unfold len, several_branches.
  rewrite get_students_by_branch_stable, length_fmap.
  pose proof (first_seen_NoDup (branch_name <$> students session)) as Hnd.
  pose proof (first_seen_elem_of (branch_name <$> students session)) as Hin.
  destruct (first_seen (branch_name <$> students session)) as [|a [|b l]];
    simpl.
  - split; [lia|]. intros (s1 & _ & H1 & _).
    apply (list_elem_of_fmap_2 branch_name), Hin in H1.
    by apply elem_of_nil in H1.
  - split; [lia|]. intros (s1 & s2 & H1 & H2 & Hne).
    apply (list_elem_of_fmap_2 branch_name), Hin, list_elem_of_singleton in H1.
    apply (list_elem_of_fmap_2 branch_name), Hin, list_elem_of_singleton in H2.
    congruence.
  - split; [|lia]. intros _.
    assert (a ∈ branch_name <$> students session) as Ha
      by (apply Hin; left).
    assert (b ∈ branch_name <$> students session) as Hb
      by (apply Hin; right; left).
    apply list_elem_of_fmap in Ha as (s1 & -> & H1).
    apply list_elem_of_fmap in Hb as (s2 & -> & H2).
    exists s1, s2. split_and!; [done|done|].
    apply NoDup_cons in Hnd as [Hnotin _].
    intros Heq. apply Hnotin. rewrite Heq. left.
Qed.

Lemma omap_take_submseteq {A} (l : list (option A)) (n : nat) :
  omap id (take n l) ⊆+ omap id l.
Proof.
  rewrite <-(take_drop n l) at 2. rewrite omap_app.
  by apply submseteq_inserts_r.
Qed.

Lemma queue_students_roster session :
  let queues := _create_even_odd_lists (get_students_by_branch session) in
  omap id queues.1 ++ omap id queues.2 ≡ₚ students session.
Proof.
  destruct (queues_padded (get_students_by_branch session))
    as (SA & SB & pa & pb & -> & Hperm & _).
  simpl. rewrite !omap_padded, Hperm. apply get_students_by_branch_perm.
Qed.

Lemma seated_all_elem_of rooms s :
  s ∈ seated_all rooms ↔ ∃ room, room ∈ rooms ∧ s ∈ seated room.
Proof.
  unfold seated_all. rewrite list_elem_of_bind.
  split; intros (room & ? & ?); by exists room.
Qed.

(** X20: after a successful allocation every seated student is a student
    of the roster; when the roster holds two different branches, nobody is
    seated twice: the seated students, with their multiplicities, are among
    those of the roster. *)
Theorem seated_are_roster_students (self : SeatingAllocator) :
  has_sufficient_capacity (exam_session self) = true →
  ∃ self',
    allocate_seats self = Ok (true, self') ∧
    (∀ s, s ∈ seated_all (rooms (exam_session self')) →
          s ∈ students (exam_session self)) ∧
    (several_branches (exam_session self) →
       seated_all (rooms (exam_session self')) ⊆+ students (exam_session self)).
Proof.
  intros Hcap. pose proof (allocate_seats_result self) as Hres.
  rewrite Hcap in Hres. destruct Hres as (self' & Hrun & Hsession).
  exists self'. split; [done|]. rewrite Hsession. simpl.
  set (session := exam_session self).
  pose proof (queue_students_roster session) as Hroster. simpl in Hroster.
  unfold allocated_rooms.
  destruct (_create_even_odd_lists (get_students_by_branch session))
    as [even_list odd_list] eqn:Hq.
  simpl in Hroster.
  assert (several_branches session →
          seated_all (alloc_alternating even_list odd_list 0 0 (rooms session))
          ⊆+ students session) as Hmulti.
  { intros _. rewrite seated_alloc_alternating by done.
    rewrite <-Hroster, (Permutation_app_comm (omap id even_list)).
    apply submseteq_app; apply omap_take_submseteq. }
  case_bool_decide as Hg.
  - apply several_branches_groups in Hg. split; [|done].
    intros s Hs. by eapply elem_of_submseteq; [|apply Hmulti].
  - split; [|by intros ?%several_branches_groups].
    intros s (room' & Hroom' & Hs)%seated_all_elem_of.
    unfold alloc_sequential in Hroom'.
    apply list_elem_of_fmap in Hroom' as (room & -> & _).
    rewrite seated_sequential_room in Hs.
    eapply elem_of_submseteq in Hs; [|apply omap_take_submseteq].
    rewrite omap_app in Hs. by rewrite <-Hroster.
Qed.

Lemma seated_are_roster_students_witness :
  ∃ self',
    allocate_seats (new_SeatingAllocator unbalanced_session) = Ok (true, self') ∧
    (∀ s, s ∈ seated_all (rooms (exam_session self')) →
          s ∈ students unbalanced_session) ∧
    (several_branches unbalanced_session →
       seated_all (rooms (exam_session self')) ⊆+ students unbalanced_session).
Proof.
  apply (seated_are_roster_students (new_SeatingAllocator unbalanced_session)).
  reflexivity.
Defined.

(** ** A roster of one branch *)

Lemma q_at_padded (X : list Student) (n : nat) (i : Z) :
  q_at ((Some <$> X) ++ replicate n None) i = q_at (Some <$> X) i.
Proof.
  unfold q_at. destruct (decide (Z.to_nat i < length X)%nat) as [Hlt|Hge].
  - by rewrite lookup_app_l by (by rewrite length_fmap).
  - rewrite lookup_app_r by (rewrite length_fmap; lia).
    rewrite (lookup_ge_None_2 (Some <$> X)) by (rewrite length_fmap; lia).
    destruct (replicate n None !! _) as [e|] eqn:He; [|done].
    by apply lookup_replicate in He as [-> _].
Qed.

Lemma branch_group_all (l : list Student) (b : option string) :
  Forall (λ s, branch_name s = b) l → branch_group l b = l.
Proof.
  unfold branch_group. induction 1 as [|s l Hs _ IH]; [done|].
  by rewrite filter_cons_True, IH.
Qed.

Lemma single_branch_queue session :
  ¬ several_branches session →
  let queues := _create_even_odd_lists (get_students_by_branch session) in
  ∃ n, queues.1 ++ queues.2 = (Some <$> students session) ++ replicate n None.
Proof.
  intros Hone. rewrite create_lists_queues_spec.
  rewrite <-several_branches_groups in Hone. revert Hone.
  unfold len. rewrite get_students_by_branch_stable, length_fmap.
  pose proof (first_seen_elem_of (branch_name <$> students session)) as Hin.
  destruct (first_seen (branch_name <$> students session)) as [|b [|b' l]];
    simpl; [| |lia]; intros _.
  - destruct (students session) as [|s l]; [by exists 0%nat|].
    exfalso. eapply elem_of_nil, Hin. left.
  - rewrite branch_group_all.
    + unfold queues_spec, pad_queues. simpl.
      rewrite <-app_assoc, <-replicate_add. by eexists.
    + apply Forall_forall. intros s Hs.
      by apply (list_elem_of_fmap_2 branch_name), Hin,
        list_elem_of_singleton in Hs.
Qed.

(** X21: when all students of the roster have the same branch, every room
    of a successful allocation, read column by column from the top, holds
    the roster from its first student on, in roster order: each room is
    filled from the start of the roster. *)
Theorem single_branch_rooms_read_roster (self : SeatingAllocator)
    (k : nat) (room : Room) :
  has_sufficient_capacity (exam_session self) = true →
  ¬ several_branches (exam_session self) →
  rooms (exam_session self) !! k = Some room →
  ∃ self' room',
    allocate_seats self = Ok (true, self') ∧
    rooms (exam_session self') !! k = Some room' ∧
    read_walk room' (full_walk room)
    = queue_slice (Some <$> students (exam_session self)) 0
        (length (full_walk room)).
Proof.
  intros Hcap Hone Hroom.
  pose proof Hone as Hg. rewrite <-several_branches_groups in Hg.
  destruct (single_branch_rooms self Hcap Hg) as (self' & Hrun & Hrooms).
  destruct (single_branch_queue _ Hone) as [n Hq]. simpl in Hq.
  rewrite Hq in Hrooms. eexists self', _. split; [done|].
  rewrite Hrooms, list_lookup_fmap, Hroom. split; [done|].
  set (room0 := clear_all_seats room).
  pose proof (full_walk_in_bounds room) as Hb.
  apply read_walk_slice.
  - apply fill_walk_shape, clear_all_seats_shape.
  - by apply fill_walk_in_bounds.
  - intros i p Hp. rewrite <-q_at_padded with (n := n).
    apply fill_walk_at;
      [done|apply clear_all_seats_shape|done|apply full_walk_NoDup| |done].
    intros p' Hp'. apply cell_at_clear. by eapply walk_elem_in_bounds.
Qed.

Lemma single_branch_rooms_read_roster_witness :
  ∃ self' room',
    allocate_seats (new_SeatingAllocator single_branch_session)
    = Ok (true, self') ∧
    rooms (exam_session self') !! 1%nat = Some room' ∧
    read_walk room' (full_walk (new_Room (RoomInt 102) 1 1))
    = queue_slice (Some <$> students single_branch_session) 0
        (length (full_walk (new_Room (RoomInt 102) 1 1))).
Proof.
  apply (single_branch_rooms_read_roster
           (new_SeatingAllocator single_branch_session) 1
           (new_Room (RoomInt 102) 1 1)); [reflexivity| |reflexivity].
  intros (s1 & s2 & H1 & H2 & Hne). apply Hne.
  apply elem_of_cons in H1 as [->|H1]; apply elem_of_cons in H2 as [->|H2];
    try apply list_elem_of_singleton in H1 as ->;
    try apply list_elem_of_singleton in H2 as ->; reflexivity.
Defined.

(** ** Grouping and queues *)

(** X22: [get_students_by_branch] partitions the roster: the keys are the
    branches of the roster, each once, in the order of their first
    student; the group of a branch holds exactly the students of that
    branch, in roster order, and is never empty; all groups together hold
    every student of the roster once. *)
Theorem branch_groups_partition (session : ExamSession) :
  let groups := get_students_by_branch session in
  groups.*1 = first_seen (branch_name <$> students session) ∧
  NoDup groups.*1 ∧
  (∀ b g, (b, g) ∈ groups →
          g = branch_group (students session) b ∧ g ≠ []) ∧
  concat (dict_values groups) ≡ₚ students session.
Proof.
  intros groups. unfold groups.
  split_and!; [| | |apply get_students_by_branch_perm];
    rewrite get_students_by_branch_stable.
  - rewrite <-list_fmap_compose. apply list_fmap_id.
  - rewrite <-list_fmap_compose, list_fmap_id. apply first_seen_NoDup.
  - intros b g (b' & [= -> ->] & Hb)%list_elem_of_fmap. split; [done|].
    apply first_seen_elem_of, list_elem_of_fmap in Hb as (s & -> & Hs).
    intros Hnil.
    assert (s ∈ branch_group (students session) (branch_name s)) as Hin
      by (by apply list_elem_of_filter).
    rewrite Hnil in Hin. by apply elem_of_nil in Hin.
Qed.

Lemma place_groups_balance (A B : list Student) (groups : list (list Student))
    (m : nat) :
  (length A ≤ length B + m)%nat → (length B ≤ length A + m)%nat →
  Forall (λ g, length g ≤ m)%nat groups →
  let AB := place_groups A B groups in
  (length AB.1 ≤ length AB.2 + m)%nat ∧ (length AB.2 ≤ length AB.1 + m)%nat.
Proof.
  intros HA HB Hgroups. revert A B HA HB.
  induction Hgroups as [|g groups Hg _ IH]; intros A B HA HB; simpl; [done|].
  unfold len. case_bool_decide as Hlen; apply IH; rewrite ?length_app; lia.
Qed.

Lemma queue_students_balance (groups : list (list Student)) :
  let AB := queue_students groups in
  let m := max_list (length <$> groups) in
  (length AB.1 ≤ length AB.2 + m)%nat ∧ (length AB.2 ≤ length AB.1 + m)%nat.
Proof.
  destruct groups as [|g1 [|g2 rest]]; [simpl; lia|simpl; lia|].
  cbn [queue_students].
  assert (Forall (λ g, length g ≤ max_list (length <$> g1 :: g2 :: rest))%nat
            (g1 :: g2 :: rest)) as Hall.
  { apply Forall_forall. intros g Hg.
    by apply max_list_elem_of_le, list_elem_of_fmap_2. }
  apply Forall_cons in Hall as [H1 [H2 Hrest]%Forall_cons].
  apply place_groups_balance; [lia|lia|done].
Qed.

Lemma not_elem_of_Some_fmap {A} (l : list A) : None ∉ Some <$> l.
Proof. by intros (? & ? & ?)%list_elem_of_fmap. Qed.

(** X23: the two queues built by [_create_even_odd_lists] hold every
    student of the groups once and nothing else but empty places; they
    have the same length, at most one of them holds empty places, and the
    number of empty places is at most the size of the largest group. *)
Theorem queues_conserve_students (branch_groups : BranchGroups) :
  let queues := _create_even_odd_lists branch_groups in
  omap id queues.1 ++ omap id queues.2 ≡ₚ concat (dict_values branch_groups) ∧
  length queues.1 = length queues.2 ∧
  (None ∉ queues.1 ∨ None ∉ queues.2) ∧
  (length queues.1 + length queues.2
   ≤ length (concat (dict_values branch_groups))
     + max_list (length <$> dict_values branch_groups))%nat.
Proof.
  intros queues. unfold queues. rewrite create_lists_queues_spec.
  pose proof (queue_students_perm (dict_values branch_groups)) as Hperm.
  pose proof (queue_students_balance (dict_values branch_groups)) as Hbal.
  simpl in Hbal. unfold queues_spec, pad_queues.
  destruct (queue_students (dict_values branch_groups)) as [A B].
  simpl in *. rewrite !omap_padded.
  split_and!; [done| | |].
  - rewrite !length_app, !length_fmap, !length_replicate. lia.
  - destruct (decide (length A ≤ length B)%nat) as [Hle|Hgt]; [right|left].
    + replace (length A `max` length B - length B)%nat with 0%nat by lia.
      rewrite app_nil_r. apply not_elem_of_Some_fmap.
    + replace (length A `max` length B - length A)%nat with 0%nat by lia.
      rewrite app_nil_r. apply not_elem_of_Some_fmap.
  - rewrite <-Hperm, !length_app, !length_fmap, !length_replicate. lia.
Qed.

(** ** Statistics of the roster *)

Lemma branch_stats_loop (G : option string → list Student)
    (ks : list (option string)) (acc : list (option string * Z)) :
  NoDup (acc.*1 ++ ks) →
  foldl (λ d '(branch, studs), dict_set branch (len studs) d) acc
        ((λ b, (b, G b)) <$> ks)
  = acc ++ ((λ b, (b, len (G b))) <$> ks).
Proof.
  revert acc. induction ks as [|k ks IH]; intros acc Hnd; csimpl.
  - by rewrite app_nil_r.
  - rewrite dict_set_new.
    + rewrite IH, <-app_assoc; [done|].
      by rewrite fmap_app, <-app_assoc.
    + apply dict_get_None. apply NoDup_app in Hnd as (_ & Hnd & _).
      intros Hk. apply (Hnd _ Hk). left.
Qed.

Lemma dict_sum_group_sizes (G : option string → list Student)
    (ks : list (option string)) :
  dict_sum ((λ b, (b, len (G b))) <$> ks) = len (concat (G <$> ks)).
Proof.
  unfold len. induction ks as [|k ks IH]; csimpl; [done|].
  rewrite IH, length_app. lia.
Qed.

Lemma allocated_rooms_scannable session :
  Forall (λ room, 0 ≤ rows room ∧ 0 ≤ columns room) (rooms session) →
  NoDup (room_no <$> rooms session) →
  Forall scannable (allocated_rooms session) ∧
  NoDup (room_no <$> allocated_rooms session).
Proof.
  pose proof (allocated_rooms_frame session) as Hframe.
  revert Hframe. generalize (allocated_rooms session), (rooms session).
  intros rooms' rooms0 Hframe Hpos Hnd.
  assert (room_no <$> rooms' = room_no <$> rooms0) as ->; [|split; [|done]].
  - clear Hpos Hnd.
    induction Hframe as [|room room' l l' [(Hno & _ & _) _] _ IH]; csimpl;
      [done|]. by rewrite IH, Hno.
  - clear Hnd.
    induction Hframe as [|room room' l l' [(_ & Hr & Hc) Hshape] _ IH];
      [done|].
    apply Forall_cons in Hpos as [[Hrows Hcols] Hpos].
    constructor; [|by apply IH].
    unfold scannable. by rewrite Hr, Hc.
Qed.

(** X24: for rooms that can be scanned, [generate_statistics] returns, and
    its roster figures are these: [total_students] is the roster size,
    [total_rooms] the number of rooms, [total_capacity] the sum of
    [rows * columns]; [branch_stats] lists the branches of the roster in
    the order of their first student, each with the number of its
    students, and, as it counts students without a branch label too, it
    sums to [total_students]. *)
Theorem statistics_roster_counts (self : SeatingAllocator) :
  let session := exam_session self in
  Forall scannable (rooms session) →
  NoDup (room_no <$> rooms session) →
  ∃ stats,
    generate_statistics self = Ok stats ∧
    total_students stats = len (students session) ∧
    total_rooms stats = len (rooms session) ∧
    total_capacity stats = sum_rows_columns (rooms session) ∧
    branch_stats stats
    = (λ b, (b, len (branch_group (students session) b)))
      <$> first_seen (branch_name <$> students session) ∧
    dict_sum (branch_stats stats) = total_students stats.
Proof.
  intros session Hscan Hnd.
  destruct (rooms_stats_loop (rooms session) [] Hscan Hnd)
    as (rs & Hloop & _ & _).
  unfold generate_statistics. fold session. rewrite Hloop. simpl.
  eexists. split; [reflexivity|]. simpl.
  assert (foldl (λ d '(branch, studs), dict_set branch (len studs) d) []
            (get_students_by_branch session)
          = (λ b, (b, len (branch_group (students session) b)))
            <$> first_seen (branch_name <$> students session)) as ->.
  { rewrite get_students_by_branch_stable.
    apply (branch_stats_loop (branch_group (students session)) _ []).
    apply first_seen_NoDup. }
  split_and!; [done|done|apply get_total_capacity_sum|done|].
  rewrite (dict_sum_group_sizes (branch_group (students session))).
  pose proof (get_students_by_branch_perm session) as Hperm.
  rewrite get_students_by_branch_stable in Hperm.
  unfold dict_values in Hperm. rewrite <-list_fmap_compose in Hperm.
  unfold len. f_equal. by apply Permutation_length.
Qed.

Lemma statistics_roster_counts_witness :
  ∃ stats,
    generate_statistics (new_SeatingAllocator unknown_branch_session) = Ok stats ∧
    total_students stats = len (students unknown_branch_session) ∧
    total_rooms stats = len (rooms unknown_branch_session) ∧
    total_capacity stats = sum_rows_columns (rooms unknown_branch_session) ∧
    branch_stats stats
    = (λ b, (b, len (branch_group (students unknown_branch_session) b)))
      <$> first_seen (branch_name <$> students unknown_branch_session) ∧
    dict_sum (branch_stats stats) = total_students stats.
Proof.
  apply (statistics_roster_counts (new_SeatingAllocator unknown_branch_session)).
  - apply Forall_cons. split; [|apply Forall_nil; exact I].
    split; [apply new_Room_shape|simpl; lia].
  - simpl. apply NoDup_singleton.
Defined.

(** X25: statistics after an allocation.  For rooms with distinct numbers
    and non-negative dimensions, a successful [allocate_seats] followed by
    [generate_statistics] returns statistics whose occupied-seat counts sum
    to the number of seated students; when the roster holds two different
    branches this sum is at most [total_students]. *)
Theorem statistics_after_allocation (self : SeatingAllocator) :
  has_sufficient_capacity (exam_session self) = true →
  Forall (λ room, 0 ≤ rows room ∧ 0 ≤ columns room)
         (rooms (exam_session self)) →
  NoDup (room_no <$> rooms (exam_session self)) →
  ∃ self' stats,
    allocate_seats self = Ok (true, self') ∧
    generate_statistics self' = Ok stats ∧
    sum_assigned (rooms_stats stats)
    = len (seated_all (rooms (exam_session self'))) ∧
    (several_branches (exam_session self) →
       sum_assigned (rooms_stats stats) ≤ total_students stats).
Proof.
  intros Hcap Hpos Hnd. pose proof (allocate_seats_result self) as Hres.
  rewrite Hcap in Hres. destruct Hres as (self' & Hrun & Hsession).
  set (session := exam_session self) in *.
  destruct (allocated_rooms_scannable session Hpos Hnd) as [Hscan Hnd'].
  destruct (rooms_stats_loop (allocated_rooms session) [] Hscan Hnd')
    as (rs & Hloop & Hsum & _).
  exists self'. unfold generate_statistics. rewrite Hsession.
  cbn [rooms students set_rooms]. rewrite Hloop. simpl.
  eexists. split_and!; [done|reflexivity|done|]. simpl.
  intros Hmulti%several_branches_groups. rewrite Hsum. simpl.
  unfold allocated_rooms.
  pose proof (queue_students_roster session) as Hroster. simpl in Hroster.
  destruct (_create_even_odd_lists (get_students_by_branch session))
    as [even_list odd_list].
  rewrite bool_decide_eq_true_2 by done. simpl in Hroster.
  unfold len. apply inj_le. rewrite seated_alloc_alternating by done.
  rewrite <-Hroster, !length_app.
  pose proof (submseteq_length _ _ (omap_take_submseteq (drop 0 odd_list)
                (Z.to_nat (odd_cells (rooms session))))) as Ho.
  pose proof (submseteq_length _ _ (omap_take_submseteq (drop 0 even_list)
                (Z.to_nat (even_cells (rooms session))))) as He.
  change (Z.to_nat 0) with 0%nat. rewrite !drop_0 in *. lia.
Qed.

Lemma statistics_after_allocation_witness :
  ∃ self' stats,
    allocate_seats (new_SeatingAllocator unbalanced_session) = Ok (true, self') ∧
    generate_statistics self' = Ok stats ∧
    sum_assigned (rooms_stats stats)
    = len (seated_all (rooms (exam_session self'))) ∧
    (several_branches unbalanced_session →
       sum_assigned (rooms_stats stats) ≤ total_students stats).
Proof.
  apply (statistics_after_allocation (new_SeatingAllocator unbalanced_session)).
  - reflexivity.
  - apply Forall_cons. split; [simpl; lia|apply Forall_nil; exact I].
  - simpl. apply NoDup_singleton.
Defined.

(** ** An empty roster *)

(** X26: with no student on the roster, [allocate_seats] succeeds exactly
    when the total of [rows * columns] is not negative, and then it leaves
    every room cleared; a negative total rejects even the empty roster and
    changes nothing. *)
Theorem empty_roster_allocation (self : SeatingAllocator) :
  students (exam_session self) = [] →
  if bool_decide (0 ≤ sum_rows_columns (rooms (exam_session self))) then
    ∃ self',
      allocate_seats self = Ok (true, self') ∧
      rooms (exam_session self')
      = clear_all_seats <$> rooms (exam_session self)
  else allocate_seats self = Ok (false, self).
Proof.
  intros Hnil. pose proof (allocate_seats_result self) as Hres.
  assert (has_sufficient_capacity (exam_session self)
          = bool_decide (0 ≤ sum_rows_columns (rooms (exam_session self))))
    as Hcap.
  { unfold has_sufficient_capacity.
    rewrite get_total_capacity_sum, Hnil. unfold len.
    apply bool_decide_ext. simpl. lia. }
  rewrite Hcap in Hres. case_bool_decide as Hsum; [|done].
  destruct Hres as (self' & Hrun & Hsession).
  exists self'. split; [done|]. rewrite Hsession. simpl.
  unfold allocated_rooms, get_students_by_branch. rewrite Hnil. simpl.
  apply alloc_sequential_nil.
Qed.

Lemma empty_roster_allocation_witness :
  ∃ self',
    allocate_seats
      (new_SeatingAllocator
         (session_of [] [mkRoom (RoomInt 101) 1 1 [[Some cse1]]]))
    = Ok (true, self') ∧
    rooms (exam_session self') = [new_Room (RoomInt 101) 1 1].
Proof.
  apply (empty_roster_allocation
           (new_SeatingAllocator
              (session_of [] [mkRoom (RoomInt 101) 1 1 [[Some cse1]]]))).
  reflexivity.
Defined.

(** ** Grouping loops *)

Lemma keyed_fold {A K V} `{EqDecision K} (key : A → K) (F : list A → V)
    (upd : A → V → V) :
  (∀ g x, F (g ++ [x]) = upd x (F g)) →
  ∀ l,
    foldl (λ d x,
             dict_alter (upd x) (key x)
               (if negb (dict_contains (key x) d)
                then dict_set (key x) (F []) d else d)) [] l
    = (λ k, (k, F (filter (λ x, key x = k) l))) <$> first_seen (key <$> l).
Proof.
  intros HF l. induction l as [|s l IH] using rev_ind; [done|].
  rewrite foldl_app. cbn [foldl]. rewrite IH. clear IH.
  rewrite fmap_app. cbn [fmap list_fmap]. rewrite first_seen_snoc.
  set (ks := first_seen (key <$> l)).
  pose proof (first_seen_NoDup (key <$> l)) as Hnd. fold ks in Hnd.
  unfold dict_contains. rewrite dict_get_fmap_keys.
  assert (∀ k, filter (λ x, key x = k) (l ++ [s])
               = if decide (k = key s)
                 then filter (λ x, key x = k) l ++ [s]
                 else filter (λ x, key x = k) l) as Hgrp.
  { intros k. rewrite filter_app. case_decide as Hk.
    - by rewrite filter_cons_True, filter_nil.
    - rewrite filter_cons_False, filter_nil, app_nil_r; [done|]. congruence. }
  assert (key s ∉ key <$> l → filter (λ x, key x = key s) l = []) as Habsent.
  { clear. induction l as [|x l IH]; [done|].
    intros [Hne Hnot]%not_elem_of_cons.
    rewrite filter_cons_False by congruence. auto. }
  destruct (decide (key s ∈ ks)) as [Hin|Hin].
  - rewrite bool_decide_eq_true_2 by eauto. cbn [negb].
    rewrite dict_alter_fmap_keys by done.
    apply list_fmap_ext. intros i k Hk. rewrite Hgrp.
    case_decide; [|done]. subst k. by rewrite HF.
  - rewrite bool_decide_eq_false_2 by (by intros [? ?]). cbn [negb].
    rewrite dict_set_new by (by rewrite dict_get_fmap_keys, decide_False).
    rewrite dict_alter_app_new.
    2:{ rewrite <-list_fmap_compose. simpl. by rewrite list_fmap_id. }
    rewrite fmap_app. simpl. rewrite decide_True by done. f_equal.
    + apply list_fmap_ext. intros i k Hk. rewrite Hgrp.
      rewrite decide_False; [done|]. intros ->.
      apply Hin. by eapply list_elem_of_lookup_2.
    + rewrite Hgrp, decide_True by done. rewrite HF. do 3 f_equal.
      rewrite Habsent; [done|]. by rewrite <-first_seen_elem_of.
Qed.

Lemma groups_partition {A K} `{EqDecision K} (key : A → K) (l : list A) :
  concat ((λ k, filter (λ x, key x = k) l) <$> first_seen (key <$> l)) ≡ₚ l.
Proof.
  induction l as [|s l IH] using rev_ind; [done|].
  rewrite fmap_app. cbn [fmap list_fmap]. rewrite first_seen_snoc.
  set (ks := first_seen (key <$> l)) in *.
  assert (∀ k, filter (λ x, key x = k) (l ++ [s])
               = filter (λ x, key x = k) l
                 ++ (if decide (k = key s) then [s] else [])) as Hgrp.
  { intros k. rewrite filter_app. case_decide as Hk.
    - by rewrite filter_cons_True, filter_nil.
    - rewrite filter_cons_False, filter_nil; [done|]. congruence. }
  assert (∀ ks', NoDup ks' →
            concat ((λ k, filter (λ x, key x = k) (l ++ [s])) <$> ks')
            ≡ₚ concat ((λ k, filter (λ x, key x = k) l) <$> ks')
               ++ (if decide (key s ∈ ks') then [s] else [])) as Hstep.
  { induction 1 as [|k ks' Hk Hnd' IH']; [done|]. csimpl.
    rewrite IH', Hgrp. destruct (decide (k = key s)) as [->|Hne].
    - destruct (decide (key s ∈ ks')) as [?|_]; [done|].
      destruct (decide (key s ∈ key s :: ks')) as [_|Hn];
        [|by destruct Hn; left].
      rewrite app_nil_r, <-!app_assoc. apply Permutation_app_head.
      apply Permutation_app_comm.
    - rewrite app_nil_r, <-app_assoc. apply Permutation_app_head.
      destruct (decide (key s ∈ ks')) as [Hin|Hin];
        destruct (decide (key s ∈ k :: ks')) as [Hin'|Hin']; [done| | |done].
      + destruct Hin'. by right.
      + apply elem_of_cons in Hin' as [?|?]; by simplify_eq. }
  pose proof (first_seen_NoDup (key <$> l)) as Hnd. fold ks in Hnd.
  destruct (decide (key s ∈ ks)) as [Hin|Hin].
  - rewrite (Hstep ks Hnd), decide_True by done. by rewrite IH.
  - rewrite fmap_app, concat_app, (Hstep ks Hnd), decide_False by done.
    rewrite app_nil_r, IH. csimpl. rewrite app_nil_r, Hgrp.
    rewrite decide_True by done.
    assert (filter (λ x, key x = key s) l = []) as ->; [|done].
    assert (key s ∉ key <$> l) as Hnot by (by rewrite <-first_seen_elem_of).
    clear -Hnot. induction l as [|x l IHl]; [done|].
    apply not_elem_of_cons in Hnot as [Hne Hnot].
    rewrite filter_cons_False by congruence. auto.
Qed.

(** X27: [group_students_by_regulation] partitions the students of the
    controller by regulation: the keys are the regulations in the order of
    their first student, each once; the group of a regulation holds exactly
    its students, in their order; all groups together hold every student
    once.  [group_students_by_branch] gives the groups that the session
    computes for the same students. *)
Theorem student_groups_partition (self : StudentController.controller) :
  let students := StudentController.students self in
  StudentController.group_students_by_regulation self
  = (λ r, (r, filter (λ s, regulation s = r) students))
    <$> first_seen (regulation <$> students) ∧
  concat (dict_values (StudentController.group_students_by_regulation self))
  ≡ₚ students ∧
  StudentController.group_students_by_branch self
  = get_students_by_branch (session_of students []).
Proof.
  intros students.
  assert (StudentController.group_students_by_regulation self
          = (λ r, (r, filter (λ s, regulation s = r) students))
            <$> first_seen (regulation <$> students)) as Hgroups.
  { apply (keyed_fold regulation (λ g, g) (λ s g, g ++ [s])). done. }
  split_and!; [done| |done].
  rewrite Hgroups. unfold dict_values. rewrite <-list_fmap_compose.
  apply (groups_partition regulation).
Qed.

(** ** Sorted sets of years *)

Lemma sorted_set_spec (l : list Z) :
  StronglySorted Z.lt (sorted_set l) ∧ ∀ y, y ∈ sorted_set l ↔ y ∈ l.
Proof.
  unfold sorted_set. set (e := elements (list_to_set (C:=gset Z) l)).
  assert (NoDup e) as Hnd by apply NoDup_elements.
  assert (∀ y, y ∈ e ↔ y ∈ l) as He.
  { intros y. unfold e. by rewrite elem_of_elements, elem_of_list_to_set. }
  pose proof (merge_sort_Permutation Z.le e) as Hp.
  pose proof (StronglySorted_merge_sort Z.le e) as Hs.
  rewrite <-Hp in Hnd. split; [|intros y; by rewrite Hp].
  clear Hp He. revert Hnd Hs. generalize (merge_sort Z.le e). clear e.
  intros r0 Hnd Hs.
  induction Hs as [|x r Hs IH Hx]; constructor.
  - apply IH. by apply NoDup_cons in Hnd as [_ ?].
  - apply NoDup_cons in Hnd as [Hnot _].
    apply Forall_forall. intros y Hy.
    rewrite Forall_forall in Hx. specialize (Hx y Hy).
    assert (x ≠ y) by (by intros ->). lia.
Qed.

Lemma truthy_values (field : Student → option Z) (l : list Student) (y : Z) :
  y ∈ omap (λ student, if truthy_int (field student)
                       then field student else None) l
  ↔ y ≠ 0 ∧ ∃ s, s ∈ l ∧ field s = Some y.
Proof.
  rewrite list_elem_of_omap. split.
  - intros (s & Hs & Hy). unfold truthy_int in Hy.
    destruct (field s) as [n|] eqn:Hn; [|done].
    case_bool_decide; simplify_eq/=. eauto.
  - intros (Hy & s & Hs & Hf). exists s. split; [done|].
    rewrite Hf. simpl. by rewrite bool_decide_eq_false_2.
Qed.

(** X28: [get_unique_years] lists, in strictly increasing order and so
    without repetition, exactly the years of the students that are neither
    [None] nor 0; [get_unique_semesters] does the same for the
    semesters. *)
Theorem unique_years_spec (self : StudentController.controller) :
  let students := StudentController.students self in
  StronglySorted Z.lt (StudentController.get_unique_years self) ∧
  (∀ y, y ∈ StudentController.get_unique_years self
        ↔ y ≠ 0 ∧ ∃ s, s ∈ students ∧ year s = Some y) ∧
  StronglySorted Z.lt (StudentController.get_unique_semesters self) ∧
  (∀ y, y ∈ StudentController.get_unique_semesters self
        ↔ y ≠ 0 ∧ ∃ s, s ∈ students ∧ semester s = Some y).
Proof.
  intros students.
  unfold StudentController.get_unique_years,
    StudentController.get_unique_semesters.
  split_and!; try apply sorted_set_spec; intros y;
    (etrans; [apply sorted_set_spec|apply truthy_values]).
Qed.

(** ** Room summaries *)

Lemma dict_alter_guarded {K V} `{EqDecision K} (c : V → bool) (f : V → V)
    (v0 : V) (k : K) (d : list (K * V)) :
  (if c (default v0 (dict_get k d)) then dict_alter f k d else d)
  = dict_alter (λ v, if c v then f v else v) k d.
Proof.
  induction d as [|[k' v'] d IH]; simpl; [by destruct (c v0)|].
  case_decide; simpl; [by destruct (c v')|].
  rewrite <-IH. by destruct (c (default v0 (dict_get k d))).
Qed.

Lemma summary_cells (cells : Queue)
    (bd cd : list (option string * list string)) :
  foldl (λ a x, summary_step x a) (bd, cd) cells
  = (foldl (λ d s,
              dict_alter (λ l, l ++ [hallticket_no s]) (branch_name s)
                (if negb (dict_contains (branch_name s) d)
                 then dict_set (branch_name s) [] d else d))
           bd (filter (λ s, hallticket_no s ≠ ""%string) (omap id cells)),
     foldl (λ d s,
              dict_alter (add_code s) (branch_name s)
                (if negb (dict_contains (branch_name s) d)
                 then dict_set (branch_name s) [] d else d))
           cd (filter (λ s, hallticket_no s ≠ ""%string) (omap id cells))).
Proof.
  revert bd cd. induction cells as [|[s|] cells IH]; intros bd cd; [done| |].
  - assert (omap id (Some s :: cells) = s :: omap id cells) as -> by done.
    cbn [foldl]. unfold summary_step at 2. unfold truthy_str at 1.
    destruct (decide (hallticket_no s = ""%string)) as [He|Hne].
    + rewrite bool_decide_eq_true_2 by done. cbn [negb].
      rewrite filter_cons_False by (by intros ?). apply IH.
    + rewrite bool_decide_eq_false_2 by done. cbn [negb].
      rewrite filter_cons_True by done. cbn [foldl]. cbv zeta.
      pose proof (dict_alter_guarded
                    (λ v, truthy_str (Some (get_college_code s))
                          && negb (bool_decide (get_college_code s ∈ v)))
                    (λ l, l ++ [get_college_code s]) [] (branch_name s)
                    (if negb (dict_contains (branch_name s) cd)
                     then dict_set (branch_name s) [] cd else cd)) as Hg.
      cbv beta in Hg. rewrite Hg. apply IH.
  - assert (omap id (None :: cells) = omap id cells) as -> by done.
    cbn [foldl]. apply IH.
Qed.

Lemma codes_snoc (g : list Student) (s : Student) :
  first_seen (filter (λ code, code ≠ ""%string)
                (get_college_code <$> g ++ [s]))
  = add_code s (first_seen (filter (λ code, code ≠ ""%string)
                              (get_college_code <$> g))).
Proof.
  rewrite fmap_app, filter_app. unfold add_code, truthy_str. csimpl.
  destruct (decide (get_college_code s = ""%string)) as [He|Hne].
  - rewrite bool_decide_eq_true_2 by done.
    rewrite filter_cons_False by (by intros ?).
    by rewrite filter_nil, app_nil_r.
  - rewrite bool_decide_eq_false_2 by done.
    rewrite filter_cons_True by done. rewrite filter_nil, first_seen_snoc.
    simpl. case_decide as Hin.
    + by rewrite bool_decide_eq_true_2.
    + by rewrite bool_decide_eq_false_2.
Qed.

Lemma summary_of_cells (cells : Queue) :
  let T := filter (λ s, hallticket_no s ≠ ""%string) (omap id cells) in
  foldl (λ a x, summary_step x a) ([], []) cells
  = ((λ b, (b, hallticket_no <$> branch_group T b))
     <$> first_seen (branch_name <$> T),
     (λ b, (b, first_seen
                 (filter (λ code, code ≠ ""%string)
                    (get_college_code <$> branch_group T b))))
     <$> first_seen (branch_name <$> T)).
Proof.
  intros T. rewrite summary_cells. fold T. f_equal.
  - assert (∀ g x, hallticket_no <$> g ++ [x]
                   = (hallticket_no <$> g) ++ [hallticket_no x]) as HF
      by (intros g x; by rewrite fmap_app).
    exact (keyed_fold branch_name (λ g, hallticket_no <$> g)
             (λ s l, l ++ [hallticket_no s]) HF T).
  - exact (keyed_fold branch_name
             (λ g, first_seen (filter (λ code, code ≠ ""%string)
                                 (get_college_code <$> g)))
             add_code codes_snoc T).
Qed.

Lemma branch_group_present (l : list Student) (b : option string) :
  b ∈ first_seen (branch_name <$> l) → branch_group l b ≠ [].
Proof.
  intros (s & -> & Hs)%first_seen_elem_of%list_elem_of_fmap Hnil.
  assert (s ∈ branch_group l (branch_name s)) as Hin
    by (by apply list_elem_of_filter).
  rewrite Hnil in Hin. by apply elem_of_nil in Hin.
Qed.

Lemma no_empty_branches (room : Room) :
  filter (λ kv : option string * list string, len kv.2 = 0)
         (DataManager.branches (room_summary_of room)) = [].
Proof.
  unfold room_summary_of. cbn [DataManager.branches].
  pose proof (branch_group_present (ticketed room)) as Hne.
  induction (first_seen (branch_name <$> ticketed room)) as [|b bs IH];
    [done|].
  csimpl. rewrite filter_cons_False.
  - apply IH. intros b' Hb'. apply Hne. by right.
  - simpl. unfold len. rewrite length_fmap.
    specialize (Hne b (list_elem_of_here _ _)).
    destruct (branch_group (ticketed room) b); [done|simpl; lia].
Qed.

(** X29: for rooms that can be scanned, with distinct numbers,
    [_get_room_summary_data] returns, for every room in the order of the
    session, the summary of the seated students that carry a hall ticket
    number: their branches in the order of the first seat, row by row, each
    with the hall ticket numbers of its students and with their distinct,
    non-empty college codes.  No branch is listed with an empty list of
    numbers, so the removal of empty branches at the end of the method
    never removes anything. *)
Theorem room_summary_spec (exam_session : ExamSession) :
  Forall scannable (rooms exam_session) →
  NoDup (room_no <$> rooms exam_session) →
  DataManager._get_room_summary_data exam_session
  = Ok ((λ room, (room_no room, room_summary_of room)) <$> rooms exam_session) ∧
  Forall (λ room, Forall (λ kv, kv.2 ≠ [])
                         (DataManager.branches (room_summary_of room)))
         (rooms exam_session).
Proof.
  intros Hscan Hnd. split.
  - unfold DataManager._get_room_summary_data.
    match goal with |- context [for_each _ ?b _] => set (body := b) end.
    assert (∀ rooms0 acc,
              Forall scannable rooms0 →
              NoDup (acc.*1 ++ (room_no <$> rooms0)) →
              for_each rooms0 body acc
              = Ok (acc ++ ((λ room, (room_no room, room_summary_of room))
                            <$> rooms0))) as Hloop.
    { intros rooms0 acc Hsc. revert acc.
      induction Hsc as [|room rooms0 (Hs & Hr & Hc) Hsc IH]; intros acc Hnd0.
      { simpl. by rewrite app_nil_r. }
      assert (body room acc
              = Ok (acc ++ [(room_no room, room_summary_of room)])) as Hstep.
      { unfold body. rewrite for_each_nested. fold (row_major room).
        rewrite (scan_loop summary_step _ room);
          [| |done|apply row_major_in_bounds].
        2:{ intros p [bd cd]. unfold summary_step.
            destruct (get_seat room p.1 p.2) as [[s|]|]; [|done..].
            cbn [mbind result_bind].
            by destruct (truthy_str (Some (hallticket_no s))). }
        rewrite row_major_cells by done.
        rewrite summary_of_cells. cbn [mbind result_bind].
        change (filter _ (omap id (concat (seating_grid room))))
          with (ticketed room).
        pose proof (no_empty_branches room) as Hempty.
        unfold room_summary_of in Hempty. cbn [DataManager.branches] in Hempty.
        rewrite Hempty. cbn [fmap list_fmap foldl].
        rewrite dict_set_new; [done|].
        apply dict_get_None. apply NoDup_app in Hnd0 as (_ & Hdisj & _).
        intros Hin. apply (Hdisj _ Hin). left. }
      cbn [for_each]. rewrite Hstep. cbn [mbind result_bind].
      rewrite IH.
      - by rewrite <-app_assoc.
      - rewrite fmap_app, <-app_assoc. exact Hnd0. }
    by apply (Hloop (rooms exam_session) []).
  - apply Forall_forall. intros room _.
    unfold room_summary_of. cbn [DataManager.branches].
    apply Forall_fmap, Forall_forall. intros b Hb. simpl.
    apply branch_group_present in Hb.
    by destruct (branch_group (ticketed room) b).
Qed.

Lemma room_summary_spec_witness :
  DataManager._get_room_summary_data
    (session_of [] [mkRoom (RoomInt 101) 1 2 [[Some cse1; Some ece1]]])
  = Ok [(RoomInt 101,
         DataManager.mkRoomSummary
           [(Some "CSE", ["21321A0501"]); (Some "ECE", ["21321A0401"])]
           [(Some "CSE", ["32"]); (Some "ECE", ["32"])])]%string.
Proof.
  destruct (room_summary_spec
              (session_of [] [mkRoom (RoomInt 101) 1 2 [[Some cse1; Some ece1]]]))
    as [Hrun _].
  - apply Forall_cons. split; [|apply Forall_nil; exact I].
    split; [|simpl; lia]. split; [reflexivity|].
    apply Forall_cons. split; [reflexivity|apply Forall_nil; exact I].
  - simpl. apply NoDup_singleton.
  - exact Hrun.
Defined.
